(** * Collab Finder: a shallow embedding of [app.py]

    The development follows the layout of the source file: the text
    helpers, the SQLite operators the statements rely on, the three tables,
    and then one function per route handler, threaded through an explicit
    database value.  Handlers return the HTTP outcome together with the
    database as committed when the request ends. *)

From Stdlib Require Import ZArith List Bool Lia String Ascii.
From Stdlib Require Import Sorting.Sorted DecimalString OrdersEx RelationClasses.
From Stdlib Require Import Sorting.Permutation.
Import ListNotations.

Local Open Scope string_scope.
Local Open Scope list_scope.
Local Open Scope Z_scope.

(* ================================================================== *)
(** * Python text                                                      *)
(* ================================================================== *)

(** A Python [str] is a sequence of code points.  The embedding covers the
    code points U+0000..U+00FF, one [ascii] each; [string] is the type of
    such sequences. *)
Module Py.

(** [str.isspace] on one code point, which is also the class [\s] of a
    [str] pattern of [re]: TAB..CR, FS..US, SPACE, NEL and NBSP are the
    white-space code points below U+0100. *)
Definition isspace (c : ascii) : bool :=
  let n := N_of_ascii c in
  (((9 <=? n) && (n <=? 13)) || ((28 <=? n) && (n <=? 32))
   || (n =? 133) || (n =? 160))%N.

(** [str.lower] on one code point: A..Z and the Latin-1 capitals
    U+00C0..U+00DE (the multiplication sign U+00D7 apart) move by 32. *)
Definition lower_char (c : ascii) : ascii :=
  let n := N_of_ascii c in
  if (((65 <=? n) && (n <=? 90))
      || ((192 <=? n) && (n <=? 222) && negb (n =? 215)))%N
  then ascii_of_N (n + 32) else c.

(** [s.lower()] *)
Fixpoint lower (s : string) : string :=
  match s with
  | EmptyString => EmptyString
  | String c s' => String (lower_char c) (lower s')
  end.

(** Truth value of a [str]: non-empty. *)
Definition truthy (s : string) : bool :=
  match s with EmptyString => false | String _ _ => true end.

(** [re.sub(r"\s+", " ", s)]: every maximal run of white space becomes
    one space.  [in_run] tells that the previous code point belonged to
    the run being replaced. *)
Fixpoint re_sub_ws (in_run : bool) (s : string) : string :=
  match s with
  | EmptyString => EmptyString
  | String c s' =>
      if isspace c
      then (if in_run then re_sub_ws true s'
            else String " " (re_sub_ws true s'))
      else String c (re_sub_ws false s')
  end.

(** [s.lstrip()] *)
Fixpoint lstrip (s : string) : string :=
  match s with
  | EmptyString => EmptyString
  | String c s' => if isspace c then lstrip s' else s
  end.

(** [s.rstrip()] *)
Fixpoint rstrip (s : string) : string :=
  match s with
  | EmptyString => EmptyString
  | String c s' =>
      match rstrip s' with
      | EmptyString => if isspace c then EmptyString else String c EmptyString
      | r => String c r
      end
  end.

(** [s.strip()] *)
Definition strip (s : string) : string := rstrip (lstrip s).

(** [t.startswith(s)], by code points. *)
Fixpoint startswith (s t : string) : bool :=
  match s, t with
  | EmptyString, _ => true
  | String a s', String b t' => Ascii.eqb a b && startswith s' t'
  | String _ _, EmptyString => false
  end.

(** [needle in hay] for two strings: [needle] occurs at some offset. *)
Fixpoint contains (needle hay : string) : bool :=
  startswith needle hay
  || match hay with
     | EmptyString => false
     | String _ hay' => contains needle hay'
     end.

(** [s.rfind(".")]: offset of the last full stop, [-1] when there is none. *)
Fixpoint rfind_dot (s : string) : Z :=
  match s with
  | EmptyString => -1
  | String c s' =>
      let r := rfind_dot s' in
      if 0 <=? r then r + 1
      else if Ascii.eqb c "." then 0 else -1
  end.

(** [s[i:]] for [0 <= i]. *)
Fixpoint slice_from (i : nat) (s : string) : string :=
  match i, s with
  | O, _ => s
  | S i', String _ s' => slice_from i' s'
  | S _, EmptyString => EmptyString
  end.

(** [str(n)] for an [int]. *)
Definition str_of_int (n : Z) : string :=
  NilZero.string_of_int (Z.to_int n).

End Py.

(** [normalize_text(s)].  The argument is a form value (always a [str]) or
    a TEXT column read back from a row, which may be NULL: [None] stands for
    Python's [None], which [not s] sends to the empty string as it does the
    empty [str]. *)
Definition normalize_text (s : option string) : string :=
  match s with
  | None => ""
  | Some t => if negb (Py.truthy t) then "" else Py.strip (Py.re_sub_ws false t)
  end.

(* ================================================================== *)
(** * SQLite operators used by the statements                          *)
(* ================================================================== *)

Module Sqlite.

(** A truth value of SQL: [None] is NULL.  A WHERE clause keeps a row
    only when its condition is [Some true]. *)
Definition sql_bool := option bool.

Definition sql_and (a b : sql_bool) : sql_bool :=
  match a, b with
  | Some false, _ | _, Some false => Some false
  | Some true, Some true => Some true
  | _, _ => None
  end.

Definition sql_or (a b : sql_bool) : sql_bool :=
  match a, b with
  | Some true, _ | _, Some true => Some true
  | Some false, Some false => Some false
  | _, _ => None
  end.

Definition where_keeps (c : sql_bool) : bool :=
  match c with Some true => true | _ => false end.

(** [column = ?] on TEXT with the BINARY collation; the parameter is
    never NULL. *)
Definition text_eq (column : option string) (param : string) : sql_bool :=
  match column with
  | None => None
  | Some s => Some (String.eqb s param)
  end.

(** Case folding of LIKE: the letters A..Z only. *)
Definition tolower (c : ascii) : ascii :=
  let n := N_of_ascii c in
  if ((65 <=? n) && (n <=? 90))%N then ascii_of_N (n + 32) else c.

(** The text SQLite's string routines read from a value: they stop at
    the first U+0000. *)
Fixpoint c_str (s : string) : string :=
  match s with
  | EmptyString => EmptyString
  | String c s' =>
      if Ascii.eqb c Ascii.zero then EmptyString else String c (c_str s')
  end.

(** [patternCompare] of LIKE without an ESCAPE clause: [%] stands for any
    run of characters, [_] for exactly one, any other character for itself
    up to [tolower]. *)
Fixpoint like_match (pat : string) : string -> bool :=
  match pat with
  | EmptyString => fun s => negb (Py.truthy s)
  | String p pat' =>
      if Ascii.eqb p "%" then
        fix any (s : string) : bool :=
          like_match pat' s
          || match s with
             | EmptyString => false
             | String _ s' => any s'
             end
      else if Ascii.eqb p "_" then
        fun s => match s with
                 | EmptyString => false
                 | String _ s' => like_match pat' s'
                 end
      else
        fun s => match s with
                 | EmptyString => false
                 | String c s' =>
                     Ascii.eqb (tolower p) (tolower c) && like_match pat' s'
                 end
  end.




(** [s LIKE pat] on a pattern LIKE does not refuse: pattern and text are
    compared as far as their first U+0000. *)
Definition like (pat s : string) : bool :=
  like_match (c_str pat) (c_str s).

(** [column LIKE ?] *)
Definition text_like (column : option string) (pat : string) : sql_bool :=
  match column with
  | None => None
  | Some s => Some (like pat s)
  end.

(** The order of ORDER BY on a TEXT column: NULL sorts below every text,
    texts compare code point by code point. *)
Definition text_le (a b : option string) : bool :=
  match a, b with
  | None, _ => true
  | Some _, None => false
  | Some x, Some y => String.leb x y
  end.

(** ORDER BY under [le]: each row is inserted into the sorted rest,
    before the first row it may precede.  (SQLite leaves the order of rows
    with equal keys open; here they keep the table's order.) *)
Section OrderBy.
Context {A : Type} (le : A -> A -> bool).

Fixpoint insert_row (r : A) (l : list A) : list A :=
  match l with
  | [] => [r]
  | x :: l' => if le r x then r :: x :: l' else x :: insert_row r l'
  end.

Fixpoint order_by (l : list A) : list A :=
  match l with
  | [] => []
  | r :: l' => insert_row r (order_by l')
  end.
End OrderBy.

(** LIMIT n *)
Definition limit {A : Type} (n : nat) (l : list A) : list A := firstn n l.

(** The rowid an AUTOINCREMENT key gives the next row. *)
Definition next_rowid (ids : list Z) : Z := 1 + fold_right Z.max 0 ids.

End Sqlite.

(* ================================================================== *)
(** * Tables                                                           *)
(* ================================================================== *)

(** [users]: the columns the handlers read and write. *)
Module User.
Record t := mk
  { id : Z; email : string; password_hash : string; created_at : string }.
End User.

(** [profiles] as [init_db] creates it.  TEXT columns may hold NULL. *)
Module Profile.
Record t := mk
  { user_id : Z;
    photo_filename : option string;
    title : option string;
    full_name : option string;
    highest_qualification : option string;
    country : option string;
    university : option string;
    school_faculty : option string;
    position : option string;
    supervisor_name : option string;
    bio : option string;
    skills : option string;
    device_access : option string;
    updated_at : option string }.

(** The row of [INSERT INTO profiles(user_id, updated_at) VALUES (?,?)]. *)
Definition empty (uid : Z) (now : string) : t :=
  mk uid None None None None None None None None None None None None
     (Some now).
End Profile.

(** [messages] with the columns of [init_db], the ones every statement of
    the handlers names. *)
Module Message.
Record t := mk
  { id : Z; sender_id : Z; receiver_id : Z;
    body : string; created_at : string; is_read : Z }.
End Message.

(** The [messages] table is created by whichever CREATE TABLE IF NOT EXISTS
    meets the database first.  [ensure_schema] gives it the columns
    [id, sender_id, recipient_id, body, created_at, read_at]; the INSERT
    of [send_message], the SELECT and the UPDATE of [thread] and the first
    SELECT of [inbox] name [receiver_id] or [is_read] and are refused on
    that table, so it never receives a row and is kept here without
    rows. *)
Inductive messages_table :=
| InitDbMessages (rows : list Message.t)
| EnsureSchemaMessages.

(** The database file once the program serves requests. *)
Record db := mkDb
  { users : list User.t;
    profiles : list Profile.t;
    messages : messages_table }.

(** ** Start-up: [ensure_schema], [init_db], [reset_db] and [__main__] *)

(** The file during start-up: a table is there or not yet. *)
Record db_file := mkFile
  { f_users : option (list User.t);
    f_profiles : option (list Profile.t);
    f_messages : option messages_table }.

(** What [sqlite3.connect] finds when [collab.db] does not exist. *)
Definition new_file : db_file := mkFile None None None.

(** CREATE TABLE IF NOT EXISTS *)
Definition create_if_not_exists {T : Type} (empty : T) (table : option T)
  : option T :=
  match table with
  | Some t => Some t
  | None => Some empty
  end.

(** [ensure_schema()]: [users] and [messages], the latter with
    [recipient_id] and [read_at]. *)
Definition ensure_schema (f : db_file) : db_file :=
  mkFile (create_if_not_exists [] (f_users f))
         (f_profiles f)
         (create_if_not_exists EnsureSchemaMessages (f_messages f)).

(** [init_db()]: the three tables.  The migrations only add columns of
    [profiles] that are missing, none on a table this function created. *)
Definition init_db (f : db_file) : db_file :=
  mkFile (create_if_not_exists [] (f_users f))
         (create_if_not_exists [] (f_profiles f))
         (create_if_not_exists (InitDbMessages []) (f_messages f)).

(** [reset_db()]: unlink the file, then [init_db]. *)
Definition reset_db (f : db_file) : db_file := init_db new_file.

(** Running [app.py] as a script: the module body calls [ensure_schema()]
    on import, before the [__main__] block looks at [--reset-db]. *)
Definition main (reset_flag : bool) (file : option db_file) : db_file :=
  let f := ensure_schema (match file with Some f => f | None => new_file end) in
  if reset_flag then reset_db f else init_db f.

(** The database the handlers see, once all three tables exist. *)
Definition serving (f : db_file) : option db :=
  match f_users f, f_profiles f, f_messages f with
  | Some u, Some p, Some m => Some (mkDb u p m)
  | _, _, _ => None
  end.

(* ================================================================== *)
(** * Requests and responses                                           *)
(* ================================================================== *)

(** [request.form] and [request.args]: fields in the order received. *)
Definition fields := list (string * string).

(** [d.get(key)] *)
Fixpoint get (d : fields) (key : string) : option string :=
  match d with
  | [] => None
  | (k, v) :: d' => if String.eqb k key then Some v else get d' key
  end.

(** [d.get(key, default)] *)
Definition get_default (d : fields) (key default : string) : string :=
  match get d key with
  | Some v => v
  | None => default
  end.

(** An uploaded part, [werkzeug]'s [FileStorage]; it is falsy when its
    filename is.  Its bytes count in the length of the request body, which
    [profile_edit_request] holds against the cap. *)
Record FileStorage := mkFile_storage { filename : option string }.

Inductive method := GET | POST.

(** Targets of [url_for]. *)
Inductive endpoint :=
| ep_register
| ep_login
| ep_profile_edit
| ep_profile_card
| ep_inbox
| ep_view_profile (user_id : Z)
| ep_thread (user_id : Z).

(** Exceptions no handler catches; Flask answers 500. *)
Inductive db_error :=
| OperationalError   (* the statement names a column the table lacks *)
| IntegrityError.    (* a PRIMARY KEY or FOREIGN KEY constraint fails *)

Inductive response :=
| Redirect (target : endpoint) (flash_message flash_category : string)
| NotFound                                             (* abort(404) *)
| ServerError (e : db_error)
| RenderAuth
| RenderProfileEdit (profile : option Profile.t)
| RenderSearch (did_search : bool) (results : list Profile.t)
| RenderThread (msgs : list Message.t) (other_id : Z)
               (other_name : string) (me : Z).

(** What a request is answered: what the handler returns, or the 413 of
    the [RequestEntityTooLarge] that werkzeug raises when the handler
    reads [request.files] or [request.form] of a request whose
    Content-Length is over [MAX_CONTENT_LENGTH]. *)
Inductive answer :=
| Handled (r : response)
| RequestEntityTooLarge.

(* ================================================================== *)
(** * Statements                                                       *)
(* ================================================================== *)

(** [fetch_user(con, user_id)] *)
Definition fetch_user (d : db) (user_id : Z) : option User.t :=
  find (fun u => User.id u =? user_id) (users d).

(** [fetch_profile(con, user_id)] *)
Definition fetch_profile (d : db) (user_id : Z) : option Profile.t :=
  find (fun p => Profile.user_id p =? user_id) (profiles d).

(** [SELECT id FROM users WHERE email=?] *)
Definition select_user_by_email (d : db) (email : string) : option User.t :=
  find (fun u => String.eqb (User.email u) email) (users d).

(** [INSERT INTO users(email, password_hash, created_at)]; the row gets the
    next rowid, which [cur.lastrowid] reports. *)
Definition insert_user (d : db) (email pw_hash now : string) : Z * db :=
  let user_id := Sqlite.next_rowid (map User.id (users d)) in
  (user_id,
   mkDb (users d ++ [User.mk user_id email pw_hash now])
        (profiles d) (messages d)).

(** [INSERT INTO profiles(user_id, updated_at)]: [user_id] is the PRIMARY
    KEY and REFERENCES [users(id)], with [PRAGMA foreign_keys = ON]. *)
Definition insert_profile (d : db) (user_id : Z) (now : string)
  : db + db_error :=
  match fetch_profile d user_id, fetch_user d user_id with
  | None, Some _ =>
      inl (mkDb (users d) (profiles d ++ [Profile.empty user_id now])
                (messages d))
  | _, _ => inr IntegrityError
  end.

(** [INSERT INTO messages(sender_id, receiver_id, body, created_at)];
    [is_read] takes its DEFAULT 0, both ids REFERENCE [users(id)]. *)
Definition insert_message (d : db) (sender receiver : Z) (body now : string)
  : db + db_error :=
  match messages d with
  | EnsureSchemaMessages => inr OperationalError
  | InitDbMessages rows =>
      match fetch_user d sender, fetch_user d receiver with
      | Some _, Some _ =>
          let id := Sqlite.next_rowid (map Message.id rows) in
          inl (mkDb (users d) (profiles d)
                 (InitDbMessages
                    (rows ++ [Message.mk id sender receiver body now 0])))
      | _, _ => inr IntegrityError
      end
  end.

(* ================================================================== *)
(** * Profile helpers                                                  *)
(* ================================================================== *)

(** [row_to_dict(row)]: the TEXT columns by name, or the empty dict when
    there is no row.  ([user_id], the integer key, is looked up by no
    caller and is left out.) *)
Definition row_to_dict (row : option Profile.t)
  : list (string * option string) :=
  match row with
  | None => []
  | Some p =>
      [ ("photo_filename", Profile.photo_filename p);
        ("title", Profile.title p);
        ("full_name", Profile.full_name p);
        ("highest_qualification", Profile.highest_qualification p);
        ("country", Profile.country p);
        ("university", Profile.university p);
        ("school_faculty", Profile.school_faculty p);
        ("position", Profile.position p);
        ("supervisor_name", Profile.supervisor_name p);
        ("bio", Profile.bio p);
        ("skills", Profile.skills p);
        ("device_access", Profile.device_access p);
        ("updated_at", Profile.updated_at p) ]
  end.

(** [p.get(k, "")] on such a dict. *)
Fixpoint dict_get (p : list (string * option string)) (k : string)
  : option string :=
  match p with
  | [] => Some ""
  | (k', v) :: p' => if String.eqb k' k then v else dict_get p' k
  end.

Definition required : list string :=
  [ "full_name"; "highest_qualification"; "country"; "university";
    "position"; "bio"; "skills" ].

(** [profile_is_complete(profile_row)] *)
Definition profile_is_complete (profile_row : option Profile.t) : bool :=
  let p := row_to_dict profile_row in
  forallb (fun k => Py.truthy (normalize_text (dict_get p k))) required.

(* ================================================================== *)
(** * Upload helpers                                                   *)
(* ================================================================== *)

Definition ALLOWED_EXTENSIONS : list string :=
  [ ".png"; ".jpg"; ".jpeg"; ".webp" ].

Definition MAX_UPLOAD_MB : Z := 5.

(** [app.config["MAX_CONTENT_LENGTH"]]: the bytes a request body may
    have. *)
Definition MAX_CONTENT_LENGTH : Z := MAX_UPLOAD_MB * 1024 * 1024.

(** [rel.split("/")], as [pathlib] cuts a POSIX path into pieces. *)
Fixpoint split_slash (s : string) : list string :=
  match s with
  | EmptyString => [EmptyString]
  | String c s' =>
      if Ascii.eqb c "/" then EmptyString :: split_slash s'
      else
        match split_slash s' with
        | [] => [String c EmptyString]
        | x :: l => String c x :: l
        end
  end.

(** The components [pathlib] keeps of a POSIX path: the pieces between
    slashes that are neither empty nor ["."]. *)
Definition path_parts (filename : string) : list string :=
  filter (fun x => negb (String.eqb x "") && negb (String.eqb x "."))
         (split_slash filename).

(** [Path(filename).name]: the last component, empty when there is
    none. *)
Definition path_name (filename : string) : string :=
  last (path_parts filename) "".

(** The [suffix] of a name: the text from the last full stop on, unless
    that full stop opens or closes the name. *)
Definition name_suffix (name : string) : string :=
  let i := Py.rfind_dot name in
  if (0 <? i) && (i <? Z.of_nat (String.length name) - 1)
  then Py.slice_from (Z.to_nat i) name
  else "".

(** [Path(filename).suffix] on a POSIX path: the suffix of the last
    component. *)
Definition path_suffix (filename : string) : string :=
  name_suffix (path_name filename).

(** [allowed_file(filename)] *)
Definition allowed_file (filename : string) : bool :=
  let ext := Py.lower (path_suffix filename) in
  existsb (String.eqb ext) ALLOWED_EXTENSIONS.

(* ================================================================== *)
(** * Route handlers                                                   *)
(* ================================================================== *)

Section Handlers.

(** [werkzeug.utils.secure_filename]: the sanitised name is a single
    path component, possibly empty. *)
Variable secure_filename : string -> string.

(** [werkzeug.security.generate_password_hash], as a function of the
    salt it draws and of the password. *)
Variable generate_password_hash : string -> string -> string.

(** [save_photo(file_storage, user_id)], with the reading of the clock
    it takes.  [inr] carries the message of the [ValueError].  The file
    written under [uploads/] is read by no statement and is not kept. *)
Definition save_photo (file_storage : option FileStorage) (user_id : Z)
                      (timestamp : Z) : string + string :=
  match file_storage with
  | None => inl ""
  | Some f =>
      match filename f with
      | None => inl ""
      | Some raw =>
          if negb (Py.truthy raw) then inl ""
          else
            let filename := secure_filename raw in
            if negb (Py.truthy filename) then inl ""
            else if negb (allowed_file filename) then
              inr "Invalid file type. Use PNG/JPG/JPEG/WEBP only."
            else
              let ext := Py.lower (path_suffix filename) in
              inl ("user_" ++ Py.str_of_int user_id ++ "_"
                   ++ Py.str_of_int timestamp ++ ext)%string
      end
  end.

(** [login_required(view)]: the session holds a user id or nothing; a
    missing or falsy id sends the browser to the login form. *)
Definition login_required (view : Z -> db -> response * db)
                          (session_user_id : option Z) (d : db)
  : response * db :=
  match session_user_id with
  | Some uid =>
      if uid =? 0 then (Redirect ep_login "Please log in first." "warning", d)
      else view uid d
  | None => (Redirect ep_login "Please log in first." "warning", d)
  end.

(** [register()].  [salt] and [now] are what the hash and the clock
    supply.  On an exception the connection closes before [commit], and
    the database is as it was. *)
Definition register (m : method) (form : fields) (salt now : string)
                    (d : db) : response * db :=
  match m with
  | GET => (RenderAuth, d)
  | POST =>
      let email :=
        Py.lower (normalize_text (Some (get_default form "email" ""))) in
      let password := get_default form "password" "" in
      if negb (Py.truthy email) || negb (Py.truthy password) then
        (Redirect ep_register "Email and password are required." "error", d)
      else
        match select_user_by_email d email with
        | Some _ =>
            (Redirect ep_login "Email already registered. Please log in."
                      "warning", d)
        | None =>
            let pw_hash := generate_password_hash salt password in
            let (user_id, d1) := insert_user d email pw_hash now in
            match insert_profile d1 user_id now with
            | inr e => (ServerError e, d)
            | inl d2 =>
                (Redirect ep_profile_edit
                   "Account created. Please complete your profile."
                   "success", d2)
            end
        end
  end.

(** The photo part of a profile POST: [None] keeps [photo_filename]
    unbound, [inr] is the caught [ValueError]. *)
Definition posted_photo (photo : option FileStorage) (uid timestamp : Z)
  : option string + string :=
  match photo with
  | Some f =>
      match filename f with
      | Some raw =>
          if Py.truthy raw then
            match save_photo photo uid timestamp with
            | inr e => inr e
            | inl fn => if Py.truthy fn then inl (Some fn) else inl None
            end
          else inl None
      | None => inl None
      end
  | None => inl None
  end.

(** [COALESCE(?, column)] *)
Definition coalesce (param column : option string) : option string :=
  match param with
  | Some v => Some v
  | None => column
  end.

(** The UPDATE of [profile_edit]. *)
Definition update_profile (d : db) (uid : Z) (photo_filename : option string)
    (title full_name highest_qualification country university
     school_faculty position supervisor_name bio skills device_access
     updated_at : string) : db :=
  mkDb (users d)
       (map (fun p =>
               if Profile.user_id p =? uid then
                 Profile.mk (Profile.user_id p)
                   (coalesce photo_filename (Profile.photo_filename p))
                   (Some title) (Some full_name)
                   (Some highest_qualification) (Some country)
                   (Some university) (Some school_faculty)
                   (Some position) (Some supervisor_name) (Some bio)
                   (Some skills) (Some device_access) (Some updated_at)
               else p)
            (profiles d))
       (messages d).

(** [profile_edit()], below [login_required].  [now] is the clock at the
    lazy INSERT, [timestamp] the one [save_photo] reads, [updated_at] the
    one of the UPDATE.  The lazy INSERT is committed on its own. *)
Definition profile_edit (m : method) (photo : option FileStorage)
    (form : fields) (now : string) (timestamp : Z) (updated_at : string)
    (uid : Z) (d : db) : response * db :=
  let ensured :=
    match fetch_profile d uid with
    | None => insert_profile d uid now
    | Some _ => inl d
    end in
  match ensured with
  | inr e => (ServerError e, d)
  | inl d1 =>
      match m with
      | GET => (RenderProfileEdit (fetch_profile d1 uid), d1)
      | POST =>
          match posted_photo photo uid timestamp with
          | inr e => (Redirect ep_profile_edit e "error", d1)
          | inl photo_filename =>
              let field k := normalize_text (Some (get_default form k "")) in
              let title := field "title" in
              let full_name := field "full_name" in
              let highest_qualification := field "highest_qualification" in
              let country := field "country" in
              let university := field "university" in
              let school_faculty := field "school_faculty" in
              let position := field "position" in
              let supervisor_name := field "supervisor_name" in
              let bio := field "bio" in
              let skills := field "skills" in
              let device_access := field "device_access" in
              if negb (Py.truthy full_name
                       && Py.truthy highest_qualification
                       && Py.truthy country && Py.truthy university
                       && Py.truthy position && Py.truthy bio
                       && Py.truthy skills)
              then
                (Redirect ep_profile_edit
                   "Please fill all required fields (device access is optional)."
                   "warning", d1)
              else
                let supervisor_name :=
                  if negb (Py.contains "student" (Py.lower position))
                  then "" else supervisor_name in
                (Redirect ep_profile_card "Profile saved." "success",
                 update_profile d1 uid photo_filename title full_name
                   highest_qualification country university school_faculty
                   position supervisor_name bio skills device_access
                   updated_at)
          end
      end
  end.

(** [profile_edit()] on a request of [content_length] bytes of body.  The
    handler reads the body first at [request.files.get("photo")], in the
    POST branch and after the lazy INSERT has been committed: a body over
    [MAX_CONTENT_LENGTH] raises there, before the photo part and the
    fields are looked at. *)
Definition profile_edit_request (content_length : Z) (m : method)
    (photo : option FileStorage) (form : fields) (now : string)
    (timestamp : Z) (updated_at : string) (uid : Z) (d : db)
  : answer * db :=
  match m with
  | GET =>
      (Handled (fst (profile_edit GET photo form now timestamp updated_at
                       uid d)),
       snd (profile_edit GET photo form now timestamp updated_at uid d))
  | POST =>
      if MAX_CONTENT_LENGTH <? content_length then
        let ensured :=
          match fetch_profile d uid with
          | None => insert_profile d uid now
          | Some _ => inl d
          end in
        match ensured with
        | inr e => (Handled (ServerError e), d)
        | inl d1 => (RequestEntityTooLarge, d1)
        end
      else
        (Handled (fst (profile_edit POST photo form now timestamp updated_at
                         uid d)),
         snd (profile_edit POST photo form now timestamp updated_at uid d))
  end.

(** The WHERE clause [search()] assembles, on one row. *)
Definition search_where (uid : Z) (university position q like : string)
                        (p : Profile.t) : Sqlite.sql_bool :=
  let c := Some (negb (Profile.user_id p =? uid)) in
  let c :=
    if Py.truthy university
    then Sqlite.sql_and c (Sqlite.text_eq (Profile.university p) university)
    else c in
  let c :=
    if Py.truthy position
    then Sqlite.sql_and c (Sqlite.text_eq (Profile.position p) position)
    else c in
  if Py.truthy q then
    Sqlite.sql_and c
      (Sqlite.sql_or
        (Sqlite.sql_or
          (Sqlite.sql_or
            (Sqlite.sql_or
              (Sqlite.sql_or
                (Sqlite.sql_or
                   (Sqlite.text_like (Profile.full_name p) like)
                   (Sqlite.text_like (Profile.title p) like))
                (Sqlite.text_like (Profile.bio p) like))
              (Sqlite.text_like (Profile.skills p) like))
            (Sqlite.text_like (Profile.device_access p) like))
          (Sqlite.text_like (Profile.school_faculty p) like))
        (Sqlite.text_like (Profile.supervisor_name p) like))
  else c.

(** [ORDER BY p.updated_at DESC]: a row may come before another when its
    [updated_at] is not below the other's. *)
Definition updated_at_desc (a b : Profile.t) : bool :=
  Sqlite.text_le (Profile.updated_at b) (Profile.updated_at a).

(** The rows of [profiles] the WHERE clause keeps. *)
Definition search_rows (uid : Z) (university position q : string)
                       (d : db) : list Profile.t :=
  let like := ("%" ++ q ++ "%")%string in
  filter (fun p => Sqlite.where_keeps
                     (search_where uid university position q like p))
         (profiles d).

(** The SELECT of [search()]: WHERE, then ORDER BY, then LIMIT. *)
Definition search_select (uid : Z) (university position q : string)
                         (d : db) : list Profile.t :=
  Sqlite.limit 200
    (Sqlite.order_by updated_at_desc
       (search_rows uid university position q d)).

(** [search()], below [login_required].  A keyword whose pattern LIKE
    refuses ([Sqlite.pattern_too_complex]) is outside this definition:
    the statement raises on the first row it is matched against. *)
Definition search (args : fields) (uid : Z) (d : db) : response * db :=
  let did_search :=
    match get args "do" with
    | Some v => String.eqb v "1"
    | None => false
    end in
  let q := normalize_text (Some (get_default args "q" "")) in
  let university := normalize_text (Some (get_default args "university" "")) in
  let position := normalize_text (Some (get_default args "position" "")) in
  let results :=
    if did_search then search_select uid university position q d else [] in
  (RenderSearch did_search results, d).

(** [send_message(user_id)], below [login_required]. *)
Definition send_message (user_id : Z) (form : fields) (now : string)
                        (uid : Z) (d : db) : response * db :=
  if uid =? user_id then
    (Redirect (ep_view_profile user_id) "You cannot message yourself."
              "warning", d)
  else
    let body := normalize_text (Some (get_default form "body" "")) in
    if negb (Py.truthy body) then
      (Redirect (ep_view_profile user_id) "Message body cannot be empty."
                "error", d)
    else
      match fetch_user d user_id with
      | None => (NotFound, d)
      | Some _ =>
          match insert_message d uid user_id body now with
          | inr e => (ServerError e, d)
          | inl d' =>
              (Redirect (ep_thread user_id) "Message sent." "success", d')
          end
      end.

(** The WHERE clause of the SELECT of [thread()]. *)
Definition between (uid user_id : Z) (m : Message.t) : bool :=
  ((Message.sender_id m =? uid) && (Message.receiver_id m =? user_id))
  || ((Message.sender_id m =? user_id) && (Message.receiver_id m =? uid)).

(** One row under
    [UPDATE messages SET is_read=1
     WHERE receiver_id=? AND sender_id=? AND is_read=0]. *)
Definition mark_read (uid user_id : Z) (m : Message.t) : Message.t :=
  if (Message.receiver_id m =? uid) && (Message.sender_id m =? user_id)
     && (Message.is_read m =? 0)
  then Message.mk (Message.id m) (Message.sender_id m)
         (Message.receiver_id m) (Message.body m) (Message.created_at m) 1
  else m.

(** [thread(user_id)], below [login_required]. *)
Definition thread (user_id : Z) (uid : Z) (d : db) : response * db :=
  if uid =? user_id then
    (Redirect ep_inbox "No thread with yourself." "warning", d)
  else
    match fetch_profile d user_id with
    | None => (NotFound, d)
    | Some other_prof =>
        let other_name :=
          match Profile.full_name other_prof with
          | Some n =>
              if Py.truthy n then n
              else ("User " ++ Py.str_of_int user_id)%string
          | None => ("User " ++ Py.str_of_int user_id)%string
          end in
        match messages d with
        | EnsureSchemaMessages => (ServerError OperationalError, d)
        | InitDbMessages rows =>
            let msgs :=
              Sqlite.limit 500
                (Sqlite.order_by
                   (fun a b => Message.id a <=? Message.id b)
                   (filter (between uid user_id) rows)) in
            (RenderThread msgs user_id other_name uid,
             mkDb (users d) (profiles d)
                  (InitDbMessages (map (mark_read uid user_id) rows)))
        end
    end.

(** ** Reachable databases *)

(** The session of a logged-in browser holds the id of a row of [users]:
    [register] and [login] are the only writers of [session["user_id"]]. *)
Definition authenticated (d : db) (uid : Z) : Prop :=
  uid <> 0 /\ exists u, fetch_user d uid = Some u.

(** One request that may write the database.  The other routes ([login],
    [logout], [profile], [search], [u/<id>], [inbox], [uploads]) execute
    no INSERT and no UPDATE. *)
Inductive step (d : db) : db -> Prop :=
| step_register m form salt now :
    step d (snd (register m form salt now d))
| step_profile_edit m photo form now timestamp updated_at uid :
    authenticated d uid ->
    step d (snd (profile_edit m photo form now timestamp updated_at uid d))
| step_send_message user_id form now uid :
    authenticated d uid ->
    step d (snd (send_message user_id form now uid d))
| step_thread user_id uid :
    authenticated d uid ->
    step d (snd (thread user_id uid d)).

(** Databases the program builds itself: started on no file or with
    [--reset-db], then serving requests. *)
Inductive reachable : db -> Prop :=
| reachable_start reset_flag file d :
    reset_flag = true \/ file = None ->
    serving (main reset_flag file) = Some d ->
    reachable d
| reachable_step d d' :
    reachable d -> step d d' -> reachable d'.

End Handlers.

(* ================================================================== *)
(** * Vocabulary of the properties                                     *)
(* ================================================================== *)

(** Every code point of [s] is white space. *)
Fixpoint all_space (s : string) : bool :=
  match s with
  | EmptyString => true
  | String c s' => Py.isspace c && all_space s'
  end.

(** A column holds text with at least one code point that is not white
    space. *)
Definition has_text (v : option string) : Prop :=
  exists s, v = Some s /\ all_space s = false.

(** The rows of [messages] the handlers can name: none on the table of
    [ensure_schema]. *)
Definition message_rows (d : db) : list Message.t :=
  match messages d with
  | InitDbMessages rows => rows
  | EnsureSchemaMessages => []
  end.

(** What every database built by the program satisfies: each user has a
    profile row, each profile row belongs to a user, and no message goes
    from a user to that same user. *)
Definition every_user_has_profile (d : db) : Prop :=
  forall uid u, fetch_user d uid = Some u ->
                exists p, fetch_profile d uid = Some p.

Definition every_profile_has_user (d : db) : Prop :=
  forall uid p, fetch_profile d uid = Some p ->
                exists u, fetch_user d uid = Some u.

Definition no_self_message (d : db) : Prop :=
  forall m, In m (message_rows d) ->
            Message.sender_id m <> Message.receiver_id m.

(** [s] with [f] applied to each code point. *)
Fixpoint map_chars (f : ascii -> ascii) (s : string) : string :=
  match s with
  | EmptyString => EmptyString
  | String c s' => String (f c) (map_chars f s')
  end.

(** [kw] occurs in [s] up to [fold]: some stretch of [s] folds to the same
    text as [kw]. *)
Definition occurs_folded (fold : string -> string) (kw s : string) : Prop :=
  exists pre mid post,
    s = (pre ++ mid ++ post)%string /\ fold mid = fold kw.


(** Without regard to case as [str.lower] sees it. *)
Definition occurs_ignoring_case : string -> string -> Prop :=
  occurs_folded Py.lower.


(** [q] holds no U+0000, where SQLite's LIKE stops reading. *)
Fixpoint no_nul (q : string) : bool :=
  match q with
  | EmptyString => true
  | String c q' => negb (Ascii.eqb c Ascii.zero) && no_nul q'
  end.

(** The seven columns the keyword of a search is matched against. *)
Definition keyword_columns (p : Profile.t) : list (option string) :=
  [ Profile.full_name p; Profile.title p; Profile.bio p; Profile.skills p;
    Profile.device_access p; Profile.school_faculty p;
    Profile.supervisor_name p ].

(** "Most recent first" on two rows of [profiles]. *)
Definition not_older (a b : Profile.t) : Prop :=
  Sqlite.text_le (Profile.updated_at b) (Profile.updated_at a) = true.

(** ** A small database to run the handlers on *)

Definition ann : Profile.t :=
  Profile.mk 1 None (Some "Dr") (Some "Ann Lee") (Some "PhD")
    (Some "Australia") (Some "Monash University") (Some "Science")
    (Some "Postdoctoral Researcher") (Some "") (Some "Optics and lasers")
    (Some "Python, LaTeX") (Some "") (Some "2024-05-01T10:00:00").

Definition bo : Profile.t :=
  Profile.mk 2 (Some "user_2_1714557700.png") (Some "Mr") (Some "Bo Chen")
    (Some "Bachelor") (Some "Australia") (Some "Monash University")
    (Some "Engineering") (Some "Honours Student") (Some "Ann Lee")
    (Some "Robotics") (Some "C++, Python") (Some "3D printer")
    (Some "2024-05-03T09:30:00").

Definition cy : Profile.t :=
  Profile.mk 3 None (Some "Ms") (Some "Cy Diaz") (Some "Master (Research)")
    (Some "Australia") (Some "Deakin University") (Some "Health")
    (Some "Research Assistant") (Some "") (Some "Statistics")
    (Some "R") (Some "") (Some "2024-05-02T18:45:00").

Definition example_db : db :=
  mkDb
    [ User.mk 1 "ann@uni.edu" "h1" "2024-05-01T10:00:00";
      User.mk 2 "bo@uni.edu" "h2" "2024-05-01T10:01:00";
      User.mk 3 "cy@uni.edu" "h3" "2024-05-01T10:02:00" ]
    [ ann; bo; cy ]
    (InitDbMessages
       [ Message.mk 1 2 1 "Hello Ann" "2024-05-04T08:00:00" 0;
         Message.mk 2 1 2 "Hello Bo" "2024-05-04T08:05:00" 1;
         Message.mk 3 2 1 "Are you free?" "2024-05-04T08:06:00" 0;
         Message.mk 4 3 1 "Hi from Cy" "2024-05-04T09:00:00" 0 ]).

(** ** The same, built by the handlers *)

Definition demo_hash (salt password : string) : string :=
  (salt ++ "$" ++ password)%string.

Definition demo_sanitize (name : string) : string := name.

(** After [--reset-db]: Ann and Bo register, Bo writes to Ann. *)
Definition demo_db : db :=
  let d0 := mkDb [] [] (InitDbMessages []) in
  let d1 := snd (register demo_hash POST
                   [("email", " Ann@Uni.edu "); ("password", "pw1")]
                   "s1" "2024-05-01T10:00:00" d0) in
  let d2 := snd (register demo_hash POST
                   [("email", "bo@uni.edu"); ("password", "pw2")]
                   "s2" "2024-05-01T10:01:00" d1) in
  snd (send_message 1 [("body", "  Hello   Ann ")] "2024-05-04T08:00:00" 2 d2).

(** ** Reading a thread *)

(** [m] was sent by [sender] to [receiver] and is unread. *)
Definition unread_from (sender receiver : Z) (m : Message.t) : Prop :=
  Message.sender_id m = sender /\ Message.receiver_id m = receiver
  /\ Message.is_read m = 0.

(** [m'] is [m] with the read flag set exactly when [m] is an unread
    message from [sender] to [receiver]. *)
Definition read_on_view (sender receiver : Z) (m m' : Message.t) : Prop :=
  Message.id m' = Message.id m
  /\ Message.sender_id m' = Message.sender_id m
  /\ Message.receiver_id m' = Message.receiver_id m
  /\ Message.body m' = Message.body m
  /\ Message.created_at m' = Message.created_at m
  /\ (unread_from sender receiver m -> Message.is_read m' = 1)
  /\ (~ unread_from sender receiver m ->
      Message.is_read m' = Message.is_read m).

(** ** Editing a profile *)

(** A form field as [profile_edit] reads it. *)
Definition submitted (form : fields) (k : string) : string :=
  normalize_text (Some (get_default form k "")).

(** The answer of a profile POST that went through. *)
Definition saved : response :=
  Redirect ep_profile_card "Profile saved." "success".

(** Required-field validation of a profile POST. *)
Definition passes_validation (form : fields) : Prop :=
  submitted form "full_name" <> ""
  /\ submitted form "highest_qualification" <> ""
  /\ submitted form "country" <> ""
  /\ submitted form "university" <> ""
  /\ submitted form "position" <> ""
  /\ submitted form "bio" <> ""
  /\ submitted form "skills" <> "".

(** The user's row when the UPDATE runs: the one stored, or the one the
    handler inserts first when there is none. *)
Definition profile_before (d : db) (uid : Z) (now : string) : Profile.t :=
  match fetch_profile d uid with
  | Some p => p
  | None => Profile.empty uid now
  end.

(** The extension of [name], lower-cased as [allowed_file] compares it, is
    one of the four allowed. *)
Definition has_allowed_extension (name : string) : Prop :=
  In (Py.lower (path_suffix name)) ALLOWED_EXTENSIONS.

(** The request carries no new photo: no file part, no filename or an
    empty one, or a filename that sanitises to the empty name. *)
Definition no_new_photo (secure_filename : string -> string)
                        (photo : option FileStorage) : Prop :=
  match photo with
  | None => True
  | Some f =>
      match filename f with
      | None => True
      | Some raw => raw = "" \/ secure_filename raw = ""
      end
  end.

(** The request carries a file named [raw] whose sanitised name is not
    empty. *)
Definition uploads_file (secure_filename : string -> string)
                        (photo : option FileStorage) (raw : string) : Prop :=
  photo = Some (mkFile_storage (Some raw))
  /\ raw <> "" /\ secure_filename raw <> "".

(** The name [save_photo] gives the stored file. *)
Definition generated_name (uid timestamp : Z) (name : string) : string :=
  ("user_" ++ Py.str_of_int uid ++ "_" ++ Py.str_of_int timestamp
   ++ Py.lower (path_suffix name))%string.

(** A profile form as Bo might post it. *)
Definition demo_form : fields :=
  [ ("title", "Mr"); ("full_name", " Bo   Chen "); ("country", "Australia");
    ("highest_qualification", "Honours");
    ("university", "Monash University"); ("school_faculty", "Engineering");
    ("position", "Master STUDENT"); ("supervisor_name", "Ann  Lee");
    ("bio", "Robotics and control"); ("skills", "C++, Python");
    ("device_access", "") ].

(** The same from someone who is no longer a student. *)
Definition demo_form_staff : fields :=
  ("position", "Research Assistant") :: demo_form.

(** ** Registration *)

(** The e-mail address as [register] and [login] key it. *)
Definition email_of (form : fields) : string :=
  Py.lower (normalize_text (Some (get_default form "email" ""))).

Definition password_of (form : fields) : string :=
  get_default form "password" "".

(* ================================================================== *)
(** * The other routes                                                 *)
(* ================================================================== *)

(** The session cookie: the user id it holds, if any. *)
Definition session := option Z.

(** [url_for("index")]: the rule of the route. *)
Definition index_url : string := "/".

(** Answers of the routes that read or write the session. *)
Inductive auth_response :=
| AuthForm                                             (* auth.html *)
| AuthRedirect (target : endpoint) (flash_message flash_category : string)
| AuthRedirectUrl (url : string) (flash_message flash_category : string).

(** One entry of the list [inbox()] hands to its template. *)
Record inbox_thread := mkThread
  { other_id : Z; other_name : string; last_time : string; last_body : string }.

(** Answers of the read-only routes. *)
Inductive page :=
| PageRedirect (target : endpoint)
| PageNotFound                                         (* abort(404) *)
| PageError (e : db_error)
| ProfileCardPage (profile : Profile.t) (is_complete : bool)
| ViewProfilePage (profile : Profile.t) (can_message : bool)
| InboxPage (threads : list inbox_thread).

Section Auth.

Variable generate_password_hash : string -> string -> string.

(** [werkzeug.security.check_password_hash(pwhash, password)] *)
Variable check_password_hash : string -> string -> bool.

(** [register()] together with the session it leaves: a successful
    registration stores the new id under [session["user_id"]]. *)
Definition register_session (m : method) (form : fields) (salt now : string)
    (s : session) (d : db) : response * session * db :=
  match m with
  | GET => (RenderAuth, s, d)
  | POST =>
      let email :=
        Py.lower (normalize_text (Some (get_default form "email" ""))) in
      let password := get_default form "password" "" in
      if negb (Py.truthy email) || negb (Py.truthy password) then
        (Redirect ep_register "Email and password are required." "error", s, d)
      else
        match select_user_by_email d email with
        | Some _ =>
            (Redirect ep_login "Email already registered. Please log in."
                      "warning", s, d)
        | None =>
            let pw_hash := generate_password_hash salt password in
            let (user_id, d1) := insert_user d email pw_hash now in
            match insert_profile d1 user_id now with
            | inr e => (ServerError e, s, d)
            | inl d2 =>
                (Redirect ep_profile_edit
                   "Account created. Please complete your profile."
                   "success", Some user_id, d2)
            end
        end
  end.

(** [login()]: the answer and the session; no statement writes. *)
Definition login (m : method) (form args : fields) (s : session) (d : db)
  : auth_response * session :=
  match m with
  | GET => (AuthForm, s)
  | POST =>
      let email :=
        Py.lower (normalize_text (Some (get_default form "email" ""))) in
      let password := get_default form "password" "" in
      match select_user_by_email d email with
      | Some user =>
          if check_password_hash (User.password_hash user) password then
            let next_url :=
              match get args "next" with
              | Some u => if Py.truthy u then u else index_url
              | None => index_url
              end in
            (AuthRedirectUrl next_url "Logged in." "success",
             Some (User.id user))
          else (AuthRedirect ep_login "Invalid email or password." "error", s)
      | None => (AuthRedirect ep_login "Invalid email or password." "error", s)
      end
  end.

(** [logout()] *)
Definition logout (s : session) : auth_response * session :=
  (AuthRedirectUrl index_url "Logged out." "info", None).

End Auth.

(** [profile_card()], below [login_required]. *)
Definition profile_card (uid : Z) (d : db) : page :=
  match fetch_profile d uid with
  | None => PageRedirect ep_profile_edit
  | Some prof => ProfileCardPage prof (profile_is_complete (Some prof))
  end.

(** [view_profile(user_id)], below [login_required]. *)
Definition view_profile (user_id : Z) (uid : Z) (d : db) : page :=
  match fetch_profile d user_id with
  | None => PageNotFound
  | Some prof => ViewProfilePage prof (negb (uid =? user_id))
  end.

(** ** The inbox *)

(** [WHERE m.sender_id = ? OR m.receiver_id = ?] *)
Definition involves (uid : Z) (m : Message.t) : bool :=
  (Message.sender_id m =? uid) || (Message.receiver_id m =? uid).

(** [CASE WHEN m.sender_id = ? THEN m.receiver_id ELSE m.sender_id END] *)
Definition other_of (uid : Z) (m : Message.t) : Z :=
  if Message.sender_id m =? uid then Message.receiver_id m
  else Message.sender_id m.

(** One row into the groups of [GROUP BY other_id] with [MAX(m.id)]. *)
Fixpoint add_to_group (k i : Z) (g : list (Z * Z)) : list (Z * Z) :=
  match g with
  | [] => [(k, i)]
  | (k', j) :: g' =>
      if k' =? k then (k', Z.max i j) :: g'
      else (k', j) :: add_to_group k i g'
  end.

(** [SELECT other_id, MAX(m.id) ... GROUP BY other_id]; ORDER BY settles
    the order of the groups afterwards. *)
Definition group_by_max (keyed : list (Z * Z)) : list (Z * Z) :=
  fold_right (fun ki g => add_to_group (fst ki) (snd ki) g) [] keyed.

(** [ORDER BY last_msg_id DESC] *)
Definition last_msg_id_desc (a b : Z * Z) : bool := snd b <=? snd a.

(** The first query of [inbox()]: pairs [(other_id, last_msg_id)]. *)
Definition inbox_rows (uid : Z) (rows : list Message.t) : list (Z * Z) :=
  Sqlite.order_by last_msg_id_desc
    (group_by_max
       (map (fun m => (other_of uid m, Message.id m))
            (filter (involves uid) rows))).

(** The name a counterpart is shown under, in [inbox()] and [thread()]. *)
Definition display_name (prof : option Profile.t) (user_id : Z) : string :=
  match prof with
  | Some p =>
      match Profile.full_name p with
      | Some n => if Py.truthy n then n
                  else ("User " ++ Py.str_of_int user_id)%string
      | None => ("User " ++ Py.str_of_int user_id)%string
      end
  | None => ("User " ++ Py.str_of_int user_id)%string
  end.

(** The loop of [inbox()] on one row of the first query. *)
Definition inbox_entry (d : db) (rows : list Message.t) (r : Z * Z)
  : inbox_thread :=
  let other_id := fst r in
  let last_msg := find (fun m => Message.id m =? snd r) rows in
  let other_prof := fetch_profile d other_id in
  mkThread other_id (display_name other_prof other_id)
    (match last_msg with Some m => Message.created_at m | None => "" end)
    (match last_msg with Some m => Message.body m | None => "" end).

(** [inbox()], below [login_required]. *)
Definition inbox (uid : Z) (d : db) : page :=
  match messages d with
  | EnsureSchemaMessages => PageError OperationalError
  | InitDbMessages rows =>
      InboxPage (map (inbox_entry d rows) (inbox_rows uid rows))
  end.

(** ** Columns of [profiles] under [init_db] *)

(** The columns of the CREATE TABLE of [profiles], in order. *)
Definition profiles_columns : list string :=
  [ "user_id"; "photo_filename"; "title"; "full_name";
    "highest_qualification"; "country"; "university"; "school_faculty";
    "position"; "supervisor_name"; "bio"; "skills"; "device_access";
    "updated_at" ].

(** The columns [init_db] adds when they are missing, in order. *)
Definition migrations : list string :=
  [ "photo_filename"; "title"; "full_name"; "highest_qualification";
    "country"; "university"; "school_faculty"; "position";
    "supervisor_name"; "bio"; "skills"; "device_access"; "updated_at" ].

(** [column_exists(con, table, col)] on the names [PRAGMA table_info]
    lists: Python's [col in cols]. *)
Definition column_exists (cols : list string) (col : string) : bool :=
  existsb (String.eqb col) cols.

(** [ALTER TABLE profiles ADD COLUMN col TEXT]: SQLite compares column
    names without regard to the case of A..Z and refuses a duplicate. *)
Definition add_column (cols : list string) (col : string)
  : list string + db_error :=
  if existsb (fun c => String.eqb (map_chars Sqlite.tolower c)
                                  (map_chars Sqlite.tolower col)) cols
  then inr OperationalError
  else inl (cols ++ [col]).

(** The loop over [migrations]. *)
Fixpoint migrate (ms : list string) (cols : list string)
  : list string + db_error :=
  match ms with
  | [] => inl cols
  | col :: ms' =>
      if column_exists cols col then migrate ms' cols
      else match add_column cols col with
           | inl cols' => migrate ms' cols'
           | inr e => inr e
           end
  end.

(** What [init_db] does to the columns of [profiles]: the table is created
    when there is none, then migrated. *)
Definition init_db_profiles (table : option (list string))
  : list string + db_error :=
  migrate migrations
    (match table with Some cols => cols | None => profiles_columns end).

(* ================================================================== *)
(** * Vocabulary of the further properties                             *)
(* ================================================================== *)

(** ** Shape of a normalised text *)

(** The first code point of [s] is white space. *)
Definition first_is_space (s : string) : bool :=
  match s with
  | EmptyString => false
  | String c _ => Py.isspace c
  end.

(** The last code point of [s] is white space. *)
Fixpoint last_is_space (s : string) : bool :=
  match s with
  | EmptyString => false
  | String c EmptyString => Py.isspace c
  | String _ s' => last_is_space s'
  end.

(** Two neighbouring code points of [s] are white space. *)
Fixpoint adjacent_spaces (s : string) : bool :=
  match s with
  | String c (String d _ as s') =>
      (Py.isspace c && Py.isspace d) || adjacent_spaces s'
  | _ => false
  end.

(** The only white space in [s] is the space U+0020. *)
Fixpoint plain_spaces (s : string) : bool :=
  match s with
  | EmptyString => true
  | String c s' => (negb (Py.isspace c) || Ascii.eqb c " ") && plain_spaces s'
  end.

(** Words separated by single spaces, nothing around them. *)
Definition tidy (s : string) : Prop :=
  first_is_space s = false /\ last_is_space s = false
  /\ adjacent_spaces s = false /\ plain_spaces s = true.

(** The same read from left to right: [after_space] tells that the
    previous code point was a space (or that the text starts here). *)
Fixpoint spaced (after_space : bool) (s : string) : bool :=
  match s with
  | EmptyString => negb after_space
  | String c s' =>
      if Py.isspace c
      then Ascii.eqb c " " && negb after_space && spaced true s'
      else spaced false s'
  end.

(** As [spaced], but a space may end the text. *)
Fixpoint loose (after_space : bool) (s : string) : bool :=
  match s with
  | EmptyString => true
  | String c s' =>
      if Py.isspace c
      then Ascii.eqb c " " && negb after_space && loose true s'
      else loose false s'
  end.

(** ** Migrations *)

(** The names of [ms] differ by more than case. *)
Definition case_distinct (ms : list string) : Prop :=
  forall a b, In a ms -> In b ms ->
    map_chars Sqlite.tolower a = map_chars Sqlite.tolower b -> a = b.

(** ** Invariants *)

(** The keys 1, 2, ..., n. *)
Definition ids_upto (n : nat) : list Z := map Z.of_nat (seq 1 n).

(** [m'] is [m], but for the read flag, which stays or goes from 0 to 1. *)
Definition flag_only (m m' : Message.t) : Prop :=
  Message.id m' = Message.id m
  /\ Message.sender_id m' = Message.sender_id m
  /\ Message.receiver_id m' = Message.receiver_id m
  /\ Message.body m' = Message.body m
  /\ Message.created_at m' = Message.created_at m
  /\ (Message.is_read m' = Message.is_read m
      \/ (Message.is_read m = 0 /\ Message.is_read m' = 1)).

(** User ids are 1..n in registration order, and the k-th profile row
    belongs to the k-th user. *)
Definition users_profiles_aligned (d : db) : Prop :=
  map User.id (users d) = ids_upto (List.length (users d))
  /\ map Profile.user_id (profiles d) = map User.id (users d).

(** No two users share an address, and every stored address is the key
    [register] and [login] derive from it. *)
Definition emails_are_keys (d : db) : Prop :=
  NoDup (map User.email (users d))
  /\ forall u, In u (users d) ->
       User.email u <> ""
       /\ email_of [("email", User.email u)] = User.email u.

(** Message ids are 1..n in sending order; every message goes from one
    user to another, carries a non-empty tidy body and a read flag that is
    0 or 1. *)
Definition messages_well_formed (d : db) : Prop :=
  map Message.id (message_rows d)
  = ids_upto (List.length (message_rows d))
  /\ forall m, In m (message_rows d) ->
       (exists u, fetch_user d (Message.sender_id m) = Some u)
       /\ (exists v, fetch_user d (Message.receiver_id m) = Some v)
       /\ Message.sender_id m <> Message.receiver_id m
       /\ Message.body m <> ""
       /\ tidy (Message.body m)
       /\ (Message.is_read m = 0 \/ Message.is_read m = 1).

(** ** Logging in *)

(** A verifier for [demo_hash]: the hash ends a salt with [$password]. *)
Definition demo_check (pwhash password : string) : bool :=
  Py.contains ("$" ++ password)%string pwhash.

(** Where [login] sends the browser: the [next] parameter when it is
    there and non-empty, the index page otherwise. *)
Definition next_url_of (args : fields) : string :=
  match get args "next" with
  | Some u => if Py.truthy u then u else index_url
  | None => index_url
  end.

(** ** Views of the messages *)

(** [ORDER BY id ASC] on two messages. *)
Definition id_asc (a b : Message.t) : bool := Message.id a <=? Message.id b.

(** The newest message of [rows] ends them: the row [send_message] has
    just appended. *)
Definition ends_with (rows : list Message.t) (m : Message.t) : Prop :=
  exists earlier, rows = earlier ++ [m].

(** ** Groups of the inbox *)

(** The value a key has among the groups. *)
Definition group_value (k : Z) (g : list (Z * Z)) : option Z :=
  option_map snd (find (fun p => fst p =? k) g).

(** The greatest value paired with [k] in [l], if any. *)
Fixpoint max_for (k : Z) (l : list (Z * Z)) : option Z :=
  match l with
  | [] => None
  | (k', i) :: l' =>
      if k' =? k
      then Some (match max_for k l' with Some j => Z.max i j | None => i end)
      else max_for k l'
  end.

(** [name] holds no slash: it is one path component at most. *)
Fixpoint no_slash (name : string) : bool :=
  match name with
  | EmptyString => true
  | String c name' => negb (Ascii.eqb c "/") && no_slash name'
  end.

(** A database with one account and no profile row yet. *)
Definition lone_user_db : db :=
  mkDb [User.mk 1 "ann@uni.edu" "h1" "2024-05-01T10:00:00"] []
    (InitDbMessages []).

(** The rows a search asks for: not the searcher's own, the university
    and the position exactly as given when given, and the keyword, when
    given, matched by LIKE in one of the keyword columns. *)
Definition asked_for (uid : Z) (university position q : string)
                     (p : Profile.t) : Prop :=
  Profile.user_id p <> uid
  /\ (university = "" \/ Profile.university p = Some university)
  /\ (position = "" \/ Profile.position p = Some position)
  /\ (q = "" \/ exists s, In (Some s) (keyword_columns p)
                          /\ Sqlite.like ("%" ++ q ++ "%") s = true).


(* ================================================================== *)
(** * Text lemmas                                                      *)
(* ================================================================== *)

Lemma truthy_true_iff (s : string) : Py.truthy s = true <-> s <> "".
Proof. destruct s; simpl; split; congruence. Qed.

Lemma truthy_false_iff (s : string) : Py.truthy s = false <-> s = "".
Proof. destruct s; simpl; split; congruence. Qed.

Lemma rstrip_empty_iff (s : string) :
  Py.rstrip s = "" <-> all_space s = true.
Proof.
  induction s as [|c s IH]; simpl; [tauto|].
  destruct (Py.rstrip s) eqn:E.
  - destruct (Py.isspace c); simpl.
    + split; intros _; [apply IH|]; reflexivity.
    + split; discriminate.
  - split; [discriminate|]. intros H.
    apply andb_true_iff in H as [_ Hs]. apply IH in Hs. discriminate.
Qed.

Lemma all_space_lstrip (s : string) :
  all_space (Py.lstrip s) = all_space s.
Proof.
  induction s as [|c s IH]; simpl; [reflexivity|].
  destruct (Py.isspace c) eqn:E; simpl; [exact IH|]. now rewrite E.
Qed.

Lemma strip_empty_iff (s : string) :
  Py.strip s = "" <-> all_space s = true.
Proof.
  unfold Py.strip. rewrite rstrip_empty_iff. now rewrite all_space_lstrip.
Qed.

Lemma all_space_re_sub_ws (b : bool) (s : string) :
  all_space (Py.re_sub_ws b s) = all_space s.
Proof.
  revert b. induction s as [|c s IH]; intros b; simpl; [reflexivity|].
  destruct (Py.isspace c) eqn:E.
  - destruct b; simpl; rewrite IH; reflexivity.
  - simpl. rewrite E. reflexivity.
Qed.

(** The normalised text is empty exactly for NULL and for texts made of
    white space only (the empty text among them). *)
Lemma normalize_text_empty_iff (v : option string) :
  normalize_text v = "" <->
  match v with None => True | Some s => all_space s = true end.
Proof.
  destruct v as [s|]; simpl; [|tauto].
  destruct s as [|c s]; simpl; [tauto|].
  change (Py.strip (Py.re_sub_ws false (String c s)) = ""
          <-> all_space (String c s) = true).
  rewrite strip_empty_iff. now rewrite all_space_re_sub_ws.
Qed.

(* ================================================================== *)
(** * Profile completeness                                             *)
(* ================================================================== *)

Lemma normalize_text_nonempty_iff (v : option string) :
  normalize_text v <> "" <-> has_text v.
Proof.
  rewrite normalize_text_empty_iff. unfold has_text.
  destruct v as [s|].
  - destruct (all_space s) eqn:E; split.
    + intros H. now destruct H.
    + intros (s' & Hs & H') _. injection Hs as <-. congruence.
    + intros _. now exists s.
    + intros _ H. discriminate.
  - split; [intros H; now destruct H | intros (s & H & _); discriminate].
Qed.

Lemma profile_is_complete_unfold (p : Profile.t) :
  profile_is_complete (Some p) =
  Py.truthy (normalize_text (Profile.full_name p))
  && (Py.truthy (normalize_text (Profile.highest_qualification p))
  && (Py.truthy (normalize_text (Profile.country p))
  && (Py.truthy (normalize_text (Profile.university p))
  && (Py.truthy (normalize_text (Profile.position p))
  && (Py.truthy (normalize_text (Profile.bio p))
  && (Py.truthy (normalize_text (Profile.skills p)) && true)))))).
Proof. reflexivity. Qed.

(** C1.  [profile_is_complete] holds of a row exactly when the row exists
    and each of [full_name], [highest_qualification], [country],
    [university], [position], [bio], [skills] is non-empty once normalised,
    which a column is when it holds text that is not all white space; rows
    that agree on these seven columns get the same answer, whatever
    [device_access], [title], [school_faculty], [supervisor_name],
    [photo_filename] (and [user_id], [updated_at]) hold. *)
Theorem profile_is_complete_required_fields :
  (forall row : option Profile.t,
      profile_is_complete row = true <->
      exists p, row = Some p
        /\ normalize_text (Profile.full_name p) <> ""
        /\ normalize_text (Profile.highest_qualification p) <> ""
        /\ normalize_text (Profile.country p) <> ""
        /\ normalize_text (Profile.university p) <> ""
        /\ normalize_text (Profile.position p) <> ""
        /\ normalize_text (Profile.bio p) <> ""
        /\ normalize_text (Profile.skills p) <> "")
  /\ (forall v : option string, normalize_text v <> "" <-> has_text v)
  /\ (forall uid uid' photo photo' title title' faculty faculty'
             supervisor supervisor' device device' updated updated'
             full_name qualification country university position bio skills,
         profile_is_complete
           (Some (Profile.mk uid photo title full_name qualification country
                    university faculty position supervisor bio skills device
                    updated))
         = profile_is_complete
             (Some (Profile.mk uid' photo' title' full_name qualification
                      country university faculty' position supervisor' bio
                      skills device' updated'))).
Proof.
  split.
  - intros [p|].
    + rewrite profile_is_complete_unfold.
      repeat rewrite andb_true_iff. repeat rewrite truthy_true_iff.
      split.
      * intros (H1 & H2 & H3 & H4 & H5 & H6 & H7 & _).
        exists p. repeat split; assumption.
      * intros (p' & Hp & H1 & H2 & H3 & H4 & H5 & H6 & H7).
        injection Hp as <-. repeat split; assumption.
    + split; [discriminate|]. intros (p & Hp & _). discriminate.
  - split; [exact normalize_text_nonempty_iff|].
    intros. rewrite !profile_is_complete_unfold. reflexivity.
Qed.

(* ================================================================== *)
(** * Start-up                                                         *)
(* ================================================================== *)

Lemma main_plain_start :
  serving (main false None) = Some (mkDb [] [] EnsureSchemaMessages).
Proof. reflexivity. Qed.

Lemma main_reset_db (file : option db_file) :
  serving (main true file) = Some (mkDb [] [] (InitDbMessages [])).
Proof. reflexivity. Qed.

Lemma reachable_start_cases (reset_flag : bool) (file : option db_file) (d : db) :
  reset_flag = true \/ file = None ->
  serving (main reset_flag file) = Some d ->
  users d = [] /\ profiles d = []
  /\ (messages d = InitDbMessages [] \/ messages d = EnsureSchemaMessages).
Proof.
  intros [-> | ->] H.
  - rewrite main_reset_db in H. injection H as <-. simpl. auto.
  - destruct reset_flag.
    + rewrite main_reset_db in H. injection H as <-. simpl. auto.
    + rewrite main_plain_start in H. injection H as <-. simpl. auto.
Qed.

(* ================================================================== *)
(** * Lookups                                                          *)
(* ================================================================== *)

Lemma find_app_split {A : Type} (f : A -> bool) (l1 l2 : list A) :
  find f (l1 ++ l2) =
  match find f l1 with
  | Some x => Some x
  | None => find f l2
  end.
Proof.
  induction l1 as [|a l1 IH]; simpl; [reflexivity|].
  destruct (f a); [reflexivity | exact IH].
Qed.

Lemma find_map_same_key {A : Type} (f : A -> bool) (g : A -> A) (l : list A) :
  (forall x, f (g x) = f x) ->
  find f (map g l) = option_map g (find f l).
Proof.
  intros Hk. induction l as [|a l IH]; simpl; [reflexivity|].
  rewrite Hk. destruct (f a); [reflexivity | exact IH].
Qed.

Lemma fetch_profile_user_id (d : db) (uid : Z) (p : Profile.t) :
  fetch_profile d uid = Some p -> Profile.user_id p = uid.
Proof.
  unfold fetch_profile. intros H. apply find_some in H as [_ H].
  now apply Z.eqb_eq.
Qed.

Lemma fold_max_ge (ids : list Z) (i : Z) :
  In i ids -> i <= fold_right Z.max 0 ids.
Proof.
  induction ids as [|a ids IH]; simpl; [tauto|].
  intros [-> | H]; [lia|]. specialize (IH H). lia.
Qed.

Lemma next_rowid_fresh (ids : list Z) : ~ In (Sqlite.next_rowid ids) ids.
Proof.
  unfold Sqlite.next_rowid. intros H. apply fold_max_ge in H. lia.
Qed.

Lemma fetch_user_next_rowid (d : db) :
  fetch_user d (Sqlite.next_rowid (map User.id (users d))) = None.
Proof.
  unfold fetch_user.
  destruct (find _ (users d)) as [u|] eqn:E; [|reflexivity].
  apply find_some in E as [Hin Hid]. apply Z.eqb_eq in Hid.
  exfalso. apply (next_rowid_fresh (map User.id (users d))).
  rewrite <- Hid. now apply in_map.
Qed.

(* ================================================================== *)
(** * What each statement changes                                      *)
(* ================================================================== *)

Lemma insert_profile_inl (d d1 : db) (uid : Z) (now : string) :
  insert_profile d uid now = inl d1 ->
  fetch_profile d uid = None
  /\ (exists u, fetch_user d uid = Some u)
  /\ d1 = mkDb (users d) (profiles d ++ [Profile.empty uid now]) (messages d).
Proof.
  unfold insert_profile.
  destruct (fetch_profile d uid); [discriminate|].
  destruct (fetch_user d uid) as [u|]; [|discriminate].
  intros H. injection H as <-. eauto.
Qed.

Lemma fetch_profile_append (d : db) (row : Profile.t) (uid : Z) :
  fetch_profile (mkDb (users d) (profiles d ++ [row]) (messages d)) uid =
  match fetch_profile d uid with
  | Some p => Some p
  | None => if Profile.user_id row =? uid then Some row else None
  end.
Proof.
  unfold fetch_profile. simpl. rewrite find_app_split. reflexivity.
Qed.

Lemma insert_message_inl (d d1 : db) (sender receiver : Z) (body now : string) :
  insert_message d sender receiver body now = inl d1 ->
  exists rows,
    messages d = InitDbMessages rows
    /\ d1 = mkDb (users d) (profiles d)
              (InitDbMessages
                 (rows ++ [Message.mk
                             (Sqlite.next_rowid (map Message.id rows))
                             sender receiver body now 0])).
Proof.
  unfold insert_message.
  destruct (messages d) as [rows|]; [|discriminate].
  destruct (fetch_user d sender); [|discriminate].
  destruct (fetch_user d receiver); [|discriminate].
  intros H. injection H as <-. eauto.
Qed.

Lemma mark_read_columns (uid user_id : Z) (m : Message.t) :
  let m' := mark_read uid user_id m in
  Message.id m' = Message.id m
  /\ Message.sender_id m' = Message.sender_id m
  /\ Message.receiver_id m' = Message.receiver_id m
  /\ Message.body m' = Message.body m
  /\ Message.created_at m' = Message.created_at m.
Proof.
  unfold mark_read.
  destruct ((Message.receiver_id m =? uid) && (Message.sender_id m =? user_id)
            && (Message.is_read m =? 0)); simpl; auto.
Qed.

Lemma mark_read_idempotent (uid user_id : Z) (m : Message.t) :
  mark_read uid user_id (mark_read uid user_id m) = mark_read uid user_id m.
Proof.
  destruct ((Message.receiver_id m =? uid) && (Message.sender_id m =? user_id)
            && (Message.is_read m =? 0)) eqn:E.
  - assert (H : mark_read uid user_id m =
                Message.mk (Message.id m) (Message.sender_id m)
                  (Message.receiver_id m) (Message.body m)
                  (Message.created_at m) 1)
      by (unfold mark_read; now rewrite E).
    rewrite H. unfold mark_read. simpl. now rewrite andb_false_r.
  - assert (H : mark_read uid user_id m = m)
      by (unfold mark_read; now rewrite E).
    now rewrite !H.
Qed.

(* ================================================================== *)
(** * What each handler changes                                        *)
(* ================================================================== *)

Section HandlerEffects.

Variable secure_filename : string -> string.
Variable generate_password_hash : string -> string -> string.

Lemma register_effect (m : method) (form : fields) (salt now : string) (d : db) :
  let d' := snd (register generate_password_hash m form salt now d) in
  d' = d
  \/ exists email pw_hash,
      let uid := Sqlite.next_rowid (map User.id (users d)) in
      select_user_by_email d email = None
      /\ fetch_profile d uid = None
      /\ d' = mkDb (users d ++ [User.mk uid email pw_hash now])
                   (profiles d ++ [Profile.empty uid now])
                   (messages d).
Proof.
  unfold register. destruct m; simpl; [now left|].
  destruct (negb _ || negb _); simpl; [now left|].
  destruct (select_user_by_email d _) eqn:Esel; simpl; [now left|].
  destruct (insert_profile _ _ now) as [d2|e] eqn:Eins; simpl; [|now left].
  right. apply insert_profile_inl in Eins as (Hnone & _ & ->).
  eexists _, _. repeat split; [exact Esel | exact Hnone].
Qed.

Lemma fetch_profile_update (d : db) (uid x : Z) (photo : option string)
    (t fn hq c u sf pos sn b sk da upd : string) :
  fetch_profile
    (update_profile d uid photo t fn hq c u sf pos sn b sk da upd) x =
  option_map
    (fun p =>
       if Profile.user_id p =? uid then
         Profile.mk (Profile.user_id p)
           (coalesce photo (Profile.photo_filename p))
           (Some t) (Some fn) (Some hq) (Some c) (Some u) (Some sf)
           (Some pos) (Some sn) (Some b) (Some sk) (Some da) (Some upd)
       else p)
    (fetch_profile d x).
Proof.
  unfold fetch_profile, update_profile. simpl.
  apply find_map_same_key.
  intros p. destruct (Profile.user_id p =? uid); reflexivity.
Qed.

Lemma profile_edit_effect (m : method) (photo : option FileStorage)
    (form : fields) (now : string) (timestamp : Z) (updated_at : string)
    (uid : Z) (d : db) :
  let d' := snd (profile_edit secure_filename m photo form now timestamp
                   updated_at uid d) in
  users d' = users d
  /\ messages d' = messages d
  /\ (forall x p, fetch_profile d x = Some p ->
                  exists p', fetch_profile d' x = Some p').
Proof.
  unfold profile_edit.
  assert (Hens : forall d1,
             match fetch_profile d uid with
             | None => insert_profile d uid now
             | Some _ => inl d
             end = inl d1 ->
             users d1 = users d /\ messages d1 = messages d
             /\ (forall x p, fetch_profile d x = Some p ->
                             exists p', fetch_profile d1 x = Some p')).
  { intros d1. destruct (fetch_profile d uid) eqn:E.
    - intros H. injection H as <-. eauto.
    - intros H. apply insert_profile_inl in H as (_ & _ & ->). simpl.
      repeat split. intros x p Hx. rewrite fetch_profile_append, Hx. eauto. }
  destruct (match fetch_profile d uid with
            | None => _ | Some _ => _ end) as [d1|e]; simpl; [|eauto].
  specialize (Hens d1 eq_refl). destruct Hens as (Hu & Hm & Hp).
  destruct m; simpl; [auto|].
  destruct (posted_photo _ _ _ _) as [pf|e]; simpl; [|auto].
  destruct (negb _); simpl; [auto|].
  repeat split; [assumption..|].
  intros x p Hx. destruct (Hp x p Hx) as [p' Hp'].
  rewrite fetch_profile_update, Hp'. simpl. eauto.
Qed.

Lemma send_message_effect (user_id : Z) (form : fields) (now : string)
    (uid : Z) (d : db) :
  let d' := snd (send_message user_id form now uid d) in
  d' = d
  \/ exists rows body,
      uid <> user_id
      /\ messages d = InitDbMessages rows
      /\ d' = mkDb (users d) (profiles d)
                (InitDbMessages
                   (rows ++ [Message.mk
                               (Sqlite.next_rowid (map Message.id rows))
                               uid user_id body now 0])).
Proof.
  unfold send_message.
  destruct (uid =? user_id) eqn:Eid; simpl; [now left|].
  apply Z.eqb_neq in Eid.
  destruct (negb _); simpl; [now left|].
  destruct (fetch_user d user_id); simpl; [|now left].
  destruct (insert_message _ _ _ _ _) as [d1|e] eqn:Eins; simpl; [|now left].
  apply insert_message_inl in Eins as (rows & Hrows & ->).
  right. eauto.
Qed.

Lemma thread_effect (user_id uid : Z) (d : db) :
  let d' := snd (thread user_id uid d) in
  d' = d
  \/ exists rows,
      messages d = InitDbMessages rows
      /\ d' = mkDb (users d) (profiles d)
                (InitDbMessages (map (mark_read uid user_id) rows)).
Proof.
  unfold thread.
  destruct (uid =? user_id); simpl; [now left|].
  destruct (fetch_profile d user_id); simpl; [|now left].
  destruct (messages d) as [rows|] eqn:E; simpl; [|now left].
  right. eauto.
Qed.

(** A browser whose session holds the id of a user reaches the view. *)
Lemma login_required_runs_view (view : Z -> db -> response * db)
    (uid : Z) (d : db) :
  authenticated d uid ->
  login_required view (Some uid) d = view uid d.
Proof.
  intros [Hne _]. unfold login_required.
  apply Z.eqb_neq in Hne. now rewrite Hne.
Qed.

(** ** Invariants of the reachable databases *)

Lemma step_every_user_has_profile (d d' : db) :
  every_user_has_profile d ->
  step secure_filename generate_password_hash d d' ->
  every_user_has_profile d'.
Proof.
  intros Hinv Hstep. destruct Hstep as [m form salt now
    | m photo form now ts upd uid Hauth | user_id form now uid Hauth
    | user_id uid Hauth].
  - destruct (register_effect m form salt now d) as [-> | (email & h & Hsel & Hfp & ->)];
      [assumption|].
    intros x u Hx.
    unfold fetch_user in Hx. simpl in Hx. rewrite find_app_split in Hx.
    fold (fetch_user d x) in Hx.
    unfold fetch_profile. simpl. rewrite find_app_split.
    fold (fetch_profile d x).
    destruct (fetch_user d x) as [u0|] eqn:Eu.
    + destruct (Hinv x u0 Eu) as [p ->]. eauto.
    + simpl in Hx.
      destruct (Sqlite.next_rowid (map User.id (users d)) =? x) eqn:Ex;
        [|discriminate].
      apply Z.eqb_eq in Ex. subst x. rewrite Hfp. simpl.
      rewrite Z.eqb_refl. eauto.
  - destruct (profile_edit_effect m photo form now ts upd uid d)
      as (Hu & _ & Hp).
    intros x u Hx. unfold fetch_user in Hx. rewrite Hu in Hx.
    destruct (Hinv x u Hx) as [p Hfp]. eapply Hp; eassumption.
  - destruct (send_message_effect user_id form now uid d)
      as [-> | (rows & body & _ & _ & ->)]; assumption.
  - destruct (thread_effect user_id uid d) as [-> | (rows & _ & ->)];
      assumption.
Qed.

Lemma step_no_self_message (d d' : db) :
  no_self_message d ->
  step secure_filename generate_password_hash d d' ->
  no_self_message d'.
Proof.
  intros Hinv Hstep. destruct Hstep as [m form salt now
    | m photo form now ts upd uid Hauth | user_id form now uid Hauth
    | user_id uid Hauth].
  - destruct (register_effect m form salt now d) as [-> | (email & h & _ & _ & ->)];
      assumption.
  - destruct (profile_edit_effect m photo form now ts upd uid d)
      as (_ & Hm & _).
    unfold no_self_message, message_rows in *. rewrite Hm. assumption.
  - destruct (send_message_effect user_id form now uid d)
      as [-> | (rows & body & Hne & Hrows & ->)]; [assumption|].
    unfold no_self_message, message_rows in *. simpl. rewrite Hrows in Hinv.
    intros m Hin. apply in_app_or in Hin as [Hin | [<- | []]]; auto.
  - destruct (thread_effect user_id uid d) as [-> | (rows & Hrows & ->)];
      [assumption|].
    unfold no_self_message, message_rows in *. simpl. rewrite Hrows in Hinv.
    intros m Hin. apply in_map_iff in Hin as (m0 & <- & Hin).
    destruct (mark_read_columns uid user_id m0) as (_ & -> & -> & _).
    auto.
Qed.

(** The table [ensure_schema] created stays as it is: no request replaces
    it. *)
Lemma step_keeps_ensure_schema (d d' : db) :
  messages d = EnsureSchemaMessages ->
  step secure_filename generate_password_hash d d' ->
  messages d' = EnsureSchemaMessages.
Proof.
  intros Hm Hstep. destruct Hstep as [m form salt now
    | m photo form now ts upd uid Hauth | user_id form now uid Hauth
    | user_id uid Hauth].
  - destruct (register_effect m form salt now d)
      as [-> | (email & h & _ & _ & ->)]; assumption.
  - destruct (profile_edit_effect m photo form now ts upd uid d)
      as (_ & -> & _). assumption.
  - destruct (send_message_effect user_id form now uid d)
      as [-> | (rows & body & _ & Hrows & _)]; [assumption | congruence].
  - destruct (thread_effect user_id uid d) as [-> | (rows & Hrows & _)];
      [assumption | congruence].
Qed.

Lemma profile_edit_rows (m : method) (photo : option FileStorage)
    (form : fields) (now : string) (timestamp : Z) (updated_at : string)
    (uid : Z) (d : db) (x : Z) (p' : Profile.t) :
  fetch_profile
    (snd (profile_edit secure_filename m photo form now timestamp
            updated_at uid d)) x = Some p' ->
  (exists p, fetch_profile d x = Some p)
  \/ (x = uid /\ exists u, fetch_user d uid = Some u).
Proof.
  unfold profile_edit.
  assert (Hens : forall d1,
             match fetch_profile d uid with
             | None => insert_profile d uid now
             | Some _ => inl d
             end = inl d1 ->
             forall q, fetch_profile d1 x = Some q ->
               (exists p, fetch_profile d x = Some p)
               \/ (x = uid /\ exists u, fetch_user d uid = Some u)).
  { intros d1. destruct (fetch_profile d uid) eqn:E.
    - intros H. injection H as <-. eauto.
    - intros H. apply insert_profile_inl in H as (_ & Hu & ->).
      intros q. rewrite fetch_profile_append.
      destruct (fetch_profile d x); [eauto|]. simpl.
      destruct (Z.eqb_spec uid x) as [<-|]; [auto | discriminate]. }
  destruct (match fetch_profile d uid with
            | None => _ | Some _ => _ end) as [d1|e]; simpl; [|eauto].
  specialize (Hens d1 eq_refl).
  destruct m; simpl; [apply Hens|].
  destruct (posted_photo _ _ _ _) as [pf|e]; simpl; [|apply Hens].
  destruct (negb _); simpl; [apply Hens|].
  rewrite fetch_profile_update.
  destruct (fetch_profile d1 x) as [q|] eqn:Eq; [|discriminate].
  intros _. eapply Hens; reflexivity.
Qed.

Lemma step_every_profile_has_user (d d' : db) :
  every_profile_has_user d ->
  step secure_filename generate_password_hash d d' ->
  every_profile_has_user d'.
Proof.
  intros Hinv Hstep. destruct Hstep as [m form salt now
    | m photo form now ts upd uid Hauth | user_id form now uid Hauth
    | user_id uid Hauth].
  - destruct (register_effect m form salt now d)
      as [-> | (email & h & _ & Hfp & ->)]; [assumption|].
    intros x p Hx.
    unfold fetch_profile in Hx. simpl in Hx. rewrite find_app_split in Hx.
    fold (fetch_profile d x) in Hx.
    unfold fetch_user. simpl. rewrite find_app_split.
    fold (fetch_user d x).
    destruct (fetch_profile d x) as [p0|] eqn:Ep.
    + destruct (Hinv x p0 Ep) as [u ->]. eauto.
    + simpl in Hx.
      destruct (Sqlite.next_rowid (map User.id (users d)) =? x) eqn:Ex;
        [|discriminate].
      destruct (fetch_user d x); [eauto|]. simpl. rewrite Ex. eauto.
  - destruct (profile_edit_effect m photo form now ts upd uid d)
      as (Hu & _ & _).
    intros x p Hx. unfold fetch_user. rewrite Hu. fold (fetch_user d x).
    apply profile_edit_rows in Hx as [[p0 Hp0] | [-> Hux]];
      [eapply Hinv; eassumption | exact Hux].
  - destruct (send_message_effect user_id form now uid d)
      as [-> | (rows & body & _ & _ & ->)]; assumption.
  - destruct (thread_effect user_id uid d) as [-> | (rows & _ & ->)];
      assumption.
Qed.

Lemma reachable_every_profile_has_user (d : db) :
  reachable secure_filename generate_password_hash d ->
  every_profile_has_user d.
Proof.
  induction 1 as [reset_flag file d Hstart Hserv | d d' _ IH Hstep].
  - destruct (reachable_start_cases _ _ _ Hstart Hserv) as (_ & Hp & _).
    intros x p Hx. unfold fetch_profile in Hx. rewrite Hp in Hx.
    discriminate.
  - eapply step_every_profile_has_user; eassumption.
Qed.

Lemma reachable_invariants (d : db) :
  reachable secure_filename generate_password_hash d ->
  every_user_has_profile d /\ no_self_message d.
Proof.
  induction 1 as [reset_flag file d Hstart Hserv | d d' _ [IH1 IH2] Hstep].
  - destruct (reachable_start_cases _ _ _ Hstart Hserv) as (Hu & _ & Hm).
    split.
    + intros x u Hx. unfold fetch_user in Hx. rewrite Hu in Hx. discriminate.
    + intros m Hin. unfold message_rows in Hin.
      destruct Hm as [Hm | Hm]; rewrite Hm in Hin; destruct Hin.
  - split; [eapply step_every_user_has_profile | eapply step_no_self_message];
      eassumption.
Qed.

End HandlerEffects.

(* ================================================================== *)
(** * Sending a message                                                *)
(* ================================================================== *)

(** On the [messages] table of [init_db], [send_message] goes through its
    checks in order and then appends one row. *)
Lemma send_message_init_db (user_id : Z) (form : fields) (now : string)
    (uid : Z) (d : db) (rows : list Message.t) :
  messages d = InitDbMessages rows ->
  authenticated d uid ->
  let body := normalize_text (Some (get_default form "body" "")) in
  (uid = user_id ->
     send_message user_id form now uid d =
     (Redirect (ep_view_profile user_id) "You cannot message yourself."
        "warning", d))
  /\ (uid <> user_id -> all_space (get_default form "body" "") = true ->
      send_message user_id form now uid d =
      (Redirect (ep_view_profile user_id) "Message body cannot be empty."
         "error", d))
  /\ (uid <> user_id -> all_space (get_default form "body" "") = false ->
      fetch_user d user_id = None ->
      send_message user_id form now uid d = (NotFound, d))
  /\ (uid <> user_id -> all_space (get_default form "body" "") = false ->
      fetch_user d user_id <> None ->
      send_message user_id form now uid d =
      (Redirect (ep_thread user_id) "Message sent." "success",
       mkDb (users d) (profiles d)
         (InitDbMessages
            (rows ++ [Message.mk (Sqlite.next_rowid (map Message.id rows))
                        uid user_id body now 0])))).
Proof.
  intros Hrows (_ & u & Hu) body.
  assert (Hblank : all_space (get_default form "body" "") = true ->
                   Py.truthy body = false).
  { intros H. apply truthy_false_iff.
    apply (normalize_text_empty_iff (Some _)). exact H. }
  assert (Hfull : all_space (get_default form "body" "") = false ->
                  Py.truthy body = true).
  { intros H. apply truthy_true_iff. intros E.
    apply (normalize_text_empty_iff (Some _)) in E. congruence. }
  unfold send_message. fold body. repeat split.
  - intros ->. now rewrite Z.eqb_refl.
  - intros Hne Hb. apply Z.eqb_neq in Hne. rewrite Hne, (Hblank Hb).
    reflexivity.
  - intros Hne Hb Hnone. apply Z.eqb_neq in Hne.
    rewrite Hne, (Hfull Hb), Hnone. reflexivity.
  - intros Hne Hb Hsome. apply Z.eqb_neq in Hne.
    rewrite Hne, (Hfull Hb). simpl.
    destruct (fetch_user d user_id) as [v|] eqn:Ev; [|congruence].
    unfold insert_message. rewrite Hrows, Hu, Ev. reflexivity.
Qed.

(** On the [messages] table of [ensure_schema] the INSERT is refused, and
    by [step_keeps_ensure_schema] it is so for as long as the program runs
    on that file. *)
Lemma send_message_ensure_schema (user_id : Z) (form : fields) (now : string)
    (uid : Z) (d : db) :
  messages d = EnsureSchemaMessages ->
  uid <> user_id ->
  all_space (get_default form "body" "") = false ->
  fetch_user d user_id <> None ->
  send_message user_id form now uid d = (ServerError OperationalError, d).
Proof.
  intros Hm Hne Hb Hsome. unfold send_message.
  apply Z.eqb_neq in Hne. rewrite Hne.
  assert (Hfull : Py.truthy (normalize_text (Some (get_default form "body" "")))
                  = true).
  { apply truthy_true_iff. intros E.
    apply (normalize_text_empty_iff (Some _)) in E. congruence. }
  rewrite Hfull. simpl.
  destruct (fetch_user d user_id); [|congruence].
  unfold insert_message. now rewrite Hm.
Qed.

(** No database the program builds holds a message from a user to that
    same user. *)
Lemma reachable_no_self_message
    (secure_filename : string -> string)
    (generate_password_hash : string -> string -> string) (d : db) :
  reachable secure_filename generate_password_hash d -> no_self_message d.
Proof. intros H. now apply reachable_invariants in H. Qed.

(** C2.  Started on no database file and without [--reset-db], the program
    creates [messages] through [ensure_schema]; two users register; the
    first sends "hello" to the second.  The request passes the three checks
    of [send_message], the INSERT is refused, and no row is appended. *)
Theorem send_message_refused_after_plain_start
    (secure_filename : string -> string)
    (generate_password_hash : string -> string -> string) :
  exists d0 d : db,
    serving (main false None) = Some d0
    /\ d = snd (register generate_password_hash POST
                  [("email", "bo@uni.edu"); ("password", "pw2")]
                  "s2" "2024-05-01T10:01:00"
                  (snd (register generate_password_hash POST
                          [("email", "ann@uni.edu"); ("password", "pw1")]
                          "s1" "2024-05-01T10:00:00" d0)))
    /\ reachable secure_filename generate_password_hash d
    /\ authenticated d 1
    /\ authenticated d 2
    /\ send_message 2 [("body", "hello")] "2024-05-01T10:02:00" 1 d
       = (ServerError OperationalError, d).
Proof.
  eexists _, _. split; [apply main_plain_start|]. split; [reflexivity|].
  split.
  { eapply reachable_step; [eapply reachable_step|].
    - eapply (reachable_start _ _ false None); [now right | reflexivity].
    - apply step_register.
    - apply step_register. }
  repeat split; try discriminate.
  - eexists. reflexivity.
  - eexists. reflexivity.
Qed.

(* ================================================================== *)
(** * ORDER BY and LIMIT                                               *)
(* ================================================================== *)

Lemma string_leb_trans (s1 s2 s3 : string) :
  String.leb s1 s2 = true -> String.leb s2 s3 = true ->
  String.leb s1 s3 = true.
Proof.
  unfold String.leb. revert s2 s3.
  induction s1 as [|c1 s1 IH]; intros [|c2 s2] [|c3 s3]; simpl;
    try reflexivity; try discriminate.
  unfold Ascii.compare.
  destruct (N.compare_spec (N_of_ascii c1) (N_of_ascii c2)) as [E12|L12|G12];
    destruct (N.compare_spec (N_of_ascii c2) (N_of_ascii c3)) as [E23|L23|G23];
    destruct (N.compare_spec (N_of_ascii c1) (N_of_ascii c3)) as [E13|L13|G13];
    try reflexivity; try discriminate; try lia; intros H1 H2.
  exact (IH s2 s3 H1 H2).
Qed.

Lemma text_le_total (a b : option string) :
  Sqlite.text_le a b = true \/ Sqlite.text_le b a = true.
Proof.
  destruct a as [x|], b as [y|]; simpl; auto. apply String.leb_total.
Qed.

Lemma text_le_trans (a b c : option string) :
  Sqlite.text_le a b = true -> Sqlite.text_le b c = true ->
  Sqlite.text_le a c = true.
Proof.
  destruct a as [x|], b as [y|], c as [z|]; simpl; try congruence.
  apply string_leb_trans.
Qed.

Section OrderByFacts.

Context {A : Type} (le : A -> A -> bool).
Hypothesis le_total : forall a b, le a b = true \/ le b a = true.
Hypothesis le_trans :
  forall a b c, le a b = true -> le b c = true -> le a c = true.

Let precedes (a b : A) : Prop := le a b = true.

Lemma insert_row_in (r x : A) (l : list A) :
  In x (Sqlite.insert_row le r l) <-> x = r \/ In x l.
Proof.
  induction l as [|y l IH]; simpl.
  - intuition congruence.
  - destruct (le r y); simpl; [intuition congruence|].
    rewrite IH. intuition congruence.
Qed.

Lemma order_by_in (x : A) (l : list A) :
  In x (Sqlite.order_by le l) <-> In x l.
Proof.
  induction l as [|y l IH]; simpl; [tauto|].
  rewrite insert_row_in, IH. intuition congruence.
Qed.

Lemma insert_row_length (r : A) (l : list A) :
  List.length (Sqlite.insert_row le r l) = S (List.length l).
Proof.
  induction l as [|y l IH]; simpl; [reflexivity|].
  destruct (le r y); simpl; [reflexivity|]. now rewrite IH.
Qed.

Lemma order_by_length (l : list A) :
  List.length (Sqlite.order_by le l) = List.length l.
Proof.
  induction l as [|y l IH]; simpl; [reflexivity|].
  now rewrite insert_row_length, IH.
Qed.

Lemma insert_row_sorted (r : A) (l : list A) :
  StronglySorted precedes l ->
  StronglySorted precedes (Sqlite.insert_row le r l).
Proof.
  induction 1 as [|y l Hs IH Hall]; simpl.
  - constructor; constructor.
  - destruct (le r y) eqn:E.
    + constructor; [constructor; assumption|].
      constructor; [exact E|].
      eapply Forall_impl; [|exact Hall].
      intros z Hz. exact (le_trans r y z E Hz).
    + constructor; [exact IH|].
      apply Forall_forall. intros z Hz.
      apply insert_row_in in Hz as [-> | Hz].
      * destruct (le_total r y) as [H|H]; [congruence | exact H].
      * rewrite Forall_forall in Hall. now apply Hall.
Qed.

Lemma order_by_sorted (l : list A) :
  StronglySorted precedes (Sqlite.order_by le l).
Proof.
  induction l as [|y l IH]; simpl; [constructor|].
  now apply insert_row_sorted.
Qed.

Lemma limit_in (n : nat) (x : A) (l : list A) :
  In x (Sqlite.limit n l) -> In x l.
Proof.
  unfold Sqlite.limit. intros H.
  rewrite <- (firstn_skipn n l). apply in_or_app. now left.
Qed.

Lemma limit_sorted (n : nat) (l : list A) :
  StronglySorted precedes l -> StronglySorted precedes (Sqlite.limit n l).
Proof.
  unfold Sqlite.limit. intros H. revert n.
  induction H as [|y l Hs IH Hall]; intros [|n]; simpl; try constructor.
  - apply IH.
  - apply Forall_forall. intros z Hz. rewrite Forall_forall in Hall.
    apply Hall. exact (limit_in n z l Hz).
Qed.

End OrderByFacts.

(* ================================================================== *)
(** * Occurrences                                                      *)
(* ================================================================== *)

Lemma append_empty_r (a : string) : (a ++ "")%string = a.
Proof. induction a as [|x a IH]; simpl; [reflexivity | now rewrite IH]. Qed.

Lemma lower_map_chars (s : string) : Py.lower s = map_chars Py.lower_char s.
Proof. induction s as [|c s IH]; simpl; [reflexivity | now rewrite IH]. Qed.

Lemma map_chars_append (f : ascii -> ascii) (a b : string) :
  map_chars f (a ++ b)%string = (map_chars f a ++ map_chars f b)%string.
Proof. induction a as [|x a IH]; simpl; [reflexivity | now rewrite IH]. Qed.

Lemma map_chars_split (f : ascii -> ascii) (s x y : string) :
  map_chars f s = (x ++ y)%string ->
  exists s1 s2, s = (s1 ++ s2)%string
                /\ map_chars f s1 = x /\ map_chars f s2 = y.
Proof.
  revert s. induction x as [|c x IH]; intros s H; simpl in H.
  - exists "", s. auto.
  - destruct s as [|d s]; simpl in H; [discriminate|].
    injection H as Hc Hs. destruct (IH s Hs) as (s1 & s2 & -> & H1 & H2).
    exists (String d s1), s2. simpl. now rewrite Hc, H1.
Qed.

Lemma startswith_iff (a t : string) :
  Py.startswith a t = true <-> exists post, t = (a ++ post)%string.
Proof.
  revert t. induction a as [|c a IH]; intros t; simpl.
  - split; [intros _; now exists t | reflexivity].
  - destruct t as [|d t].
    + split; [discriminate | intros [post H]; discriminate].
    + rewrite andb_true_iff, Ascii.eqb_eq, IH. split.
      * intros [-> [post ->]]. now exists post.
      * intros [post H]. injection H as -> ->. split; [reflexivity|].
        now exists post.
Qed.

Lemma contains_iff (a t : string) :
  Py.contains a t = true <->
  exists pre post, t = (pre ++ a ++ post)%string.
Proof.
  induction t as [|d t IH].
  - simpl. rewrite orb_false_r, startswith_iff. split.
    + intros [post H]. now exists "", post.
    + intros (pre & post & H). destruct pre; simpl in H; [now exists post|].
      discriminate.
  - cbn [Py.contains]. rewrite orb_true_iff, startswith_iff, IH. split.
    + intros [[post H] | (pre & post & ->)].
      * now exists "", post.
      * now exists (String d pre), post.
    + intros (pre & post & H). destruct pre as [|e pre]; simpl in H.
      * left. now exists post.
      * right. injection H as _ ->. now exists pre, post.
Qed.

(** [fold kw in fold s], for a fold that works code point by code point,
    says that [kw] occurs in [s] up to that fold. *)
Lemma contains_folded (f : ascii -> ascii) (kw s : string) :
  Py.contains (map_chars f kw) (map_chars f s) = true <->
  occurs_folded (map_chars f) kw s.
Proof.
  rewrite contains_iff. unfold occurs_folded. split.
  - intros (pre & post & H).
    apply map_chars_split in H as (s1 & s23 & -> & _ & H).
    apply map_chars_split in H as (s2 & s3 & -> & H2 & _).
    now exists s1, s2, s3.
  - intros (pre & mid & post & -> & H).
    exists (map_chars f pre), (map_chars f post).
    now rewrite !map_chars_append, H.
Qed.

Lemma contains_lower (kw s : string) :
  Py.contains (Py.lower kw) (Py.lower s) = true <-> occurs_ignoring_case kw s.
Proof.
  unfold occurs_ignoring_case, occurs_folded.
  rewrite !lower_map_chars, contains_folded. unfold occurs_folded.
  split; intros (pre & mid & post & H1 & H2); exists pre, mid, post;
    (split; [exact H1|]); now rewrite ?lower_map_chars in *.
Qed.

(* ================================================================== *)
(** * LIKE                                                             *)
(* ================================================================== *)







Lemma c_str_no_nul (s : string) : no_nul s = true -> Sqlite.c_str s = s.
Proof.
  induction s as [|c s IH]; simpl; [reflexivity|].
  intros H. apply andb_true_iff in H as [Hc Hs].
  apply negb_true_iff in Hc. now rewrite Hc, (IH Hs).
Qed.



(* ================================================================== *)
(** * Search                                                           *)
(* ================================================================== *)

Lemma where_keeps_and (a b : Sqlite.sql_bool) :
  Sqlite.where_keeps (Sqlite.sql_and a b) =
  Sqlite.where_keeps a && Sqlite.where_keeps b.
Proof. destruct a as [[|]|], b as [[|]|]; reflexivity. Qed.

Lemma where_keeps_or (a b : Sqlite.sql_bool) :
  Sqlite.where_keeps (Sqlite.sql_or a b) =
  Sqlite.where_keeps a || Sqlite.where_keeps b.
Proof. destruct a as [[|]|], b as [[|]|]; reflexivity. Qed.

Lemma where_keeps_text_eq (column : option string) (param : string) :
  Sqlite.where_keeps (Sqlite.text_eq column param) = true <->
  column = Some param.
Proof.
  destruct column as [s|]; simpl; [|split; discriminate].
  destruct (String.eqb_spec s param); split; congruence.
Qed.

Lemma where_keeps_text_like (column : option string) (pat : string) :
  Sqlite.where_keeps (Sqlite.text_like column pat) = true <->
  exists s, column = Some s /\ Sqlite.like pat s = true.
Proof.
  destruct column as [s|]; simpl.
  - destruct (Sqlite.like pat s) eqn:E; split.
    + intros _. now exists s.
    + reflexivity.
    + discriminate.
    + intros (s' & H & H'). congruence.
  - split; [discriminate | intros (s & H & _); discriminate].
Qed.

Lemma keyword_clause_keeps (like : string) (p : Profile.t) :
  Sqlite.where_keeps
    (Sqlite.sql_or
      (Sqlite.sql_or
        (Sqlite.sql_or
          (Sqlite.sql_or
            (Sqlite.sql_or
              (Sqlite.sql_or
                 (Sqlite.text_like (Profile.full_name p) like)
                 (Sqlite.text_like (Profile.title p) like))
              (Sqlite.text_like (Profile.bio p) like))
            (Sqlite.text_like (Profile.skills p) like))
          (Sqlite.text_like (Profile.device_access p) like))
        (Sqlite.text_like (Profile.school_faculty p) like))
      (Sqlite.text_like (Profile.supervisor_name p) like)) = true
  <-> exists s, In (Some s) (keyword_columns p) /\ Sqlite.like like s = true.
Proof.
  repeat rewrite where_keeps_or. repeat rewrite orb_true_iff.
  repeat rewrite where_keeps_text_like. unfold keyword_columns. split.
  - intros H.
    repeat (destruct H as [H | H]);
      destruct H as (s & Hc & Hs); exists s; rewrite <- Hc; simpl; tauto.
  - intros (s & Hin & Hs). simpl in Hin.
    assert (Hex : forall c, c = Some s ->
                            exists s0, c = Some s0 /\ Sqlite.like like s0 = true)
      by (intros c Hc; now exists s).
    repeat (destruct Hin as [Hin | Hin]; [apply Hex in Hin; tauto|]).
    destruct Hin.
Qed.

(** The WHERE clause of [search()], read as a condition on the row. *)
Lemma search_where_keeps (uid : Z) (university position q like : string)
    (p : Profile.t) :
  Sqlite.where_keeps (search_where uid university position q like p) = true
  <->
  Profile.user_id p <> uid
  /\ (university = "" \/ Profile.university p = Some university)
  /\ (position = "" \/ Profile.position p = Some position)
  /\ (q = "" \/ exists s, In (Some s) (keyword_columns p)
                          /\ Sqlite.like like s = true).
Proof.
  unfold search_where.
  assert (Hid : Sqlite.where_keeps (Some (negb (Profile.user_id p =? uid))) = true
                <-> Profile.user_id p <> uid).
  { simpl. destruct (Z.eqb_spec (Profile.user_id p) uid); simpl;
      split; congruence. }
  pose proof (truthy_true_iff university) as Tu.
  pose proof (truthy_false_iff university) as Fu.
  pose proof (truthy_true_iff position) as Tp.
  pose proof (truthy_false_iff position) as Fp.
  pose proof (truthy_true_iff q) as Tq.
  pose proof (truthy_false_iff q) as Fq.
  destruct (Py.truthy university), (Py.truthy position), (Py.truthy q);
    repeat rewrite where_keeps_and; repeat rewrite andb_true_iff;
    try rewrite keyword_clause_keeps;
    repeat rewrite where_keeps_text_eq; rewrite Hid;
    intuition congruence.
Qed.

Lemma search_with_do (args : fields) (uid : Z) (d : db) :
  get args "do" = Some "1" ->
  search args uid d =
  (RenderSearch true
     (search_select uid
        (normalize_text (Some (get_default args "university" "")))
        (normalize_text (Some (get_default args "position" "")))
        (normalize_text (Some (get_default args "q" ""))) d), d).
Proof. intros H. unfold search. now rewrite H. Qed.

Lemma updated_at_desc_total (a b : Profile.t) :
  updated_at_desc a b = true \/ updated_at_desc b a = true.
Proof. unfold updated_at_desc. apply text_le_total. Qed.

Lemma updated_at_desc_trans (a b c : Profile.t) :
  updated_at_desc a b = true -> updated_at_desc b c = true ->
  updated_at_desc a c = true.
Proof.
  unfold updated_at_desc. intros H1 H2. eapply text_le_trans; eassumption.
Qed.

Lemma search_select_in (uid : Z) (university position q : string) (d : db)
    (p : Profile.t) :
  In p (search_select uid university position q d) ->
  In p (search_rows uid university position q d).
Proof.
  unfold search_select. intros H. apply limit_in in H.
  now apply order_by_in in H.
Qed.


(** C3.  A submitted search ([do=1]) answers with rows of [profiles] other
    than the searcher's own, at most 200 of them, each row no older (by
    [updated_at]) than every row after it. *)
Theorem search_excludes_self_capped_sorted (args : fields) (uid : Z) (d : db) :
  get args "do" = Some "1" ->
  exists results,
    search args uid d = (RenderSearch true results, d)
    /\ (forall p, In p results ->
                  In p (profiles d) /\ Profile.user_id p <> uid)
    /\ (List.length results <= 200)%nat
    /\ StronglySorted not_older results.
Proof.
  intros Hdo. rewrite (search_with_do args uid d Hdo).
  eexists. split; [reflexivity|]. split; [|split].
  - intros p Hin. apply search_select_in in Hin.
    unfold search_rows in Hin. apply filter_In in Hin as [Hin Hw].
    apply search_where_keeps in Hw. tauto.
  - unfold search_select, Sqlite.limit. apply firstn_le_length.
  - unfold search_select.
    apply (limit_sorted updated_at_desc).
    apply (order_by_sorted updated_at_desc updated_at_desc_total
             updated_at_desc_trans).
Qed.

(** User 1 searches the small database for "python". *)
Lemma search_excludes_self_capped_sorted_witness :
  get [("q", "python"); ("do", "1")] "do" = Some "1"
  /\ exists results,
      search [("q", "python"); ("do", "1")] 1 example_db
      = (RenderSearch true results, example_db)
      /\ (forall p, In p results ->
                    In p (profiles example_db) /\ Profile.user_id p <> 1)
      /\ (List.length results <= 200)%nat
      /\ StronglySorted not_older results.
Proof.
  split; [reflexivity|].
  apply (search_excludes_self_capped_sorted
           [("q", "python"); ("do", "1")] 1 example_db).
  reflexivity.
Defined.

(** C10.  Without [do=1] among the query parameters, [search] answers with
    the empty result list whatever the database holds and whatever [q],
    [university] and [position] are; a non-empty result list implies
    [do=1]. *)
Theorem search_without_do_is_empty :
  (forall (args : fields) (uid : Z) (d : db),
      get args "do" <> Some "1" ->
      search args uid d = (RenderSearch false [], d))
  /\ (forall (args : fields) (uid : Z) (d : db) (flag : bool)
             (results : list Profile.t),
         fst (search args uid d) = RenderSearch flag results ->
         results <> [] ->
         get args "do" = Some "1").
Proof.
  assert (H : forall args uid d, get args "do" <> Some "1" ->
                                 search args uid d = (RenderSearch false [], d)).
  { intros args uid d Hdo. unfold search.
    destruct (get args "do") as [v|]; [|reflexivity].
    destruct (String.eqb_spec v "1") as [->|Hne]; [congruence | reflexivity]. }
  split; [exact H|].
  intros args uid d flag results Hs Hne.
  assert (Hdec : get args "do" = Some "1" \/ get args "do" <> Some "1").
  { destruct (get args "do") as [v|]; [|right; discriminate].
    destruct (String.string_dec v "1") as [->|Hv]; [now left|].
    right. congruence. }
  destruct Hdec as [E|E]; [exact E|].
  rewrite (H args uid d E) in Hs. simpl in Hs. congruence.
Qed.

(** A query without [do], and one with [do=yes]. *)
Lemma search_without_do_is_empty_witness :
  get [("q", "python"); ("university", "Monash University")] "do" <> Some "1"
  /\ search [("q", "python"); ("university", "Monash University")] 1 example_db
     = (RenderSearch false [], example_db)
  /\ get [("q", "python"); ("do", "yes")] "do" <> Some "1"
  /\ search [("q", "python"); ("do", "yes")] 1 example_db
     = (RenderSearch false [], example_db).
Proof.
  assert (H1 : get [("q", "python"); ("university", "Monash University")] "do"
               <> Some "1") by discriminate.
  assert (H2 : get [("q", "python"); ("do", "yes")] "do" <> Some "1")
    by discriminate.
  split; [exact H1|]. split.
  - exact (proj1 search_without_do_is_empty _ 1 example_db H1).
  - split; [exact H2|].
    exact (proj1 search_without_do_is_empty _ 1 example_db H2).
Defined.




(* ================================================================== *)
(** * Reading a thread                                                 *)
(* ================================================================== *)

Lemma mark_read_on_view (uid user_id : Z) (m : Message.t) :
  read_on_view user_id uid m (mark_read uid user_id m).
Proof.
  unfold read_on_view, unread_from.
  destruct (mark_read_columns uid user_id m) as (H1 & H2 & H3 & H4 & H5).
  repeat (split; [assumption|]).
  unfold mark_read.
  destruct (Z.eqb_spec (Message.receiver_id m) uid);
    destruct (Z.eqb_spec (Message.sender_id m) user_id);
    destruct (Z.eqb_spec (Message.is_read m) 0); simpl; split; tauto.
Qed.

Lemma map_mark_read_on_view (uid user_id : Z) (rows : list Message.t) :
  Forall2 (read_on_view user_id uid) rows (map (mark_read uid user_id) rows).
Proof.
  induction rows as [|m rows IH]; simpl; constructor;
    [apply mark_read_on_view | exact IH].
Qed.

Lemma thread_opens (user_id uid : Z) (d : db) (other : Profile.t) :
  uid <> user_id ->
  fetch_profile d user_id = Some other ->
  match messages d with
  | InitDbMessages rows =>
      (exists msgs other_name,
          fst (thread user_id uid d) = RenderThread msgs user_id other_name uid)
      /\ snd (thread user_id uid d)
         = mkDb (users d) (profiles d)
             (InitDbMessages (map (mark_read uid user_id) rows))
  | EnsureSchemaMessages =>
      thread user_id uid d = (ServerError OperationalError, d)
  end.
Proof.
  intros Hne Hp. unfold thread. apply Z.eqb_neq in Hne. rewrite Hne, Hp.
  destruct (messages d) as [rows|]; simpl; eauto.
Qed.

Lemma thread_reopen (user_id uid : Z) (d : db) (other : Profile.t) :
  uid <> user_id ->
  fetch_profile d user_id = Some other ->
  snd (thread user_id uid (snd (thread user_id uid d)))
  = snd (thread user_id uid d).
Proof.
  intros Hne Hp. pose proof (thread_opens user_id uid d other Hne Hp) as H.
  destruct (messages d) as [rows|] eqn:Em.
  - destruct H as [_ H]. rewrite H.
    pose proof (thread_opens user_id uid
                  (mkDb (users d) (profiles d)
                     (InitDbMessages (map (mark_read uid user_id) rows)))
                  other Hne Hp) as H'.
    simpl in H'. destruct H' as [_ H']. rewrite H'. simpl.
    rewrite map_map. f_equal. f_equal. apply map_ext.
    intros m. apply mark_read_idempotent.
  - rewrite H. simpl. now rewrite H.
Qed.

(** C4.  In a database the program built, let [A] and [B] be two distinct
    users.  When [A] opens the thread with [B], users and profiles stay as
    they are and every message keeps its columns, except that the read
    flag becomes 1 on the messages from [B] to [A] that were unread, and on
    no other; opening the thread again changes nothing. *)
Theorem thread_marks_unread_from_other_as_read
    (secure_filename : string -> string)
    (generate_password_hash : string -> string -> string)
    (d : db) (A B : Z) :
  reachable secure_filename generate_password_hash d ->
  authenticated d A -> authenticated d B -> A <> B ->
  let d' := snd (thread B A d) in
  users d' = users d
  /\ profiles d' = profiles d
  /\ Forall2 (read_on_view B A) (message_rows d) (message_rows d')
  /\ (forall rows, messages d = InitDbMessages rows ->
        exists rows', messages d' = InitDbMessages rows'
                      /\ exists msgs other_name,
                          fst (thread B A d) = RenderThread msgs B other_name A)
  /\ snd (thread B A d') = d'.
Proof.
  intros Hreach _ (_ & u & Hu) Hne d'.
  apply reachable_invariants in Hreach as [Hprof _].
  destruct (Hprof B u Hu) as [other Hp].
  pose proof (thread_opens B A d other Hne Hp) as H.
  pose proof (thread_reopen B A d other Hne Hp) as Hre.
  fold d' in Hre. unfold message_rows. subst d'.
  destruct (messages d) as [rows|] eqn:Em.
  - destruct H as [Hview H]. rewrite H. simpl.
    repeat split; try assumption.
    + apply map_mark_read_on_view.
    + intros rows0 _. eauto.
    + now rewrite H in Hre.
  - rewrite H. simpl. rewrite Em.
    repeat split; try constructor.
    + intros rows0 E. discriminate.
    + now rewrite H.
Qed.

(** [demo_db] is built by the program. *)
Lemma demo_db_reachable : reachable demo_sanitize demo_hash demo_db.
Proof.
  unfold demo_db.
  eapply reachable_step; [eapply reachable_step; [eapply reachable_step|]|].
  - apply (reachable_start _ _ true None); [now left | reflexivity].
  - apply step_register.
  - apply step_register.
  - apply step_send_message. split; [discriminate|]. eexists. reflexivity.
Defined.

(** Ann opens the thread with Bo, twice. *)
Lemma thread_marks_unread_from_other_as_read_witness :
  message_rows demo_db
  = [Message.mk 1 2 1 "Hello Ann" "2024-05-04T08:00:00" 0]
  /\ message_rows (snd (thread 2 1 demo_db))
     = [Message.mk 1 2 1 "Hello Ann" "2024-05-04T08:00:00" 1]
  /\ Forall2 (read_on_view 2 1) (message_rows demo_db)
       (message_rows (snd (thread 2 1 demo_db)))
  /\ snd (thread 2 1 (snd (thread 2 1 demo_db))) = snd (thread 2 1 demo_db).
Proof.
  split; [reflexivity|]. split; [reflexivity|].
  assert (H1 : authenticated demo_db 1)
    by (split; [discriminate | eexists; reflexivity]).
  assert (H2 : authenticated demo_db 2)
    by (split; [discriminate | eexists; reflexivity]).
  assert (Hne : 1 <> 2) by discriminate.
  destruct (thread_marks_unread_from_other_as_read demo_sanitize demo_hash
              demo_db 1 2 demo_db_reachable H1 H2 Hne)
    as (_ & _ & Hrows & _ & Hagain).
  split; [exact Hrows | exact Hagain].
Defined.

(* ================================================================== *)
(** * Editing a profile                                                *)
(* ================================================================== *)

Section ProfileEdit.

Variable secure_filename : string -> string.

Lemma allowed_file_iff (name : string) :
  allowed_file name = true <-> has_allowed_extension name.
Proof.
  unfold allowed_file, has_allowed_extension. rewrite existsb_exists. split.
  - intros (x & Hin & Hx). apply String.eqb_eq in Hx. now subst x.
  - intros Hin. eexists. split; [exact Hin | apply String.eqb_refl].
Qed.

(** The three outcomes of the photo part. *)
Lemma posted_photo_cases (photo : option FileStorage) (uid timestamp : Z) :
  (no_new_photo secure_filename photo
   /\ posted_photo secure_filename photo uid timestamp = inl None)
  \/ (exists raw,
         uploads_file secure_filename photo raw
         /\ has_allowed_extension (secure_filename raw)
         /\ posted_photo secure_filename photo uid timestamp
            = inl (Some (generated_name uid timestamp (secure_filename raw))))
  \/ (exists raw,
         uploads_file secure_filename photo raw
         /\ ~ has_allowed_extension (secure_filename raw)
         /\ posted_photo secure_filename photo uid timestamp
            = inr "Invalid file type. Use PNG/JPG/JPEG/WEBP only.").
Proof.
  unfold posted_photo, save_photo, no_new_photo, uploads_file.
  destruct photo as [[[raw|]]|]; simpl; auto.
  destruct (Py.truthy raw) eqn:Er; simpl.
  2:{ apply truthy_false_iff in Er. auto. }
  apply truthy_true_iff in Er.
  destruct (Py.truthy (secure_filename raw)) eqn:Es; simpl.
  2:{ apply truthy_false_iff in Es. auto. }
  apply truthy_true_iff in Es.
  destruct (allowed_file (secure_filename raw)) eqn:Ea; simpl.
  - apply allowed_file_iff in Ea. right. left. exists raw.
    repeat split; auto.
  - right. right. exists raw. repeat split; auto.
    intros H. apply allowed_file_iff in H. congruence.
Qed.

Lemma no_new_photo_not_uploads (photo : option FileStorage) (raw : string) :
  no_new_photo secure_filename photo ->
  uploads_file secure_filename photo raw -> False.
Proof.
  unfold no_new_photo, uploads_file. intros H (-> & Hr & Hs). simpl in H.
  tauto.
Qed.

Lemma uploads_file_unique (photo : option FileStorage) (raw raw' : string) :
  uploads_file secure_filename photo raw ->
  uploads_file secure_filename photo raw' -> raw = raw'.
Proof. intros (-> & _) (H & _). congruence. Qed.

Lemma validation_passes_iff (form : fields) :
  Py.truthy (submitted form "full_name")
  && Py.truthy (submitted form "highest_qualification")
  && Py.truthy (submitted form "country")
  && Py.truthy (submitted form "university")
  && Py.truthy (submitted form "position")
  && Py.truthy (submitted form "bio")
  && Py.truthy (submitted form "skills") = true
  <-> passes_validation form.
Proof.
  unfold passes_validation. repeat rewrite andb_true_iff.
  repeat rewrite truthy_true_iff. tauto.
Qed.

(** A profile POST is answered "Profile saved." exactly when the user's
    row is there or can be inserted, the photo part raises no error, and
    the required fields pass validation; the UPDATE then runs. *)
Lemma profile_edit_saved (photo : option FileStorage) (form : fields)
    (now : string) (timestamp : Z) (updated_at : string) (uid : Z) (d : db) :
  fst (profile_edit secure_filename POST photo form now timestamp updated_at
         uid d) = saved ->
  exists d1 photo_filename,
    match fetch_profile d uid with
    | None => insert_profile d uid now
    | Some _ => inl d
    end = inl d1
    /\ fetch_profile d1 uid = Some (profile_before d uid now)
    /\ posted_photo secure_filename photo uid timestamp = inl photo_filename
    /\ passes_validation form
    /\ snd (profile_edit secure_filename POST photo form now timestamp
              updated_at uid d)
       = update_profile d1 uid photo_filename
           (submitted form "title") (submitted form "full_name")
           (submitted form "highest_qualification")
           (submitted form "country") (submitted form "university")
           (submitted form "school_faculty") (submitted form "position")
           (if negb (Py.contains "student"
                       (Py.lower (submitted form "position")))
            then "" else submitted form "supervisor_name")
           (submitted form "bio") (submitted form "skills")
           (submitted form "device_access") updated_at.
Proof.
  unfold profile_edit, profile_before. fold (submitted form).
  destruct (fetch_profile d uid) as [old|] eqn:Eold.
  - cbv beta iota.
    destruct (posted_photo _ _ _ _) as [pf|e]; cbv beta iota;
      [|discriminate].
    match goal with
    | |- context [if negb ?c then _ else _] => destruct c eqn:Ev
    end; cbn [negb fst snd]; [|discriminate].
    intros _. exists d, pf.
    split; [reflexivity|]. split; [exact Eold|]. split; [reflexivity|].
    split; [now apply validation_passes_iff | reflexivity].
  - destruct (insert_profile d uid now) as [d1|e] eqn:Eins;
      cbv beta iota; [|discriminate].
    destruct (posted_photo _ _ _ _) as [pf|e]; cbv beta iota;
      [|discriminate].
    match goal with
    | |- context [if negb ?c then _ else _] => destruct c eqn:Ev
    end; cbn [negb fst snd]; [|discriminate].
    intros _. exists d1, pf.
    apply insert_profile_inl in Eins as (_ & _ & ->).
    split; [reflexivity|]. split.
    { rewrite fetch_profile_append, Eold. simpl. now rewrite Z.eqb_refl. }
    split; [reflexivity|].
    split; [now apply validation_passes_iff | reflexivity].
Qed.

End ProfileEdit.

Lemma profile_edit_stored (secure_filename : string -> string)
    (photo : option FileStorage) (form : fields)
    (now : string) (timestamp : Z) (updated_at : string) (uid : Z) (d : db) :
  fst (profile_edit secure_filename POST photo form now timestamp updated_at
         uid d) = saved ->
  exists photo_filename,
    posted_photo secure_filename photo uid timestamp = inl photo_filename
    /\ fetch_profile
         (snd (profile_edit secure_filename POST photo form now timestamp
                 updated_at uid d)) uid
       = Some
           (Profile.mk uid
              (coalesce photo_filename
                 (Profile.photo_filename (profile_before d uid now)))
              (Some (submitted form "title"))
              (Some (submitted form "full_name"))
              (Some (submitted form "highest_qualification"))
              (Some (submitted form "country"))
              (Some (submitted form "university"))
              (Some (submitted form "school_faculty"))
              (Some (submitted form "position"))
              (Some (if negb (Py.contains "student"
                                (Py.lower (submitted form "position")))
                     then "" else submitted form "supervisor_name"))
              (Some (submitted form "bio"))
              (Some (submitted form "skills"))
              (Some (submitted form "device_access"))
              (Some updated_at)).
Proof.
  intros Hsaved.
  destruct (profile_edit_saved secure_filename photo form now timestamp
              updated_at uid d Hsaved)
    as (d1 & pf & _ & Hbefore & Hpf & _ & ->).
  exists pf. split; [exact Hpf|].
  rewrite fetch_profile_update, Hbefore. simpl.
  rewrite (fetch_profile_user_id d1 uid _ Hbefore), Z.eqb_refl. reflexivity.
Qed.

(** A profile POST of a user with a row, whose photo part raises no error
    and whose required fields are filled, is saved. *)
Lemma profile_edit_accepts (secure_filename : string -> string)
    (photo : option FileStorage) (form : fields)
    (now : string) (timestamp : Z) (updated_at : string) (uid : Z) (d : db)
    (old : Profile.t) :
  fetch_profile d uid = Some old ->
  (forall raw, uploads_file secure_filename photo raw ->
               has_allowed_extension (secure_filename raw)) ->
  passes_validation form ->
  fst (profile_edit secure_filename POST photo form now timestamp updated_at
         uid d) = saved.
Proof.
  intros Hold Hphoto Hval. unfold profile_edit. rewrite Hold.
  destruct (posted_photo_cases secure_filename photo uid timestamp)
    as [[_ ->] | [(raw & _ & _ & ->) | (raw & Hup & Hbad & _)]];
    [| |exfalso; exact (Hbad (Hphoto raw Hup))];
    cbv beta iota zeta;
    apply validation_passes_iff in Hval; unfold submitted in Hval;
    rewrite Hval; reflexivity.
Qed.

(** C6.  After a profile POST that is saved, the user's row holds the
    submitted (normalised) fields and the new [updated_at];
    [supervisor_name] holds the submitted name or the empty text.  Its
    [photo_filename] is the one the row had when the request carried no
    new photo (no file, no or an empty filename, a filename that sanitises
    to empty); when a file was uploaded, its sanitised name has one of the
    four extensions and [photo_filename] is the generated
    [user_<id>_<timestamp><ext>]. *)
Theorem profile_edit_keeps_or_replaces_photo
    (secure_filename : string -> string)
    (photo : option FileStorage) (form : fields)
    (now : string) (timestamp : Z) (updated_at : string) (uid : Z) (d : db) :
  fst (profile_edit secure_filename POST photo form now timestamp updated_at
         uid d) = saved ->
  exists stored,
    fetch_profile
      (snd (profile_edit secure_filename POST photo form now timestamp
              updated_at uid d)) uid = Some stored
    /\ Profile.user_id stored = uid
    /\ Profile.title stored = Some (submitted form "title")
    /\ Profile.full_name stored = Some (submitted form "full_name")
    /\ Profile.highest_qualification stored
       = Some (submitted form "highest_qualification")
    /\ Profile.country stored = Some (submitted form "country")
    /\ Profile.university stored = Some (submitted form "university")
    /\ Profile.school_faculty stored = Some (submitted form "school_faculty")
    /\ Profile.position stored = Some (submitted form "position")
    /\ (Profile.supervisor_name stored
        = Some (submitted form "supervisor_name")
        \/ Profile.supervisor_name stored = Some "")
    /\ Profile.bio stored = Some (submitted form "bio")
    /\ Profile.skills stored = Some (submitted form "skills")
    /\ Profile.device_access stored = Some (submitted form "device_access")
    /\ Profile.updated_at stored = Some updated_at
    /\ (no_new_photo secure_filename photo ->
        Profile.photo_filename stored
        = Profile.photo_filename (profile_before d uid now))
    /\ (forall raw,
           uploads_file secure_filename photo raw ->
           has_allowed_extension (secure_filename raw)
           /\ Profile.photo_filename stored
              = Some (generated_name uid timestamp (secure_filename raw))).
Proof.
  intros Hsaved.
  destruct (profile_edit_stored secure_filename photo form now timestamp
              updated_at uid d Hsaved) as (pf & Hpf & Hstored).
  eexists. split; [exact Hstored|]. simpl.
  do 8 (split; [reflexivity|]).
  split; [destruct (negb _); auto|].
  do 4 (split; [reflexivity|]).
  destruct (posted_photo_cases secure_filename photo uid timestamp)
    as [[Hno H] | [(raw & Hup & Hext & H) | (raw & _ & _ & H)]];
    rewrite H in Hpf; [| |discriminate]; injection Hpf as <-; simpl.
  - split; [reflexivity|]. intros raw Hup.
    destruct (no_new_photo_not_uploads secure_filename photo raw Hno Hup).
  - split.
    + intros Hno.
      destruct (no_new_photo_not_uploads secure_filename photo raw Hno Hup).
    + intros raw' Hup'.
      rewrite <- (uploads_file_unique secure_filename photo raw raw' Hup Hup').
      auto.
Qed.

(** Bo saves his profile without a picture, then with [me.JPG]. *)
Lemma profile_edit_keeps_or_replaces_photo_witness :
  (* no file part: the stored name stays *)
  (fst (profile_edit demo_sanitize POST None demo_form "2024-06-01T00:00:00"
          1717200000 "2024-06-01T00:00:05" 2 example_db) = saved
   /\ option_map Profile.photo_filename
        (fetch_profile
           (snd (profile_edit demo_sanitize POST None demo_form
                   "2024-06-01T00:00:00" 1717200000 "2024-06-01T00:00:05"
                   2 example_db)) 2)
      = Some (Some "user_2_1714557700.png"))
  (* a new picture: the generated name replaces it *)
  /\ (fst (profile_edit demo_sanitize POST
             (Some (mkFile_storage (Some "me.JPG"))) demo_form
             "2024-06-01T00:00:00" 1717200000 "2024-06-01T00:00:05" 2
             example_db) = saved
      /\ option_map Profile.photo_filename
           (fetch_profile
              (snd (profile_edit demo_sanitize POST
                      (Some (mkFile_storage (Some "me.JPG"))) demo_form
                      "2024-06-01T00:00:00" 1717200000 "2024-06-01T00:00:05"
                      2 example_db)) 2)
         = Some (Some "user_2_1717200000.jpg")).
Proof.
  split.
  - assert (Hs : fst (profile_edit demo_sanitize POST None demo_form
                        "2024-06-01T00:00:00" 1717200000
                        "2024-06-01T00:00:05" 2 example_db) = saved)
      by reflexivity.
    split; [exact Hs|].
    destruct (profile_edit_keeps_or_replaces_photo demo_sanitize None demo_form
                "2024-06-01T00:00:00" 1717200000 "2024-06-01T00:00:05" 2
                example_db Hs) as (stored & -> & H).
    decompose [and] H. simpl option_map.
    match goal with
    | Hk : no_new_photo _ _ -> _ |- _ => rewrite (Hk I)
    end.
    reflexivity.
  - assert (Hs : fst (profile_edit demo_sanitize POST
                        (Some (mkFile_storage (Some "me.JPG"))) demo_form
                        "2024-06-01T00:00:00" 1717200000
                        "2024-06-01T00:00:05" 2 example_db) = saved)
      by reflexivity.
    split; [exact Hs|].
    destruct (profile_edit_keeps_or_replaces_photo demo_sanitize
                (Some (mkFile_storage (Some "me.JPG"))) demo_form
                "2024-06-01T00:00:00" 1717200000 "2024-06-01T00:00:05" 2
                example_db Hs) as (stored & -> & H).
    decompose [and] H. simpl option_map.
    match goal with
    | Hk : forall raw, uploads_file _ _ raw -> _ |- _ =>
        destruct (Hk "me.JPG") as [_ ->];
          [repeat split; discriminate | reflexivity]
    end.
Defined.

(** Whatever its size, a profile request leaves the database a request
    within the cap would: over the cap, the one a GET leaves. *)
Lemma profile_edit_request_db (secure_filename : string -> string)
    (content_length : Z) (m : method)
    (photo : option FileStorage) (form : fields)
    (now : string) (timestamp : Z) (updated_at : string) (uid : Z) (d : db) :
  snd (profile_edit_request secure_filename content_length m photo form now
         timestamp updated_at uid d)
  = snd (profile_edit secure_filename
           (if MAX_CONTENT_LENGTH <? content_length then GET else m)
           photo form now timestamp updated_at uid d).
Proof.
  unfold profile_edit_request.
  destruct m; [now destruct (MAX_CONTENT_LENGTH <? content_length)|].
  destruct (MAX_CONTENT_LENGTH <? content_length); [|reflexivity].
  unfold profile_edit.
  destruct (fetch_profile d uid); [reflexivity|].
  now destruct (insert_profile d uid now).
Qed.

(** So a profile request of any size is one of the requests of [step]. *)
Lemma profile_edit_request_step
    (secure_filename : string -> string)
    (generate_password_hash : string -> string -> string)
    (content_length : Z) (m : method)
    (photo : option FileStorage) (form : fields)
    (now : string) (timestamp : Z) (updated_at : string) (uid : Z) (d : db) :
  authenticated d uid ->
  step secure_filename generate_password_hash d
    (snd (profile_edit_request secure_filename content_length m photo form
            now timestamp updated_at uid d)).
Proof.
  intros Hauth. rewrite profile_edit_request_db.
  now apply step_profile_edit.
Qed.

Lemma profile_edit_refuses_extension (secure_filename : string -> string)
    (photo : option FileStorage) (form : fields)
    (now : string) (timestamp : Z) (updated_at : string) (uid : Z) (d : db)
    (old : Profile.t) (raw : string) :
  fetch_profile d uid = Some old ->
  uploads_file secure_filename photo raw ->
  ~ has_allowed_extension (secure_filename raw) ->
  profile_edit secure_filename POST photo form now timestamp updated_at uid d
  = (Redirect ep_profile_edit
       "Invalid file type. Use PNG/JPG/JPEG/WEBP only." "error", d).
Proof.
  intros Hold Hup Hbad. unfold profile_edit. rewrite Hold.
  destruct (posted_photo_cases secure_filename photo uid timestamp)
    as [[Hno _] | [(raw' & Hup' & Hext & _) | (raw' & _ & _ & ->)]].
  - destruct (no_new_photo_not_uploads secure_filename photo raw Hno Hup).
  - rewrite (uploads_file_unique secure_filename photo raw raw' Hup Hup')
      in Hbad. contradiction.
  - reflexivity.
Qed.

(** C7, as the code has it.  A profile POST that uploads a file whose
    sanitised name carries an extension outside the four allowed
    (compared lower-cased) is answered, when its body is within
    [MAX_CONTENT_LENGTH], by a redirect to the form with the error message
    flashed; when its body is over the cap it is answered 413, the
    extension not looked at.  Either way the database of a user who has a
    profile row is left as it was: the row keeps [photo_filename] and
    every other column. *)
Theorem profile_edit_rejects_extension
    (secure_filename : string -> string) (content_length : Z)
    (photo : option FileStorage) (form : fields)
    (now : string) (timestamp : Z) (updated_at : string) (uid : Z) (d : db)
    (old : Profile.t) (raw : string) :
  fetch_profile d uid = Some old ->
  uploads_file secure_filename photo raw ->
  ~ has_allowed_extension (secure_filename raw) ->
  (content_length <= MAX_CONTENT_LENGTH ->
   profile_edit_request secure_filename content_length POST photo form now
     timestamp updated_at uid d
   = (Handled (Redirect ep_profile_edit
                 "Invalid file type. Use PNG/JPG/JPEG/WEBP only." "error"),
      d))
  /\ (MAX_CONTENT_LENGTH < content_length ->
      profile_edit_request secure_filename content_length POST photo form now
        timestamp updated_at uid d
      = (RequestEntityTooLarge, d))
  /\ fetch_profile
       (snd (profile_edit_request secure_filename content_length POST photo
               form now timestamp updated_at uid d)) uid = Some old.
Proof.
  intros Hold Hup Hbad.
  assert (Hin : content_length <= MAX_CONTENT_LENGTH ->
                profile_edit_request secure_filename content_length POST
                  photo form now timestamp updated_at uid d
                = (Handled (Redirect ep_profile_edit
                     "Invalid file type. Use PNG/JPG/JPEG/WEBP only."
                     "error"), d)).
  { intros Hle. apply Z.ltb_ge in Hle. unfold profile_edit_request.
    rewrite Hle.
    now rewrite (profile_edit_refuses_extension secure_filename photo form
                   now timestamp updated_at uid d old raw Hold Hup Hbad). }
  assert (Hover : MAX_CONTENT_LENGTH < content_length ->
                  profile_edit_request secure_filename content_length POST
                    photo form now timestamp updated_at uid d
                  = (RequestEntityTooLarge, d)).
  { intros Hlt. apply Z.ltb_lt in Hlt. unfold profile_edit_request.
    now rewrite Hlt, Hold. }
  split; [exact Hin|]. split; [exact Hover|].
  destruct (Z.le_gt_cases content_length MAX_CONTENT_LENGTH) as [H | H].
  - rewrite (Hin H). exact Hold.
  - rewrite (Hover H). exact Hold.
Qed.

(** Bo uploads [cv.pdf] in a request of 120000 bytes. *)
Lemma profile_edit_rejects_extension_witness :
  fetch_profile example_db 2 = Some bo
  /\ uploads_file demo_sanitize (Some (mkFile_storage (Some "cv.pdf"))) "cv.pdf"
  /\ ~ has_allowed_extension (demo_sanitize "cv.pdf")
  /\ 120000 <= MAX_CONTENT_LENGTH
  /\ profile_edit_request demo_sanitize 120000 POST
       (Some (mkFile_storage (Some "cv.pdf")))
       demo_form "2024-06-01T00:00:00" 1717200000 "2024-06-01T00:00:05" 2
       example_db
     = (Handled (Redirect ep_profile_edit
                   "Invalid file type. Use PNG/JPG/JPEG/WEBP only." "error"),
        example_db).
Proof.
  assert (H1 : fetch_profile example_db 2 = Some bo) by reflexivity.
  assert (H2 : uploads_file demo_sanitize
                 (Some (mkFile_storage (Some "cv.pdf"))) "cv.pdf")
    by (repeat split; discriminate).
  assert (H3 : ~ has_allowed_extension (demo_sanitize "cv.pdf")).
  { intros H. apply allowed_file_iff in H. discriminate. }
  assert (H4 : 120000 <= MAX_CONTENT_LENGTH) by (vm_compute; discriminate).
  repeat (split; [assumption|]).
  exact (proj1 (profile_edit_rejects_extension demo_sanitize 120000 _
                  demo_form "2024-06-01T00:00:00" 1717200000
                  "2024-06-01T00:00:05" 2 example_db bo "cv.pdf" H1 H2 H3)
           H4).
Defined.

(** C7 as stated fails on a request over the cap: Bo uploads [cv.pdf] in
    a request of 6000000 bytes; the answer is the 413, with no message
    flashed and no redirect. *)
Lemma profile_edit_oversize_upload_counterexample :
  fetch_profile example_db 2 = Some bo
  /\ uploads_file demo_sanitize (Some (mkFile_storage (Some "cv.pdf"))) "cv.pdf"
  /\ ~ has_allowed_extension (demo_sanitize "cv.pdf")
  /\ MAX_CONTENT_LENGTH < 6000000
  /\ profile_edit_request demo_sanitize 6000000 POST
       (Some (mkFile_storage (Some "cv.pdf")))
       demo_form "2024-06-01T00:00:00" 1717200000 "2024-06-01T00:00:05" 2
       example_db
     = (RequestEntityTooLarge, example_db)
  /\ ~ (exists target message category,
          fst (profile_edit_request demo_sanitize 6000000 POST
                 (Some (mkFile_storage (Some "cv.pdf")))
                 demo_form "2024-06-01T00:00:00" 1717200000
                 "2024-06-01T00:00:05" 2 example_db)
          = Handled (Redirect target message category)).
Proof.
  split; [reflexivity|].
  split; [repeat split; discriminate|].
  split; [intros H; apply allowed_file_iff in H; discriminate|].
  split; [reflexivity|]. split; [reflexivity|].
  intros (target & message & category & H). discriminate.
Qed.

(** C8.  After a profile POST that is saved (one that reaches and passes
    required-field validation), the stored [supervisor_name] is the empty
    text when "student" does not occur in the normalised position without
    regard to case, and the submitted, normalised supervisor name when it
    does. *)
Theorem profile_edit_supervisor_rule
    (secure_filename : string -> string)
    (photo : option FileStorage) (form : fields)
    (now : string) (timestamp : Z) (updated_at : string) (uid : Z) (d : db) :
  fst (profile_edit secure_filename POST photo form now timestamp updated_at
         uid d) = saved ->
  passes_validation form
  /\ exists stored,
      fetch_profile
        (snd (profile_edit secure_filename POST photo form now timestamp
                updated_at uid d)) uid = Some stored
      /\ (~ occurs_ignoring_case "student" (submitted form "position") ->
          Profile.supervisor_name stored = Some "")
      /\ (occurs_ignoring_case "student" (submitted form "position") ->
          Profile.supervisor_name stored
          = Some (submitted form "supervisor_name")).
Proof.
  intros Hsaved.
  destruct (profile_edit_saved secure_filename photo form now timestamp
              updated_at uid d Hsaved) as (_ & _ & _ & _ & _ & Hval & _).
  split; [exact Hval|].
  destruct (profile_edit_stored secure_filename photo form now timestamp
              updated_at uid d Hsaved) as (pf & _ & Hstored).
  eexists. split; [exact Hstored|]. simpl.
  pose proof (contains_lower "student" (submitted form "position")) as Hc.
  change (Py.lower "student") with "student" in Hc.
  destruct (Py.contains "student" (Py.lower (submitted form "position")));
    simpl; split; intros H; try reflexivity.
  - exfalso. apply H, Hc. reflexivity.
  - apply Hc in H. discriminate.
Qed.

(** Bo as a Master STUDENT, then as a Research Assistant. *)
Lemma profile_edit_supervisor_rule_witness :
  (submitted demo_form "position" = "Master STUDENT"
   /\ option_map Profile.supervisor_name
        (fetch_profile
           (snd (profile_edit demo_sanitize POST None demo_form
                   "2024-06-01T00:00:00" 1717200000 "2024-06-01T00:00:05"
                   2 example_db)) 2)
      = Some (Some "Ann Lee"))
  /\ (submitted demo_form_staff "position" = "Research Assistant"
      /\ option_map Profile.supervisor_name
           (fetch_profile
              (snd (profile_edit demo_sanitize POST None demo_form_staff
                      "2024-06-01T00:00:00" 1717200000 "2024-06-01T00:00:05"
                      2 example_db)) 2)
         = Some (Some "")).
Proof.
  split; (split; [reflexivity|]).
  - assert (Hs : fst (profile_edit demo_sanitize POST None demo_form
                        "2024-06-01T00:00:00" 1717200000
                        "2024-06-01T00:00:05" 2 example_db) = saved)
      by reflexivity.
    destruct (profile_edit_supervisor_rule demo_sanitize None demo_form
                "2024-06-01T00:00:00" 1717200000 "2024-06-01T00:00:05" 2
                example_db Hs) as (_ & stored & -> & _ & Hyes).
    simpl option_map. rewrite Hyes; [reflexivity|].
    apply contains_lower. reflexivity.
  - assert (Hs : fst (profile_edit demo_sanitize POST None demo_form_staff
                        "2024-06-01T00:00:00" 1717200000
                        "2024-06-01T00:00:05" 2 example_db) = saved)
      by reflexivity.
    destruct (profile_edit_supervisor_rule demo_sanitize None demo_form_staff
                "2024-06-01T00:00:00" 1717200000 "2024-06-01T00:00:05" 2
                example_db Hs) as (_ & stored & -> & Hno & _).
    simpl option_map. rewrite Hno; [reflexivity|].
    intros H. apply contains_lower in H. discriminate.
Defined.

(* ================================================================== *)
(** * Registration                                                     *)
(* ================================================================== *)

Lemma register_duplicate (generate_password_hash : string -> string -> string)
    (form : fields) (salt now : string) (d : db) (existing : User.t) :
  select_user_by_email d (email_of form) = Some existing ->
  snd (register generate_password_hash POST form salt now d) = d
  /\ (email_of form <> "" -> password_of form <> "" ->
      fst (register generate_password_hash POST form salt now d)
      = Redirect ep_login "Email already registered. Please log in."
          "warning")
  /\ (email_of form = "" \/ password_of form = "" ->
      fst (register generate_password_hash POST form salt now d)
      = Redirect ep_register "Email and password are required." "error").
Proof.
  intros Hex. unfold register. fold (email_of form) (password_of form).
  pose proof (truthy_true_iff (email_of form)) as Te.
  pose proof (truthy_false_iff (email_of form)) as Fe.
  pose proof (truthy_true_iff (password_of form)) as Tp.
  pose proof (truthy_false_iff (password_of form)) as Fp.
  destruct (Py.truthy (email_of form)), (Py.truthy (password_of form));
    simpl; rewrite ?Hex; simpl; intuition congruence.
Qed.

Lemma register_new (secure_filename : string -> string)
    (generate_password_hash : string -> string -> string)
    (form : fields) (salt now : string) (d : db) :
  reachable secure_filename generate_password_hash d ->
  select_user_by_email d (email_of form) = None ->
  email_of form <> "" -> password_of form <> "" ->
  register generate_password_hash POST form salt now d
  = (Redirect ep_profile_edit
       "Account created. Please complete your profile." "success",
     mkDb (users d
             ++ [User.mk (Sqlite.next_rowid (map User.id (users d)))
                   (email_of form)
                   (generate_password_hash salt (password_of form)) now])
          (profiles d
             ++ [Profile.empty (Sqlite.next_rowid (map User.id (users d)))
                   now])
          (messages d)).
Proof.
  intros Hreach Hnew He Hp. unfold register.
  fold (email_of form) (password_of form).
  apply truthy_true_iff in He, Hp. rewrite He, Hp, Hnew. simpl.
  unfold insert_profile.
  assert (Hfp : fetch_profile d (Sqlite.next_rowid (map User.id (users d)))
                = None).
  { destruct (fetch_profile d _) as [p|] eqn:E; [|reflexivity].
    apply (reachable_every_profile_has_user secure_filename
             generate_password_hash d Hreach) in E as [u Hu].
    rewrite fetch_user_next_rowid in Hu. discriminate. }
  unfold fetch_profile in *. simpl. rewrite Hfp.
  unfold fetch_user. simpl. rewrite find_app_split.
  fold (fetch_user d (Sqlite.next_rowid (map User.id (users d)))).
  rewrite fetch_user_next_rowid. simpl. rewrite Z.eqb_refl. reflexivity.
Qed.

(** C9, as the code has it.  Where a user with the e-mail address [E]
    exists, a registration whose address normalises and lower-cases to [E]
    leaves the database as it is; it is sent to the login form when [E] and
    the password are non-empty, and back to the registration form, with
    both fields asked for, otherwise.  In a database the program built, a
    registration with a non-empty password and a non-empty address that no
    user has appends exactly one row to [users] and one to [profiles]. *)
Theorem register_once_per_email
    (secure_filename : string -> string)
    (generate_password_hash : string -> string -> string)
    (form : fields) (salt now : string) (d : db) :
  (forall existing,
      select_user_by_email d (email_of form) = Some existing ->
      snd (register generate_password_hash POST form salt now d) = d
      /\ exists target message category,
          fst (register generate_password_hash POST form salt now d)
          = Redirect target message category
          /\ (email_of form <> "" -> password_of form <> "" ->
              target = ep_login)
          /\ (email_of form = "" \/ password_of form = "" ->
              target = ep_register))
  /\ (reachable secure_filename generate_password_hash d ->
      select_user_by_email d (email_of form) = None ->
      email_of form <> "" -> password_of form <> "" ->
      exists user profile,
        register generate_password_hash POST form salt now d
        = (Redirect ep_profile_edit
             "Account created. Please complete your profile." "success",
           mkDb (users d ++ [user]) (profiles d ++ [profile]) (messages d))
        /\ User.email user = email_of form
        /\ Profile.user_id profile = User.id user
        /\ fetch_user d (User.id user) = None).
Proof.
  split.
  - intros existing Hex.
    destruct (register_duplicate generate_password_hash form salt now d
                existing Hex) as (Hd & Hlogin & Hreg).
    split; [exact Hd|].
    destruct (String.string_dec (email_of form) "") as [He|He];
      [|destruct (String.string_dec (password_of form) "") as [Hp|Hp]].
    + eexists _, _, _. split; [apply Hreg; now left|]. split; tauto.
    + eexists _, _, _. split; [apply Hreg; now right|]. split; tauto.
    + eexists _, _, _. split; [apply Hlogin; assumption|]. split; tauto.
  - intros Hreach Hnew He Hp.
    eexists _, _. split.
    + exact (register_new secure_filename generate_password_hash form salt
               now d Hreach Hnew He Hp).
    + simpl. repeat split. apply fetch_user_next_rowid.
Qed.

(** Ann's address a second time, and a new address. *)
Lemma register_once_per_email_witness :
  (* Ann's address again, in another spelling *)
  (select_user_by_email demo_db
     (email_of [("email", "ANN@uni.edu  "); ("password", "other")])
   = Some (User.mk 1 "ann@uni.edu" "s1$pw1" "2024-05-01T10:00:00")
   /\ snd (register demo_hash POST
             [("email", "ANN@uni.edu  "); ("password", "other")]
             "s9" "2024-05-05T00:00:00" demo_db) = demo_db
   /\ exists message category,
       fst (register demo_hash POST
              [("email", "ANN@uni.edu  "); ("password", "other")]
              "s9" "2024-05-05T00:00:00" demo_db)
       = Redirect ep_login message category)
  (* a third address *)
  /\ (select_user_by_email demo_db
        (email_of [("email", "cy@uni.edu"); ("password", "pw3")]) = None
      /\ exists user profile,
          register demo_hash POST
            [("email", "cy@uni.edu"); ("password", "pw3")]
            "s3" "2024-05-05T00:00:00" demo_db
          = (Redirect ep_profile_edit
               "Account created. Please complete your profile." "success",
             mkDb (users demo_db ++ [user]) (profiles demo_db ++ [profile])
                  (messages demo_db))
          /\ User.email user = "cy@uni.edu"
          /\ Profile.user_id profile = User.id user
          /\ fetch_user demo_db (User.id user) = None).
Proof.
  split.
  - split; [reflexivity|].
    destruct (proj1 (register_once_per_email demo_sanitize demo_hash
                       [("email", "ANN@uni.edu  "); ("password", "other")]
                       "s9" "2024-05-05T00:00:00" demo_db) _ eq_refl)
      as (Hd & target & msg & cat & Hr & Hlogin & _).
    split; [exact Hd|]. exists msg, cat.
    rewrite Hr. f_equal. apply Hlogin; discriminate.
  - split; [reflexivity|].
    apply (proj2 (register_once_per_email demo_sanitize demo_hash
                    [("email", "cy@uni.edu"); ("password", "pw3")]
                    "s3" "2024-05-05T00:00:00" demo_db)
             demo_db_reachable eq_refl);
      discriminate.
Defined.

(** C9 as stated fails on an empty password: Ann is registered; a second
    attempt with her address and no password is turned away before the
    address is looked up, towards the registration form and not the login
    form. *)
Lemma register_duplicate_empty_password_counterexample :
  select_user_by_email demo_db
    (email_of [("email", " Ann@UNI.edu"); ("password", "")])
  = Some (User.mk 1 "ann@uni.edu" "s1$pw1" "2024-05-01T10:00:00")
  /\ register demo_hash POST [("email", " Ann@UNI.edu"); ("password", "")]
       "s9" "2024-05-05T00:00:00" demo_db
     = (Redirect ep_register "Email and password are required." "error",
        demo_db)
  /\ ~ (exists message category,
           fst (register demo_hash POST
                  [("email", " Ann@UNI.edu"); ("password", "")]
                  "s9" "2024-05-05T00:00:00" demo_db)
           = Redirect ep_login message category).
Proof.
  split; [reflexivity|]. split; [reflexivity|].
  intros (message & category & H). discriminate.
Qed.

(* ================================================================== *)
(** * Shape of normalised text                                         *)
(* ================================================================== *)

Lemma normalize_text_some (t : string) :
  normalize_text (Some t) = Py.strip (Py.re_sub_ws false t).
Proof. destruct t; reflexivity. Qed.

Lemma loose_re_sub_ws (b : bool) (s : string) :
  loose b (Py.re_sub_ws b s) = true.
Proof.
  revert b. induction s as [|c s IH]; intros b; simpl; [reflexivity|].
  destruct (Py.isspace c) eqn:E.
  - destruct b; [apply IH|]. simpl. apply IH.
  - simpl. rewrite E. apply IH.
Qed.

Lemma loose_true_first (s : string) :
  loose true s = true -> first_is_space s = false.
Proof.
  destruct s as [|c s]; simpl; [reflexivity|].
  destruct (Py.isspace c); [|reflexivity].
  rewrite andb_false_r. discriminate.
Qed.

Lemma lstrip_no_first (s : string) :
  first_is_space s = false -> Py.lstrip s = s.
Proof. destruct s as [|c s]; simpl; [reflexivity|]. now intros ->. Qed.

Lemma loose_lstrip (b : bool) (s : string) :
  loose b s = true -> loose true (Py.lstrip s) = true.
Proof.
  destruct s as [|c s]; simpl; [reflexivity|].
  destruct (Py.isspace c) eqn:E.
  - intros H. apply andb_true_iff in H as [_ H].
    now rewrite (lstrip_no_first s (loose_true_first s H)).
  - intros H. simpl. now rewrite E.
Qed.

Lemma spaced_rstrip (a : bool) (s : string) :
  loose a s = true -> Py.rstrip s <> "" -> spaced a (Py.rstrip s) = true.
Proof.
  revert a. induction s as [|c s IH]; intros a; simpl; [congruence|].
  destruct (Py.rstrip s) as [|d r] eqn:Er.
  - destruct (Py.isspace c) eqn:E; [congruence|].
    intros _ _. simpl. now rewrite E.
  - intros H _. simpl. destruct (Py.isspace c) eqn:E.
    + apply andb_true_iff in H as [H1 H2]. rewrite H1. simpl.
      apply (IH true H2). discriminate.
    + apply (IH false H). discriminate.
Qed.

Lemma spaced_true_false (s : string) :
  spaced true s = true -> spaced false s = true.
Proof.
  destruct s as [|c s]; simpl; [discriminate|].
  destruct (Py.isspace c); [|trivial].
  rewrite andb_false_r. discriminate.
Qed.

Lemma spaced_re_sub_ws (a : bool) (s : string) :
  spaced a s = true -> Py.re_sub_ws a s = s.
Proof.
  revert a. induction s as [|c s IH]; intros a; simpl; [reflexivity|].
  destruct (Py.isspace c) eqn:E.
  - intros H. apply andb_true_iff in H as [H H2].
    apply andb_true_iff in H as [H0 H1].
    apply negb_true_iff in H1. subst a.
    apply Ascii.eqb_eq in H0. subst c. now rewrite (IH true H2).
  - intros H. now rewrite (IH false H).
Qed.

Lemma spaced_rstrip_id (a : bool) (s : string) :
  spaced a s = true -> Py.rstrip s = s.
Proof.
  revert a. induction s as [|c s IH]; intros a; simpl; [reflexivity|].
  destruct (Py.isspace c) eqn:E.
  - intros H. apply andb_true_iff in H as [_ H2].
    rewrite (IH true H2). destruct s; [discriminate | reflexivity].
  - intros H. rewrite (IH false H). destruct s; reflexivity.
Qed.

Lemma spaced_true_first (s : string) :
  spaced true s = true -> first_is_space s = false.
Proof.
  destruct s as [|c s]; simpl; [reflexivity|].
  destruct (Py.isspace c); [|reflexivity].
  rewrite andb_false_r. discriminate.
Qed.

(** [spaced], read as the four conditions of [tidy]. *)
Lemma spaced_conditions (a : bool) (s : string) :
  s <> "" ->
  (spaced a s = true <->
   (a = true -> first_is_space s = false)
   /\ last_is_space s = false /\ adjacent_spaces s = false
   /\ plain_spaces s = true).
Proof.
  revert a. induction s as [|c s IH]; intros a Hne; [congruence|].
  destruct s as [|d s].
  - simpl. destruct (Py.isspace c) eqn:E; simpl.
    + rewrite andb_false_r. split; [discriminate|].
      intros (_ & H & _). discriminate.
    + split; [|reflexivity]. intros _. repeat split; auto.
  - specialize (IH (Py.isspace c)).
    assert (Hd : String d s <> "") by discriminate.
    cbn [spaced first_is_space last_is_space adjacent_spaces plain_spaces]
      in *.
    destruct (Py.isspace c) eqn:E.
    + rewrite !andb_true_iff, (IH Hd), negb_true_iff, Ascii.eqb_eq.
      cbn [first_is_space]. rewrite orb_false_iff, andb_true_iff.
      simpl negb. simpl orb. rewrite Ascii.eqb_eq.
      destruct a; intuition congruence.
    + rewrite (IH Hd). cbn [first_is_space].
      simpl. intuition congruence.
Qed.

Lemma normal_tidy (s : string) :
  (s = "" \/ spaced true s = true) <-> tidy s.
Proof.
  unfold tidy. destruct s as [|c s].
  - simpl. intuition.
  - rewrite (spaced_conditions true (String c s)) by discriminate.
    intuition congruence.
Qed.

Lemma normalize_text_output_tidy (v : option string) :
  tidy (normalize_text v).
Proof.
  apply normal_tidy. destruct v as [t|]; [|now left].
  rewrite normalize_text_some. unfold Py.strip.
  destruct (Py.rstrip (Py.lstrip (Py.re_sub_ws false t))) eqn:E;
    [now left|right].
  rewrite <- E. apply spaced_rstrip.
  - apply (loose_lstrip false). apply loose_re_sub_ws.
  - rewrite E. discriminate.
Qed.

Lemma tidy_normalize_text (t : string) :
  tidy t -> normalize_text (Some t) = t.
Proof.
  intros Ht. apply normal_tidy in Ht as [-> | Ht]; [reflexivity|].
  rewrite normalize_text_some. unfold Py.strip.
  rewrite (spaced_re_sub_ws false t (spaced_true_false t Ht)).
  rewrite (lstrip_no_first t (spaced_true_first t Ht)).
  apply (spaced_rstrip_id true t Ht).
Qed.

Lemma normalize_text_idempotent (v : option string) :
  normalize_text (Some (normalize_text v)) = normalize_text v.
Proof. apply tidy_normalize_text, normalize_text_output_tidy. Qed.

(** X1.  Whatever it is given, [normalize_text] returns a text that
    neither starts nor ends with white space, holds no two neighbouring
    white-space code points, and no white space other than the plain
    space. *)
Theorem normalize_text_tidy (v : option string) : tidy (normalize_text v).
Proof. exact (normalize_text_output_tidy v). Qed.

(** X2.  The texts [normalize_text] leaves as they are, are exactly the
    tidy ones; so normalising twice is normalising once. *)
Theorem normalize_text_fixed_points :
  (forall t : string, normalize_text (Some t) = t <-> tidy t)
  /\ (forall v : option string,
         normalize_text (Some (normalize_text v)) = normalize_text v).
Proof.
  split.
  - intros t. split; [|apply tidy_normalize_text].
    intros E. rewrite <- E. apply normalize_text_output_tidy.
  - exact normalize_text_idempotent.
Qed.

(* ================================================================== *)
(** * Case and white space                                             *)
(* ================================================================== *)

Lemma isspace_lower_char (c : ascii) :
  Py.isspace (Py.lower_char c) = Py.isspace c.
Proof. destruct c as [[] [] [] [] [] [] [] []]; reflexivity. Qed.

Lemma lower_char_idempotent (c : ascii) :
  Py.lower_char (Py.lower_char c) = Py.lower_char c.
Proof. destruct c as [[] [] [] [] [] [] [] []]; reflexivity. Qed.

Lemma lower_idempotent (s : string) : Py.lower (Py.lower s) = Py.lower s.
Proof.
  induction s as [|c s IH]; simpl; [reflexivity|].
  now rewrite lower_char_idempotent, IH.
Qed.

Lemma lower_re_sub_ws (b : bool) (s : string) :
  Py.re_sub_ws b (Py.lower s) = Py.lower (Py.re_sub_ws b s).
Proof.
  revert b. induction s as [|c s IH]; intros b; simpl; [reflexivity|].
  rewrite isspace_lower_char. destruct (Py.isspace c).
  - destruct b; [apply IH|]. simpl. now rewrite IH.
  - simpl. now rewrite IH.
Qed.

Lemma lower_lstrip (s : string) :
  Py.lstrip (Py.lower s) = Py.lower (Py.lstrip s).
Proof.
  induction s as [|c s IH]; simpl; [reflexivity|].
  rewrite isspace_lower_char. destruct (Py.isspace c); [exact IH|reflexivity].
Qed.

Lemma lower_rstrip (s : string) :
  Py.rstrip (Py.lower s) = Py.lower (Py.rstrip s).
Proof.
  induction s as [|c s IH]; simpl; [reflexivity|].
  rewrite IH, isspace_lower_char.
  destruct (Py.rstrip s); simpl; [|reflexivity].
  destruct (Py.isspace c); reflexivity.
Qed.

(** Lower-casing and normalising commute. *)
Lemma normalize_text_lower (t : string) :
  normalize_text (Some (Py.lower t)) = Py.lower (normalize_text (Some t)).
Proof.
  rewrite !normalize_text_some. unfold Py.strip.
  now rewrite lower_re_sub_ws, lower_lstrip, lower_rstrip.
Qed.

Lemma email_key_stable (form : fields) :
  email_of [("email", email_of form)] = email_of form.
Proof.
  unfold email_of.
  change (get_default [("email", ?x)] "email" "") with x.
  rewrite normalize_text_lower, lower_idempotent.
  now rewrite normalize_text_idempotent.
Qed.

(** X3.  The key [register] and [login] derive from an e-mail field is
    its own key: submitting the stored address gives the stored address
    back, so that an address found once is found again. *)
Theorem email_of_idempotent (form : fields) :
  email_of [("email", email_of form)] = email_of form.
Proof. exact (email_key_stable form). Qed.

(* ================================================================== *)
(** * File names                                                       *)
(* ================================================================== *)

Lemma string_append_assoc (a b c : string) :
  ((a ++ b) ++ c = a ++ (b ++ c))%string.
Proof. induction a as [|x a IH]; simpl; [reflexivity | now rewrite IH]. Qed.

Lemma string_length_append (a b : string) :
  String.length (a ++ b) = (String.length a + String.length b)%nat.
Proof. induction a as [|x a IH]; simpl; [reflexivity | now rewrite IH]. Qed.

Lemma length_lower (s : string) : String.length (Py.lower s) = String.length s.
Proof. induction s as [|c s IH]; simpl; [reflexivity | now rewrite IH]. Qed.

Lemma lower_char_dot (c : ascii) :
  Ascii.eqb (Py.lower_char c) "." = Ascii.eqb c ".".
Proof. destruct c as [[] [] [] [] [] [] [] []]; reflexivity. Qed.

Lemma rfind_dot_lower (s : string) :
  Py.rfind_dot (Py.lower s) = Py.rfind_dot s.
Proof.
  induction s as [|c s IH]; simpl; [reflexivity|].
  now rewrite IH, lower_char_dot.
Qed.

Lemma rfind_dot_bounds (s : string) :
  -1 <= Py.rfind_dot s < Z.of_nat (String.length s).
Proof.
  induction s as [|c s IH]; simpl String.length; simpl Py.rfind_dot; [lia|].
  destruct (0 <=? Py.rfind_dot s) eqn:E; [lia|].
  destruct (Ascii.eqb c "."); lia.
Qed.

Lemma rfind_dot_append (s e : string) :
  0 <= Py.rfind_dot e ->
  Py.rfind_dot (s ++ e) = Z.of_nat (String.length s) + Py.rfind_dot e.
Proof.
  intros He. induction s as [|c s IH]; [simpl; lia|].
  simpl append. simpl String.length. simpl Py.rfind_dot. rewrite IH.
  destruct (0 <=? Z.of_nat (String.length s) + Py.rfind_dot e) eqn:E;
    [lia|]. apply Z.leb_gt in E. lia.
Qed.

Lemma slice_from_append (s e : string) :
  Py.slice_from (String.length s) (s ++ e) = e.
Proof. induction s as [|c s IH]; simpl; [now destruct e | exact IH]. Qed.

Lemma slice_from_split (n : nat) (s : string) :
  exists pre, s = (pre ++ Py.slice_from n s)%string
              /\ String.length pre = Nat.min n (String.length s).
Proof.
  revert s. induction n as [|n IH]; intros s.
  - exists "". split; [now destruct s | reflexivity].
  - destruct s as [|c s]; simpl.
    + now exists "".
    + destruct (IH s) as (pre & Hs & Hl).
      exists (String c pre). simpl. split; [now rewrite <- Hs | now rewrite Hl].
Qed.

Lemma allowed_extension_shape (e : string) :
  In (Py.lower e) ALLOWED_EXTENSIONS ->
  Py.rfind_dot e = 0 /\ (4 <= String.length e)%nat.
Proof.
  intros H. rewrite <- rfind_dot_lower, <- (length_lower e).
  simpl in H. decompose [or] H; clear H;
    try match goal with Hx : _ = Py.lower e |- _ => rewrite <- Hx end;
    try (split; [reflexivity | simpl; lia]); contradiction.
Qed.

Lemma name_suffix_append (stem ext : string) :
  stem <> "" -> In (Py.lower ext) ALLOWED_EXTENSIONS ->
  name_suffix (stem ++ ext) = ext.
Proof.
  intros Hs He. apply allowed_extension_shape in He as [Hr Hl].
  unfold name_suffix.
  rewrite rfind_dot_append by lia. rewrite Hr, Z.add_0_r.
  rewrite string_length_append, Nat2Z.id, slice_from_append.
  assert (0 < Z.of_nat (String.length stem)) by (destruct stem; simpl; [congruence|lia]).
  destruct (0 <? Z.of_nat (String.length stem)) eqn:E1;
    [|apply Z.ltb_ge in E1; lia].
  destruct (Z.of_nat (String.length stem)
            <? Z.of_nat (String.length stem + String.length ext) - 1) eqn:E2;
    [reflexivity|]. apply Z.ltb_ge in E2. lia.
Qed.

(** The names whose suffix is an allowed extension. *)
Lemma allowed_name_split (name : string) :
  In (Py.lower (name_suffix name)) ALLOWED_EXTENSIONS <->
  exists stem ext,
    name = (stem ++ ext)%string /\ stem <> ""
    /\ In (Py.lower ext) ALLOWED_EXTENSIONS.
Proof.
  split.
  - intros Hin. unfold name_suffix in *.
    destruct ((0 <? Py.rfind_dot name)
              && (Py.rfind_dot name <? Z.of_nat (String.length name) - 1))
      eqn:E.
    + apply andb_true_iff in E as [E1 E2].
      apply Z.ltb_lt in E1, E2.
      destruct (slice_from_split (Z.to_nat (Py.rfind_dot name)) name)
        as (pre & Hs & Hl).
      exists pre, (Py.slice_from (Z.to_nat (Py.rfind_dot name)) name).
      split; [exact Hs|]. split; [|exact Hin].
      intros ->. simpl in Hl. lia.
    + simpl in Hin. decompose [or] Hin; try discriminate; contradiction.
  - intros (stem & ext & -> & Hs & He).
    now rewrite (name_suffix_append stem ext Hs He).
Qed.

Lemma allowed_file_split (filename : string) :
  allowed_file filename = true <->
  exists stem ext,
    path_name filename = (stem ++ ext)%string /\ stem <> ""
    /\ In (Py.lower ext) ALLOWED_EXTENSIONS.
Proof.
  rewrite <- allowed_name_split. unfold allowed_file, path_suffix.
  rewrite existsb_exists. split.
  - intros (x & Hin & Hx). apply String.eqb_eq in Hx. now subst x.
  - intros Hin. eexists. split; [exact Hin | apply String.eqb_refl].
Qed.

(** A name without a slash is its own last component, unless it is the
    lone full stop. *)
Lemma split_slash_no_slash (name : string) :
  no_slash name = true -> split_slash name = [name].
Proof.
  induction name as [|c name IH]; simpl; [reflexivity|].
  intros H. apply andb_true_iff in H as [Hc Hn].
  apply negb_true_iff in Hc. rewrite Hc, (IH Hn). reflexivity.
Qed.

Lemma path_name_no_slash (name : string) :
  no_slash name = true -> name <> "." -> path_name name = name.
Proof.
  intros Hn Hdot. unfold path_name, path_parts.
  rewrite (split_slash_no_slash name Hn). simpl.
  destruct (String.eqb_spec name "") as [->|_]; [reflexivity|].
  destruct (String.eqb_spec name ".") as [E|_]; [contradiction|reflexivity].
Qed.

Lemma allowed_file_no_slash (name : string) :
  no_slash name = true ->
  (allowed_file name = true <->
   exists stem ext,
     name = (stem ++ ext)%string /\ stem <> ""
     /\ In (Py.lower ext) ALLOWED_EXTENSIONS).
Proof.
  intros Hn. rewrite allowed_file_split.
  destruct (String.string_dec name ".") as [->|Hdot].
  - split; intros (stem & ext & E & Hs & He);
      apply allowed_extension_shape in He as [_ Hl];
      apply (f_equal String.length) in E;
      rewrite string_length_append in E;
      destruct stem; [congruence | simpl in E; lia | congruence
                      | simpl in E; lia].
  - now rewrite (path_name_no_slash name Hn Hdot).
Qed.

Lemma no_slash_append (a b : string) :
  no_slash (a ++ b) = no_slash a && no_slash b.
Proof.
  induction a as [|c a IH]; simpl; [reflexivity|].
  now rewrite IH, andb_assoc.
Qed.

Lemma no_slash_uint (d : Decimal.uint) :
  no_slash (NilEmpty.string_of_uint d) = true.
Proof. induction d; simpl; auto. Qed.

Lemma no_slash_str_of_int (n : Z) : no_slash (Py.str_of_int n) = true.
Proof.
  unfold Py.str_of_int, NilZero.string_of_int, NilZero.string_of_uint.
  destruct (Z.to_int n) as [d|d]; [|simpl]; destruct d; simpl; auto;
    apply no_slash_uint.
Qed.

Lemma no_slash_allowed_extension (ext : string) :
  In ext ALLOWED_EXTENSIONS -> no_slash ext = true.
Proof.
  simpl. intros H. decompose [or] H; subst; try reflexivity; contradiction.
Qed.

(** X4.  [allowed_file] looks at the last component of the path alone,
    and accepts exactly the paths whose last component is a non-empty
    stem followed by [.png], [.jpg], [.jpeg] or [.webp] in any mix of
    upper and lower case: a bare extension, a name without a full stop,
    or one that goes on after the extension is refused.  For a name
    without a slash, such as [secure_filename] returns, the name itself
    is that component. *)
Theorem allowed_file_stem_and_extension (filename : string) :
  (allowed_file filename = true <->
   exists stem ext,
     path_name filename = (stem ++ ext)%string /\ stem <> ""
     /\ In (Py.lower ext) ALLOWED_EXTENSIONS)
  /\ (no_slash filename = true ->
      (allowed_file filename = true <->
       exists stem ext,
         filename = (stem ++ ext)%string /\ stem <> ""
         /\ In (Py.lower ext) ALLOWED_EXTENSIONS)).
Proof.
  split; [exact (allowed_file_split filename)
         | exact (allowed_file_no_slash filename)].
Qed.

(** A photo in upper case; a bare extension below a directory; a
    directory named like a photo. *)
Lemma allowed_file_stem_and_extension_witness :
  allowed_file "photo.PNG" = true
  /\ allowed_file "a/.png" = false
  /\ allowed_file "x.png/" = true.
Proof.
  split; [|split].
  - apply (proj2 (allowed_file_stem_and_extension "photo.PNG") eq_refl).
    exists "photo", ".PNG". repeat split; [discriminate | simpl; auto].
  - reflexivity.
  - apply (proj1 (allowed_file_stem_and_extension "x.png/")).
    exists "x", ".png". repeat split; [discriminate | simpl; auto].
Defined.

Lemma allowed_extension_lower (ext : string) :
  In ext ALLOWED_EXTENSIONS -> Py.lower ext = ext.
Proof.
  simpl. intros H. decompose [or] H; subst; try reflexivity; contradiction.
Qed.

(** X5.  [save_photo] has three outcomes: no name (nothing usable was
    uploaded), the [ValueError], or the name
    [user_<user id>_<timestamp><ext>] with [ext] one of the four allowed
    extensions in lower case.  The client's file name enters the stored
    name through that extension only, and the stored name is itself one
    [allowed_file] accepts. *)
Theorem save_photo_outcomes (secure_filename : string -> string)
    (file_storage : option FileStorage) (user_id timestamp : Z) :
  save_photo secure_filename file_storage user_id timestamp = inl ""
  \/ save_photo secure_filename file_storage user_id timestamp
     = inr "Invalid file type. Use PNG/JPG/JPEG/WEBP only."
  \/ exists ext,
      In ext ALLOWED_EXTENSIONS
      /\ save_photo secure_filename file_storage user_id timestamp
         = inl ("user_" ++ Py.str_of_int user_id ++ "_"
                ++ Py.str_of_int timestamp ++ ext)%string
      /\ allowed_file ("user_" ++ Py.str_of_int user_id ++ "_"
                       ++ Py.str_of_int timestamp ++ ext)%string = true.
Proof.
  unfold save_photo.
  destruct file_storage as [[[raw|]]|]; simpl; auto.
  destruct (Py.truthy raw); simpl; auto.
  destruct (Py.truthy (secure_filename raw)); simpl; auto.
  destruct (allowed_file (secure_filename raw)) eqn:Ea; simpl; auto.
  right. right.
  assert (Hin : In (Py.lower (path_suffix (secure_filename raw)))
                   ALLOWED_EXTENSIONS).
  { unfold allowed_file in Ea. apply existsb_exists in Ea as (x & Hx & Hex).
    apply String.eqb_eq in Hex. now subst x. }
  eexists. split; [exact Hin|]. split; [reflexivity|].
  apply allowed_file_no_slash.
  { change (no_slash ("user_" ++ Py.str_of_int user_id ++ "_"
                        ++ Py.str_of_int timestamp
                        ++ Py.lower (path_suffix (secure_filename raw)))%string
            = true).
    rewrite !no_slash_append, !no_slash_str_of_int.
    now rewrite (no_slash_allowed_extension _ Hin). }
  exists ("user_" ++ Py.str_of_int user_id ++ "_"
          ++ Py.str_of_int timestamp)%string,
         (Py.lower (path_suffix (secure_filename raw))).
  split; [|split].
  - simpl. f_equal. f_equal. f_equal. f_equal. f_equal.
    rewrite !string_append_assoc. reflexivity.
  - discriminate.
  - now rewrite (allowed_extension_lower _ Hin).
Qed.

(* ================================================================== *)
(** * Start-up, again                                                  *)
(* ================================================================== *)

(** X6.  Running the script always leaves the three tables in place.  With
    [--reset-db] they are empty and [messages] is the table of [init_db],
    whatever file was there.  Without it every table of the file is kept as
    it is, a missing [users] or [profiles] table is created empty, and a
    missing [messages] table is created by [ensure_schema], never by
    [init_db]; starting again on the result changes nothing. *)
Theorem main_tables (reset_flag : bool) (file : option db_file) :
  let f0 := match file with Some f => f | None => new_file end in
  let f := main reset_flag file in
  (exists d, serving f = Some d)
  /\ (reset_flag = true ->
      serving f = Some (mkDb [] [] (InitDbMessages [])))
  /\ (reset_flag = false ->
      f_users f = Some (match f_users f0 with Some u => u | None => [] end)
      /\ f_profiles f
         = Some (match f_profiles f0 with Some p => p | None => [] end)
      /\ f_messages f
         = Some (match f_messages f0 with
                 | Some m => m
                 | None => EnsureSchemaMessages
                 end))
  /\ main false (Some f) = f.
Proof.
  destruct file as [[[u|] [p|] [m|]]|], reset_flag; cbv zeta;
    (split; [eexists; reflexivity|]);
    (split; [intros H; try discriminate H; reflexivity|]);
    (split; [intros H; try discriminate H; repeat split | reflexivity]).
Qed.

(* ================================================================== *)
(** * Migrations                                                       *)
(* ================================================================== *)

Lemma column_exists_app (cols more : list string) (col : string) :
  column_exists (cols ++ more) col
  = column_exists cols col || column_exists more col.
Proof. unfold column_exists. apply existsb_app. Qed.

Lemma column_exists_in (cols : list string) (col : string) :
  column_exists cols col = true <-> In col cols.
Proof.
  unfold column_exists. rewrite existsb_exists. split.
  - intros (x & Hx & E). apply String.eqb_eq in E. now subst.
  - intros H. exists col. split; [exact H | apply String.eqb_refl].
Qed.

Lemma migrate_all_present (ms cols : list string) :
  (forall col, In col ms -> column_exists cols col = true) ->
  migrate ms cols = inl cols.
Proof.
  induction ms as [|m ms IH]; intros H; simpl; [reflexivity|].
  rewrite (H m (or_introl eq_refl)). apply IH.
  intros col Hc. apply H. now right.
Qed.

Lemma migrate_result (ms cols cols' : list string) :
  migrate ms cols = inl cols' ->
  (forall col, In col ms -> column_exists cols' col = true)
  /\ exists added,
      cols' = cols ++ added
      /\ forall a, In a added -> In a ms /\ column_exists cols a = false.
Proof.
  revert cols. induction ms as [|m ms IH]; intros cols; simpl.
  - intros H. injection H as <-. split; [intros col []|].
    exists []. split; [now rewrite app_nil_r | intros a []].
  - destruct (column_exists cols m) eqn:Em.
    + intros H. destruct (IH cols H) as (Hall & added & -> & Hadd).
      split.
      * intros col [<- | Hc]; [|now apply Hall].
        rewrite column_exists_app, Em. reflexivity.
      * exists added. split; [reflexivity|].
        intros a Ha. destruct (Hadd a Ha). auto.
    + unfold add_column. destruct (existsb _ cols); [discriminate|].
      intros H. destruct (IH (cols ++ [m]) H) as (Hall & added & -> & Hadd).
      split.
      * intros col [<- | Hc]; [|now apply Hall].
        rewrite !column_exists_app. simpl. rewrite String.eqb_refl.
        now rewrite orb_true_r.
      * exists (m :: added). split; [now rewrite <- app_assoc|].
        intros a [<- | Ha]; [auto|].
        destruct (Hadd a Ha) as [H1 H2].
        rewrite column_exists_app in H2. apply orb_false_iff in H2 as [H2 _].
        auto.
Qed.

Lemma migrate_succeeds (ms cols : list string) :
  case_distinct ms ->
  (forall c m, In c cols -> In m ms ->
     map_chars Sqlite.tolower c = map_chars Sqlite.tolower m -> c = m) ->
  exists cols', migrate ms cols = inl cols'.
Proof.
  intros Hms. revert cols.
  assert (Hgen : forall todo cols,
             (forall x, In x todo -> In x ms) ->
             (forall c m, In c cols -> In m ms ->
                map_chars Sqlite.tolower c = map_chars Sqlite.tolower m ->
                c = m) ->
             exists cols', migrate todo cols = inl cols').
  { intros todo. induction todo as [|m todo IH]; intros cols Hsub Hcols.
    - simpl. eauto.
    - simpl. destruct (column_exists cols m) eqn:Em.
      + apply IH; [intros x Hx; apply Hsub; now right | exact Hcols].
      + unfold add_column.
        destruct (existsb _ cols) eqn:Ex.
        * exfalso. apply existsb_exists in Ex as (c & Hc & E).
          apply String.eqb_eq in E.
          assert (c = m) by (apply Hcols; auto; apply Hsub; now left).
          subst c. apply column_exists_in in Hc. congruence.
        * apply IH; [intros x Hx; apply Hsub; now right|].
          intros c m' Hc Hm' E. apply in_app_or in Hc as [Hc | [<- | []]].
          -- now apply Hcols.
          -- apply Hms; auto. apply Hsub. now left. }
  intros cols Hcols. apply (Hgen ms cols); auto.
Qed.

Lemma migrations_case_distinct : case_distinct migrations.
Proof.
  intros a b Ha Hb. simpl in Ha, Hb.
  decompose [or] Ha; clear Ha; try contradiction; subst a;
    decompose [or] Hb; clear Hb; try contradiction; subst b;
    intros E; try reflexivity; vm_compute in E; discriminate E.
Qed.

(** X7.  The migration loop of [init_db] on the columns of [profiles]:
    when it goes through, every column of the list exists afterwards, the
    columns that were there keep their places, the added ones are columns
    of the list that were missing, and a second run adds nothing.  It goes
    through whenever no existing column is a differently-cased spelling of
    one on the list; on the table [init_db] has just created it adds
    nothing. *)
Theorem init_db_migrations (table : option (list string)) :
  let cols := match table with Some c => c | None => profiles_columns end in
  (forall cols',
      init_db_profiles table = inl cols' ->
      (forall col, In col migrations -> column_exists cols' col = true)
      /\ (exists added,
             cols' = cols ++ added
             /\ forall a, In a added ->
                          In a migrations /\ column_exists cols a = false)
      /\ init_db_profiles (Some cols') = inl cols')
  /\ ((forall c m, In c cols -> In m migrations ->
         map_chars Sqlite.tolower c = map_chars Sqlite.tolower m -> c = m) ->
      exists cols', init_db_profiles table = inl cols')
  /\ init_db_profiles None = inl profiles_columns.
Proof.
  intros cols. split; [|split].
  - intros cols' H. unfold init_db_profiles in *. fold cols in H.
    destruct (migrate_result migrations cols cols' H) as (Hall & Hadd).
    split; [exact Hall|]. split; [exact Hadd|].
    now apply migrate_all_present.
  - intros H. unfold init_db_profiles. fold cols.
    apply migrate_succeeds; [exact migrations_case_distinct | exact H].
  - reflexivity.
Qed.

(** A table from before [title], [skills] and the later columns. *)
Lemma init_db_migrations_witness :
  init_db_profiles (Some ["user_id"; "full_name"; "bio"; "updated_at"])
  = inl [ "user_id"; "full_name"; "bio"; "updated_at"; "photo_filename";
          "title"; "highest_qualification"; "country"; "university";
          "school_faculty"; "position"; "supervisor_name"; "skills";
          "device_access" ]
  /\ (forall col, In col migrations ->
        column_exists
          [ "user_id"; "full_name"; "bio"; "updated_at"; "photo_filename";
            "title"; "highest_qualification"; "country"; "university";
            "school_faculty"; "position"; "supervisor_name"; "skills";
            "device_access" ] col = true)
  /\ init_db_profiles (Some ["user_id"; "Title"]) = inr OperationalError.
Proof.
  split; [reflexivity|]. split; [|reflexivity].
  exact (proj1 (proj1 (init_db_migrations
                         (Some ["user_id"; "full_name"; "bio"; "updated_at"]))
                  _ eq_refl)).
Defined.

(* ================================================================== *)
(** * Invariants of the reachable databases, continued                 *)
(* ================================================================== *)

Lemma fold_max_snoc (l : list Z) (x : Z) :
  fold_right Z.max 0 (l ++ [x]) = Z.max (fold_right Z.max 0 l) (Z.max x 0).
Proof. induction l as [|a l IH]; simpl; [lia|]. rewrite IH. lia. Qed.

Lemma ids_upto_succ (n : nat) :
  ids_upto (S n) = ids_upto n ++ [Z.of_nat (S n)].
Proof. unfold ids_upto. now rewrite seq_S, map_app. Qed.

Lemma next_rowid_ids_upto (n : nat) :
  Sqlite.next_rowid (ids_upto n) = Z.of_nat (S n).
Proof.
  unfold Sqlite.next_rowid.
  assert (H : fold_right Z.max 0 (ids_upto n) = Z.of_nat n).
  { induction n as [|n IH]; [reflexivity|].
    rewrite ids_upto_succ, fold_max_snoc, IH. lia. }
  rewrite H. lia.
Qed.

Lemma ids_upto_in (n : nat) (i : Z) :
  In i (ids_upto n) <-> 1 <= i <= Z.of_nat n.
Proof.
  unfold ids_upto. rewrite in_map_iff. split.
  - intros (k & <- & Hk). apply in_seq in Hk. lia.
  - intros H. exists (Z.to_nat i). split; [lia|]. apply in_seq. lia.
Qed.

Lemma nodup_snoc {A : Type} (l : list A) (x : A) :
  NoDup l -> ~ In x l -> NoDup (l ++ [x]).
Proof.
  intros Hl Hx. apply NoDup_rev in Hl. rewrite <- (rev_involutive (l ++ [x])).
  apply NoDup_rev. rewrite rev_app_distr. simpl. constructor; [|exact Hl].
  now rewrite <- in_rev.
Qed.

Lemma ids_upto_nodup (n : nat) : NoDup (ids_upto n).
Proof.
  induction n as [|n IH]; [constructor|].
  rewrite ids_upto_succ. apply nodup_snoc; [exact IH|].
  rewrite ids_upto_in. lia.
Qed.

Lemma select_user_by_email_none (d : db) (email : string) :
  select_user_by_email d email = None ->
  ~ In email (map User.email (users d)).
Proof.
  unfold select_user_by_email. intros H Hin.
  apply in_map_iff in Hin as (u & Hu & Hin).
  apply (find_none _ _ H) in Hin. simpl in Hin.
  rewrite Hu, String.eqb_refl in Hin. discriminate.
Qed.

Section ReachableFacts.

Variable secure_filename : string -> string.
Variable generate_password_hash : string -> string -> string.

(** What a registration changes, in full. *)
Lemma register_effect_row (m : method) (form : fields) (salt now : string)
    (d : db) :
  let d' := snd (register generate_password_hash m form salt now d) in
  d' = d
  \/ (email_of form <> ""
      /\ password_of form <> ""
      /\ select_user_by_email d (email_of form) = None
      /\ d' = mkDb (users d
                      ++ [User.mk (Sqlite.next_rowid (map User.id (users d)))
                            (email_of form)
                            (generate_password_hash salt (password_of form))
                            now])
                   (profiles d
                      ++ [Profile.empty
                            (Sqlite.next_rowid (map User.id (users d))) now])
                   (messages d)).
Proof.
  unfold register, email_of, password_of.
  destruct m; [now left|]. cbv zeta.
  match goal with
  | |- context [negb (Py.truthy ?e) || negb (Py.truthy ?p)] =>
      destruct (Py.truthy e) eqn:Ee;
      [destruct (Py.truthy p) eqn:Ep|]
  end; cbn [negb orb]; [|now left|now left].
  apply truthy_true_iff in Ee, Ep.
  destruct (select_user_by_email d _) eqn:Esel; [now left|].
  unfold insert_user.
  destruct (insert_profile _ _ now) as [d2|e] eqn:Eins; [|now left].
  right. apply insert_profile_inl in Eins as (_ & _ & ->). auto.
Qed.

(** What a profile request changes when the row is there. *)
Lemma profile_edit_keys (m : method) (photo : option FileStorage)
    (form : fields) (now : string) (timestamp : Z) (updated_at : string)
    (uid : Z) (d : db) (p : Profile.t) :
  fetch_profile d uid = Some p ->
  map Profile.user_id
    (profiles (snd (profile_edit secure_filename m photo form now timestamp
                      updated_at uid d)))
  = map Profile.user_id (profiles d).
Proof.
  intros Hp. unfold profile_edit. rewrite Hp.
  destruct m; simpl; [reflexivity|].
  destruct (posted_photo _ _ _ _); simpl; [|reflexivity].
  destruct (negb _); simpl; [reflexivity|].
  rewrite map_map. apply map_ext.
  intros q. destruct (Profile.user_id q =? uid); reflexivity.
Qed.

(** What a sent message adds, in full. *)
Lemma send_message_effect_row (user_id : Z) (form : fields) (now : string)
    (uid : Z) (d : db) :
  let d' := snd (send_message user_id form now uid d) in
  d' = d
  \/ exists rows u v,
      uid <> user_id
      /\ submitted form "body" <> ""
      /\ fetch_user d uid = Some u
      /\ fetch_user d user_id = Some v
      /\ messages d = InitDbMessages rows
      /\ d' = mkDb (users d) (profiles d)
                (InitDbMessages
                   (rows ++ [Message.mk
                               (Sqlite.next_rowid (map Message.id rows))
                               uid user_id (submitted form "body") now 0])).
Proof.
  unfold send_message. fold (submitted form "body").
  destruct (uid =? user_id) eqn:Eid; simpl; [now left|].
  apply Z.eqb_neq in Eid.
  destruct (Py.truthy (submitted form "body")) eqn:Eb; simpl; [|now left].
  apply truthy_true_iff in Eb.
  destruct (fetch_user d user_id) as [v|] eqn:Ev; simpl; [|now left].
  unfold insert_message.
  destruct (messages d) as [rows|] eqn:Em; simpl; [|now left].
  destruct (fetch_user d uid) as [u|] eqn:Eu; simpl; [|now left].
  rewrite Ev. simpl. right. exists rows, u, v. auto 10.
Qed.

(** ** Users and profiles *)

Lemma step_users_profiles_aligned (d d' : db) :
  every_user_has_profile d ->
  users_profiles_aligned d ->
  step secure_filename generate_password_hash d d' ->
  users_profiles_aligned d'.
Proof.
  intros Hhas [Hids Hprof] Hstep. destruct Hstep as [m form salt now
    | m photo form now ts upd uid Hauth | user_id form now uid Hauth
    | user_id uid Hauth].
  - destruct (register_effect_row m form salt now d)
      as [-> | (_ & _ & _ & ->)]; [now split|].
    unfold users_profiles_aligned. simpl.
    rewrite !map_app, length_app, Hprof, Hids. simpl.
    rewrite next_rowid_ids_upto, Nat.add_1_r, ids_upto_succ. auto.
  - destruct Hauth as (_ & u & Hu). destruct (Hhas uid u Hu) as [p Hp].
    destruct (profile_edit_effect secure_filename m photo form now ts upd
                uid d) as (Hus & _ & _).
    unfold users_profiles_aligned.
    rewrite (profile_edit_keys m photo form now ts upd uid d p Hp), Hus.
    now split.
  - destruct (send_message_effect user_id form now uid d)
      as [-> | (rows & body & _ & _ & ->)]; now split.
  - destruct (thread_effect user_id uid d) as [-> | (rows & _ & ->)];
      now split.
Qed.

Lemma reachable_users_profiles_aligned (d : db) :
  reachable secure_filename generate_password_hash d ->
  users_profiles_aligned d.
Proof.
  induction 1 as [reset_flag file d Hstart Hserv | d d' Hr IH Hstep].
  - destruct (reachable_start_cases _ _ _ Hstart Hserv) as (Hu & Hp & _).
    unfold users_profiles_aligned. rewrite Hu, Hp. now split.
  - eapply step_users_profiles_aligned; try eassumption.
    now apply (reachable_invariants secure_filename generate_password_hash).
Qed.

(** ** E-mail addresses *)

Lemma step_emails_are_keys (d d' : db) :
  emails_are_keys d ->
  step secure_filename generate_password_hash d d' ->
  emails_are_keys d'.
Proof.
  intros [Hnd Hkey] Hstep. destruct Hstep as [m form salt now
    | m photo form now ts upd uid Hauth | user_id form now uid Hauth
    | user_id uid Hauth].
  - destruct (register_effect_row m form salt now d)
      as [-> | (He & _ & Hsel & ->)]; [now split|].
    unfold emails_are_keys. simpl. rewrite map_app. simpl. split.
    + apply nodup_snoc; [exact Hnd|].
      now apply select_user_by_email_none.
    + intros u Hin. apply in_app_or in Hin as [Hin | [<- | []]];
        [now apply Hkey|]. simpl. split; [exact He|].
      apply email_key_stable.
  - destruct (profile_edit_effect secure_filename m photo form now ts upd
                uid d) as (Hus & _ & _).
    unfold emails_are_keys. rewrite Hus. now split.
  - destruct (send_message_effect user_id form now uid d)
      as [-> | (rows & body & _ & _ & ->)]; now split.
  - destruct (thread_effect user_id uid d) as [-> | (rows & _ & ->)];
      now split.
Qed.

Lemma reachable_emails_are_keys (d : db) :
  reachable secure_filename generate_password_hash d -> emails_are_keys d.
Proof.
  induction 1 as [reset_flag file d Hstart Hserv | d d' Hr IH Hstep].
  - destruct (reachable_start_cases _ _ _ Hstart Hserv) as (Hu & _ & _).
    unfold emails_are_keys. rewrite Hu. split; [constructor | intros u []].
  - eapply step_emails_are_keys; eassumption.
Qed.

End ReachableFacts.

Section ReachableMessages.

Variable secure_filename : string -> string.
Variable generate_password_hash : string -> string -> string.

Lemma fetch_user_same_users (d d' : db) (uid : Z) :
  users d' = users d -> fetch_user d' uid = fetch_user d uid.
Proof. unfold fetch_user. now intros ->. Qed.

Lemma fetch_user_more_users (d d' : db) (extra : list User.t) (uid : Z)
    (u : User.t) :
  users d' = users d ++ extra ->
  fetch_user d uid = Some u -> fetch_user d' uid = Some u.
Proof.
  unfold fetch_user. intros -> H. now rewrite find_app_split, H.
Qed.

Lemma map_id_mark_read (uid user_id : Z) (rows : list Message.t) :
  map Message.id (map (mark_read uid user_id) rows) = map Message.id rows.
Proof.
  rewrite map_map. apply map_ext. intros m.
  now destruct (mark_read_columns uid user_id m).
Qed.

Lemma mark_read_flag (uid user_id : Z) (m : Message.t) :
  Message.is_read (mark_read uid user_id m) = Message.is_read m
  \/ (Message.is_read m = 0 /\ Message.is_read (mark_read uid user_id m) = 1).
Proof.
  unfold mark_read.
  destruct (Message.receiver_id m =? uid), (Message.sender_id m =? user_id);
    simpl; auto.
  destruct (Z.eqb_spec (Message.is_read m) 0); simpl; auto.
Qed.

Lemma step_messages_well_formed (d d' : db) :
  messages_well_formed d ->
  step secure_filename generate_password_hash d d' ->
  messages_well_formed d'.
Proof.
  intros [Hids Hrows] Hstep. destruct Hstep as [m form salt now
    | m photo form now ts upd uid Hauth | user_id form now uid Hauth
    | user_id uid Hauth].
  - destruct (register_effect_row generate_password_hash m form salt now d)
      as [-> | (_ & _ & _ & E)]; [now split|].
    rewrite E. split; [exact Hids|].
    intros x Hx. destruct (Hrows x Hx) as ((u & Hu) & (v & Hv) & Hrest).
    split; [|split; [|exact Hrest]].
    + exists u. eapply fetch_user_more_users; [|exact Hu]. reflexivity.
    + exists v. eapply fetch_user_more_users; [|exact Hv]. reflexivity.
  - destruct (profile_edit_effect secure_filename m photo form now ts upd
                uid d) as (Hus & Hms & _).
    unfold messages_well_formed, message_rows in *. rewrite Hms.
    split; [exact Hids|]. intros x Hx.
    rewrite !(fetch_user_same_users d _ _ Hus). now apply Hrows.
  - destruct (send_message_effect_row user_id form now uid d)
      as [-> | (rows & u & v & Hne & Hb & Hu & Hv & Hm & ->)]; [now split|].
    unfold messages_well_formed, message_rows in *. simpl.
    rewrite Hm in Hids, Hrows. split.
    + rewrite map_app, length_app, Hids. simpl.
      now rewrite next_rowid_ids_upto, Nat.add_1_r, ids_upto_succ.
    + intros x Hx. apply in_app_or in Hx as [Hx | [<- | []]].
      * now apply Hrows.
      * simpl.
        split; [exists u; exact Hu|]. split; [exists v; exact Hv|].
        split; [exact Hne|]. split; [exact Hb|].
        split; [apply normalize_text_output_tidy | now left].
  - destruct (thread_effect user_id uid d) as [-> | (rows & Hm & ->)];
      [now split|].
    unfold messages_well_formed, message_rows in *. simpl.
    rewrite Hm in Hids, Hrows. split.
    + now rewrite map_id_mark_read, length_map.
    + intros x Hx. apply in_map_iff in Hx as (x0 & <- & Hx0).
      destruct (Hrows x0 Hx0) as (Hs & Hr & Hne & Hb & Ht & Hf).
      destruct (mark_read_columns uid user_id x0)
        as (_ & E1 & E2 & E3 & _).
      rewrite E1, E2, E3.
      split; [exact Hs|]. split; [exact Hr|]. split; [exact Hne|].
      split; [exact Hb|]. split; [exact Ht|].
      destruct (mark_read_flag uid user_id x0) as [E | [_ E]]; rewrite E;
        auto.
Qed.

Lemma reachable_messages_well_formed (d : db) :
  reachable secure_filename generate_password_hash d ->
  messages_well_formed d.
Proof.
  induction 1 as [reset_flag file d Hstart Hserv | d d' Hr IH Hstep].
  - destruct (reachable_start_cases _ _ _ Hstart Hserv) as (_ & _ & Hm).
    unfold messages_well_formed, message_rows.
    destruct Hm as [-> | ->]; (split; [reflexivity | intros m []]).
  - eapply step_messages_well_formed; eassumption.
Qed.

Lemma forall2_flag_only_refl (rows : list Message.t) :
  Forall2 flag_only rows rows.
Proof.
  induction rows as [|m rows IH]; constructor; [|exact IH].
  unfold flag_only. auto 10.
Qed.

Lemma forall2_flag_only_mark (uid user_id : Z) (rows : list Message.t) :
  Forall2 flag_only rows (map (mark_read uid user_id) rows).
Proof.
  induction rows as [|m rows IH]; simpl; constructor; [|exact IH].
  unfold flag_only.
  destruct (mark_read_columns uid user_id m) as (H1 & H2 & H3 & H4 & H5).
  repeat (split; [assumption|]). apply mark_read_flag.
Qed.

Lemma profile_edit_keys_extend (m : method) (photo : option FileStorage)
    (form : fields) (now : string) (timestamp : Z) (updated_at : string)
    (uid : Z) (d : db) :
  exists extra,
    map Profile.user_id
      (profiles (snd (profile_edit secure_filename m photo form now timestamp
                        updated_at uid d)))
    = map Profile.user_id (profiles d) ++ extra.
Proof.
  destruct (fetch_profile d uid) as [p|] eqn:Hp.
  - exists []. rewrite app_nil_r. eapply profile_edit_keys; eassumption.
  - unfold profile_edit. rewrite Hp.
    destruct (insert_profile d uid now) as [d1|e] eqn:Ei; simpl;
      [|exists []; now rewrite app_nil_r].
    apply insert_profile_inl in Ei as (_ & _ & ->).
    exists [uid].
    destruct m; simpl; [now rewrite map_app|].
    destruct (posted_photo _ _ _ _); simpl; [|now rewrite map_app].
    destruct (negb _); simpl; [now rewrite map_app|].
    rewrite map_map, map_app. simpl. f_equal.
    + apply map_ext. intros q.
      destruct (Profile.user_id q =? uid); reflexivity.
    + destruct (uid =? uid); reflexivity.
Qed.

(** X11.  One request never removes or rewrites a row of [users], never
    removes a row of [profiles] or changes whose it is, and never removes a
    message or changes any of its columns but the read flag, which can only
    go from 0 to 1; a table created by [ensure_schema] stays that table. *)
Theorem step_is_append_only (d d' : db) :
  step secure_filename generate_password_hash d d' ->
  (exists extra, users d' = users d ++ extra)
  /\ (exists extra,
         map Profile.user_id (profiles d')
         = map Profile.user_id (profiles d) ++ extra)
  /\ (exists kept extra,
         message_rows d' = kept ++ extra
         /\ Forall2 flag_only (message_rows d) kept)
  /\ (messages d = EnsureSchemaMessages <->
      messages d' = EnsureSchemaMessages).
Proof.
  intros Hstep. destruct Hstep as [m form salt now
    | m photo form now ts upd uid Hauth | user_id form now uid Hauth
    | user_id uid Hauth].
  - destruct (register_effect_row generate_password_hash m form salt now d)
      as [-> | (_ & _ & _ & ->)].
    + repeat split; try (exists []; now rewrite app_nil_r); auto.
      exists (message_rows d), []. rewrite app_nil_r.
      split; [reflexivity | apply forall2_flag_only_refl].
    + simpl. repeat split; eauto.
      * rewrite map_app. eauto.
      * exists (message_rows d), []. rewrite app_nil_r.
        split; [reflexivity | apply forall2_flag_only_refl].
  - destruct (profile_edit_effect secure_filename m photo form now ts upd
                uid d) as (Hus & Hms & _).
    split; [exists []; now rewrite app_nil_r|].
    split; [apply profile_edit_keys_extend|].
    unfold message_rows. rewrite Hms. split; [|tauto].
    exists (message_rows d), []. rewrite app_nil_r.
    split; [reflexivity | apply forall2_flag_only_refl].
  - destruct (send_message_effect_row user_id form now uid d)
      as [-> | (rows & u & v & _ & _ & _ & _ & Hm & ->)].
    + repeat split; try (exists []; now rewrite app_nil_r); auto.
      exists (message_rows d), []. rewrite app_nil_r.
      split; [reflexivity | apply forall2_flag_only_refl].
    + simpl. unfold message_rows. rewrite Hm. simpl.
      repeat split; try (exists []; now rewrite app_nil_r);
        try discriminate.
      eexists rows, _. split; [reflexivity | apply forall2_flag_only_refl].
  - destruct (thread_effect user_id uid d) as [-> | (rows & Hm & ->)].
    + repeat split; try (exists []; now rewrite app_nil_r); auto.
      exists (message_rows d), []. rewrite app_nil_r.
      split; [reflexivity | apply forall2_flag_only_refl].
    + simpl. unfold message_rows. rewrite Hm. simpl.
      repeat split; try (exists []; now rewrite app_nil_r);
        try discriminate.
      exists (map (mark_read uid user_id) rows), []. rewrite app_nil_r.
      split; [reflexivity | apply forall2_flag_only_mark].
Qed.

(** X8.  In every database the program builds, the user ids are
    1, 2, ..., n in the order of registration, and [profiles] holds one
    row per user in that same order: the k-th profile belongs to the k-th
    user. *)
Theorem reachable_users_and_profiles (d : db) :
  reachable secure_filename generate_password_hash d ->
  map User.id (users d) = ids_upto (List.length (users d))
  /\ map Profile.user_id (profiles d) = map User.id (users d).
Proof. exact (reachable_users_profiles_aligned _ _ d). Qed.

(** X9.  In every database the program builds, no two users have the same
    e-mail address, and every stored address is non-empty and is the key
    [register] and [login] derive from it: trimmed, single-spaced and in
    lower case. *)
Theorem reachable_emails (d : db) :
  reachable secure_filename generate_password_hash d ->
  NoDup (map User.email (users d))
  /\ forall u, In u (users d) ->
       User.email u <> ""
       /\ email_of [("email", User.email u)] = User.email u.
Proof. exact (reachable_emails_are_keys _ _ d). Qed.

(** X10.  In every database the program builds, the message ids are
    1, 2, ..., n in the order of sending; each message goes from a user to
    a different user, its body is non-empty and tidy, and its read flag is
    0 or 1. *)
Theorem reachable_messages (d : db) :
  reachable secure_filename generate_password_hash d ->
  map Message.id (message_rows d)
  = ids_upto (List.length (message_rows d))
  /\ forall m, In m (message_rows d) ->
       (exists u, fetch_user d (Message.sender_id m) = Some u)
       /\ (exists v, fetch_user d (Message.receiver_id m) = Some v)
       /\ Message.sender_id m <> Message.receiver_id m
       /\ Message.body m <> ""
       /\ tidy (Message.body m)
       /\ (Message.is_read m = 0 \/ Message.is_read m = 1).
Proof. exact (reachable_messages_well_formed d). Qed.

End ReachableMessages.

(** Ann, Bo and Bo's message to Ann. *)
Lemma reachable_users_and_profiles_witness :
  map User.id (users demo_db) = [1; 2]
  /\ map Profile.user_id (profiles demo_db) = [1; 2].
Proof.
  destruct (reachable_users_and_profiles demo_sanitize demo_hash demo_db
              demo_db_reachable) as [H1 H2].
  split; [exact H1 | rewrite H2; exact H1].
Defined.

Lemma reachable_emails_witness :
  map User.email (users demo_db) = ["ann@uni.edu"; "bo@uni.edu"]
  /\ NoDup (map User.email (users demo_db)).
Proof.
  split; [reflexivity|].
  exact (proj1 (reachable_emails demo_sanitize demo_hash demo_db
                  demo_db_reachable)).
Defined.

Lemma reachable_messages_witness :
  map Message.id (message_rows demo_db) = [1]
  /\ forall m, In m (message_rows demo_db) ->
       Message.sender_id m <> Message.receiver_id m
       /\ Message.body m <> "".
Proof.
  destruct (reachable_messages demo_sanitize demo_hash demo_db
              demo_db_reachable) as [H1 H2].
  split; [exact H1|].
  intros m Hm. destruct (H2 m Hm) as (_ & _ & Hne & Hb & _). auto.
Defined.

(** Ann opens the thread with Bo. *)
Lemma step_is_append_only_witness :
  step demo_sanitize demo_hash demo_db (snd (thread 2 1 demo_db))
  /\ exists kept extra,
      message_rows (snd (thread 2 1 demo_db)) = kept ++ extra
      /\ Forall2 flag_only (message_rows demo_db) kept.
Proof.
  assert (H : step demo_sanitize demo_hash demo_db (snd (thread 2 1 demo_db))).
  { apply step_thread. split; [discriminate | eexists; reflexivity]. }
  split; [exact H|].
  exact (proj1 (proj2 (proj2 (step_is_append_only demo_sanitize demo_hash
                                demo_db _ H)))).
Defined.

(* ================================================================== *)
(** * Registering, then logging in                                     *)
(* ================================================================== *)

Section LoginFacts.

Variable generate_password_hash : string -> string -> string.
Variable check_password_hash : string -> string -> bool.

(** [register_session] is [register] with the session beside it. *)
Lemma register_session_register (m : method) (form : fields)
    (salt now : string) (s : session) (d : db) :
  (fst (fst (register_session generate_password_hash m form salt now s d)),
   snd (register_session generate_password_hash m form salt now s d))
  = register generate_password_hash m form salt now d.
Proof.
  unfold register_session, register. destruct m; [reflexivity|]. cbv zeta.
  destruct (negb _ || negb _); [reflexivity|].
  destruct (select_user_by_email d _); [reflexivity|].
  unfold insert_user.
  destruct (insert_profile _ _ now); reflexivity.
Qed.

Lemma register_session_created (form : fields) (salt now : string)
    (s s1 : session) (d d1 : db) (message category : string) :
  register_session generate_password_hash POST form salt now s d
  = (Redirect ep_profile_edit message category, s1, d1) ->
  s1 = Some (Sqlite.next_rowid (map User.id (users d)))
  /\ select_user_by_email d (email_of form) = None
  /\ users d1
     = users d
       ++ [User.mk (Sqlite.next_rowid (map User.id (users d)))
             (email_of form)
             (generate_password_hash salt (password_of form)) now].
Proof.
  unfold register_session, email_of, password_of. cbv zeta.
  destruct (negb _ || negb _); [discriminate|].
  destruct (select_user_by_email d _) eqn:Esel; [discriminate|].
  unfold insert_user.
  destruct (insert_profile _ _ now) as [d2|e] eqn:Ei; [|discriminate].
  apply insert_profile_inl in Ei as (_ & _ & ->).
  intros H. injection H as _ _ <- <-. auto.
Qed.

(** X12.  Provided the verifier accepts the hashes the hasher makes, a
    visitor who has just registered can log in: with the same password and
    the same address, however it is spaced or cased in the form, [login]
    opens a session for the very id registration gave, and sends the
    browser to [next] or to the index page. *)
Theorem register_then_login (form form' args : fields) (salt now : string)
    (s s1 s' : session) (d d1 : db) (message category : string) :
  (forall salt password,
      check_password_hash (generate_password_hash salt password) password
      = true) ->
  register_session generate_password_hash POST form salt now s d
  = (Redirect ep_profile_edit message category, s1, d1) ->
  email_of form' = email_of form ->
  password_of form' = password_of form ->
  s1 = Some (Sqlite.next_rowid (map User.id (users d)))
  /\ login check_password_hash POST form' args s' d1
     = (AuthRedirectUrl (next_url_of args) "Logged in." "success", s1).
Proof.
  intros Hcheck Hreg He Hp.
  apply register_session_created in Hreg as (-> & Hnone & Hus).
  split; [reflexivity|].
  unfold login. fold (email_of form') (password_of form') (next_url_of args).
  rewrite He, Hp.
  assert (Hsel : select_user_by_email d1 (email_of form)
                 = Some (User.mk (Sqlite.next_rowid (map User.id (users d)))
                           (email_of form)
                           (generate_password_hash salt (password_of form))
                           now)).
  { unfold select_user_by_email in *. rewrite Hus, find_app_split, Hnone.
    simpl. now rewrite String.eqb_refl. }
  rewrite Hsel. simpl. now rewrite Hcheck.
Qed.

End LoginFacts.

Lemma demo_check_accepts (salt password : string) :
  demo_check (demo_hash salt password) password = true.
Proof.
  unfold demo_check, demo_hash. apply contains_iff.
  exists salt, "". now rewrite append_empty_r.
Qed.

(** Cy registers, then logs in with the address in capitals. *)
Lemma register_then_login_witness :
  register_session demo_hash POST
    [("email", " cy@uni.edu "); ("password", "pw3")]
    "s3" "2024-05-05T00:00:00" None demo_db
  = (Redirect ep_profile_edit
       "Account created. Please complete your profile." "success",
     Some 3,
     snd (register demo_hash POST
            [("email", " cy@uni.edu "); ("password", "pw3")]
            "s3" "2024-05-05T00:00:00" demo_db))
  /\ login demo_check POST [("email", "CY@UNI.EDU"); ("password", "pw3")]
       [("next", "/inbox")] None
       (snd (register demo_hash POST
               [("email", " cy@uni.edu "); ("password", "pw3")]
               "s3" "2024-05-05T00:00:00" demo_db))
     = (AuthRedirectUrl "/inbox" "Logged in." "success", Some 3).
Proof.
  assert (H : register_session demo_hash POST
                [("email", " cy@uni.edu "); ("password", "pw3")]
                "s3" "2024-05-05T00:00:00" None demo_db
              = (Redirect ep_profile_edit
                   "Account created. Please complete your profile." "success",
                 Some 3,
                 snd (register demo_hash POST
                        [("email", " cy@uni.edu "); ("password", "pw3")]
                        "s3" "2024-05-05T00:00:00" demo_db)))
    by reflexivity.
  split; [exact H|].
  exact (proj2 (register_then_login demo_hash demo_check
                  [("email", " cy@uni.edu "); ("password", "pw3")]
                  [("email", "CY@UNI.EDU"); ("password", "pw3")]
                  [("next", "/inbox")] "s3" "2024-05-05T00:00:00"
                  None (Some 3) None demo_db _ _ _
                  demo_check_accepts H eq_refl eq_refl)).
Defined.

(* ================================================================== *)
(** * ORDER BY with LIMIT                                              *)
(* ================================================================== *)

Section OrderByLimit.

Context {A : Type} (le : A -> A -> bool).
Hypothesis le_total : forall a b, le a b = true \/ le b a = true.
Hypothesis le_trans :
  forall a b c, le a b = true -> le b c = true -> le a c = true.

Lemma insert_row_perm (r : A) (l : list A) :
  Permutation (Sqlite.insert_row le r l) (r :: l).
Proof.
  induction l as [|x l IH]; simpl; [reflexivity|].
  destruct (le r x); [reflexivity|].
  rewrite IH. apply perm_swap.
Qed.

Lemma order_by_perm (l : list A) : Permutation (Sqlite.order_by le l) l.
Proof.
  induction l as [|x l IH]; simpl; [reflexivity|].
  rewrite insert_row_perm. now constructor.
Qed.

Lemma strongly_sorted_app (R : A -> A -> Prop) (l1 l2 : list A) :
  StronglySorted R (l1 ++ l2) ->
  forall a b, In a l1 -> In b l2 -> R a b.
Proof.
  induction l1 as [|x l1 IH]; simpl; intros H a b Ha Hb; [destruct Ha|].
  apply StronglySorted_inv in H as [Hs Hall].
  destruct Ha as [<- | Ha]; [|now apply IH].
  rewrite Forall_forall in Hall. apply Hall. apply in_or_app. now right.
Qed.

(** What LIMIT keeps of an ordered selection: the first rows in the
    order, and all of them when there are no more than the limit. *)
Lemma limit_order_by (n : nat) (l : list A) :
  exists rest,
    Permutation (Sqlite.limit n (Sqlite.order_by le l) ++ rest) l
    /\ (forall a b, In a (Sqlite.limit n (Sqlite.order_by le l)) ->
                    In b rest -> le a b = true)
    /\ (rest <> [] ->
        List.length (Sqlite.limit n (Sqlite.order_by le l)) = n)
    /\ ((List.length l <= n)%nat -> rest = []).
Proof.
  exists (skipn n (Sqlite.order_by le l)). unfold Sqlite.limit.
  split; [|split; [|split]].
  - rewrite firstn_skipn. apply order_by_perm.
  - apply (strongly_sorted_app (fun a b => le a b = true)).
    rewrite firstn_skipn. now apply order_by_sorted.
  - intros Hne. rewrite length_firstn.
    destruct (Nat.le_gt_cases (List.length (Sqlite.order_by le l)) n) as [H|H];
      [|lia].
    exfalso. apply Hne. now apply skipn_all2.
  - intros H. apply skipn_all2. now rewrite order_by_length.
Qed.

(** On rows already in order, ORDER BY changes nothing. *)
Lemma order_by_sorted_id (l : list A) :
  StronglySorted (fun a b => le a b = true) l -> Sqlite.order_by le l = l.
Proof.
  induction 1 as [|x l Hs IH Hall]; simpl; [reflexivity|].
  rewrite IH. destruct l as [|y l]; simpl; [reflexivity|].
  apply Forall_inv in Hall. now rewrite Hall.
Qed.

End OrderByLimit.

(* ================================================================== *)
(** * What a thread shows                                              *)
(* ================================================================== *)

Lemma id_asc_total (a b : Message.t) :
  id_asc a b = true \/ id_asc b a = true.
Proof. unfold id_asc. destruct (Z.leb_spec (Message.id a) (Message.id b));
  [now left | right; apply Z.leb_le; lia]. Qed.

Lemma id_asc_trans (a b c : Message.t) :
  id_asc a b = true -> id_asc b c = true -> id_asc a c = true.
Proof. unfold id_asc. rewrite !Z.leb_le. lia. Qed.

Lemma thread_renders (user_id uid : Z) (d : db) (other : Profile.t)
    (rows : list Message.t) :
  uid <> user_id ->
  fetch_profile d user_id = Some other ->
  messages d = InitDbMessages rows ->
  fst (thread user_id uid d)
  = RenderThread
      (Sqlite.limit 500
         (Sqlite.order_by id_asc (filter (between uid user_id) rows)))
      user_id (display_name (Some other) user_id) uid.
Proof.
  intros Hne Hp Hm. unfold thread. apply Z.eqb_neq in Hne.
  now rewrite Hne, Hp, Hm.
Qed.

(** X13.  The thread view lists messages exchanged by the two users and
    no others, as they were before the view set any read flag, by
    ascending id and at most 500 of them; when the two have exchanged
    more, it is the 500 with the lowest ids that are listed, so the most
    recent ones are left out. *)
Theorem thread_shows_lowest_ids (user_id uid : Z) (d : db)
    (other : Profile.t) (rows : list Message.t) :
  uid <> user_id ->
  fetch_profile d user_id = Some other ->
  messages d = InitDbMessages rows ->
  exists msgs rest,
    fst (thread user_id uid d)
    = RenderThread msgs user_id (display_name (Some other) user_id) uid
    /\ Permutation (msgs ++ rest) (filter (between uid user_id) rows)
    /\ StronglySorted (fun a b => Message.id a <= Message.id b) msgs
    /\ (List.length msgs <= 500)%nat
    /\ (rest <> [] -> List.length msgs = 500%nat)
    /\ (forall a b, In a msgs -> In b rest -> Message.id a <= Message.id b).
Proof.
  intros Hne Hp Hm.
  destruct (limit_order_by id_asc id_asc_total id_asc_trans 500
              (filter (between uid user_id) rows))
    as (rest & Hperm & Hlow & Hfull & _).
  eexists _, rest. split; [exact (thread_renders _ _ _ _ _ Hne Hp Hm)|].
  split; [exact Hperm|]. split; [|split; [|split]].
  - assert (Hs : StronglySorted (fun a b => id_asc a b = true)
                   (Sqlite.limit 500
                      (Sqlite.order_by id_asc
                         (filter (between uid user_id) rows)))).
    { apply limit_sorted.
      apply order_by_sorted; [exact id_asc_total | exact id_asc_trans]. }
    clear -Hs. induction Hs as [|x l Hs IH Hall]; constructor; [exact IH|].
    eapply Forall_impl; [|exact Hall]. intros y Hy. now apply Z.leb_le.
  - unfold Sqlite.limit. apply firstn_le_length.
  - exact Hfull.
  - intros a b Ha Hb. apply Z.leb_le. exact (Hlow a b Ha Hb).
Qed.

(** Ann's thread with Bo in the small database. *)
Lemma thread_shows_lowest_ids_witness :
  exists msgs rest,
    fst (thread 2 1 example_db) = RenderThread msgs 2 "Bo Chen" 1
    /\ Permutation (msgs ++ rest)
         (filter (between 1 2) (message_rows example_db))
    /\ (List.length msgs <= 500)%nat.
Proof.
  destruct (thread_shows_lowest_ids 2 1 example_db bo
              (message_rows example_db))
    as (msgs & rest & H1 & H2 & _ & H3 & _);
    [discriminate | reflexivity | reflexivity |].
  exists msgs, rest. auto.
Defined.

Lemma between_sym (a b : Z) (m : Message.t) :
  between a b m = between b a m.
Proof. unfold between. apply orb_comm. Qed.

(** X14.  Two users who open their common thread on the same database are
    shown the same messages in the same order, each under the other's
    name. *)
Theorem thread_same_for_both (A B : Z) (d : db) (pa pb : Profile.t)
    (rows : list Message.t) :
  A <> B ->
  fetch_profile d A = Some pa ->
  fetch_profile d B = Some pb ->
  messages d = InitDbMessages rows ->
  exists msgs,
    fst (thread B A d)
    = RenderThread msgs B (display_name (Some pb) B) A
    /\ fst (thread A B d)
       = RenderThread msgs A (display_name (Some pa) A) B.
Proof.
  intros Hne Ha Hb Hm. eexists. split.
  - exact (thread_renders B A d pb rows Hne Hb Hm).
  - rewrite (thread_renders A B d pa rows (not_eq_sym Hne) Ha Hm).
    do 3 f_equal. apply filter_ext. intros m. apply between_sym.
Qed.

Lemma thread_same_for_both_witness :
  exists msgs,
    fst (thread 2 1 example_db) = RenderThread msgs 2 "Bo Chen" 1
    /\ fst (thread 1 2 example_db) = RenderThread msgs 1 "Ann Lee" 2.
Proof.
  apply (thread_same_for_both 1 2 example_db ann bo
           (message_rows example_db));
    [discriminate | reflexivity | reflexivity | reflexivity].
Defined.

(* ================================================================== *)
(** * From sending to reading                                          *)
(* ================================================================== *)

Lemma submitted_not_blank (form : fields) (k : string) :
  submitted form k <> "" -> all_space (get_default form k "") = false.
Proof.
  intros H. destruct (all_space (get_default form k "")) eqn:E;
    [|reflexivity].
  exfalso. apply H. now apply (normalize_text_empty_iff (Some _)).
Qed.

Lemma thread_rows (user_id uid : Z) (d : db) (other : Profile.t)
    (rows : list Message.t) :
  uid <> user_id ->
  fetch_profile d user_id = Some other ->
  messages d = InitDbMessages rows ->
  snd (thread user_id uid d)
  = mkDb (users d) (profiles d)
      (InitDbMessages (map (mark_read uid user_id) rows)).
Proof.
  intros Hne Hp Hm.
  pose proof (thread_opens user_id uid d other Hne Hp) as H.
  rewrite Hm in H. now destruct H.
Qed.

(** X15.  A message stays unread until its receiver opens the thread.
    After [A] has sent a message to [B], the new row ends [messages] with
    read flag 0; it still does after [A] has followed the redirect to the
    thread; once [B] opens the thread the flag is 1. *)
Theorem sent_message_read_by_receiver (A B : Z) (form : fields)
    (now : string) (d : db) (rows : list Message.t) (pa pb : Profile.t) :
  messages d = InitDbMessages rows ->
  authenticated d A ->
  fetch_user d B <> None ->
  A <> B ->
  submitted form "body" <> "" ->
  fetch_profile d A = Some pa ->
  fetch_profile d B = Some pb ->
  let id := Sqlite.next_rowid (map Message.id rows) in
  let d1 := snd (send_message B form now A d) in
  let d2 := snd (thread B A d1) in
  let d3 := snd (thread A B d2) in
  fst (send_message B form now A d)
  = Redirect (ep_thread B) "Message sent." "success"
  /\ ends_with (message_rows d1)
       (Message.mk id A B (submitted form "body") now 0)
  /\ ends_with (message_rows d2)
       (Message.mk id A B (submitted form "body") now 0)
  /\ ends_with (message_rows d3)
       (Message.mk id A B (submitted form "body") now 1).
Proof.
  intros Hm Hauth HB Hne Hbody Hpa Hpb id d1 d2 d3.
  destruct (send_message_init_db B form now A d rows Hm Hauth)
    as (_ & _ & _ & Hsend).
  specialize (Hsend Hne (submitted_not_blank form "body" Hbody) HB).
  fold (submitted form "body") in Hsend. fold id in Hsend.
  assert (E1 : d1 = mkDb (users d) (profiles d)
                 (InitDbMessages
                    (rows ++ [Message.mk id A B (submitted form "body")
                                now 0])))
    by (unfold d1; now rewrite Hsend).
  assert (E2 : d2 = mkDb (users d) (profiles d)
                 (InitDbMessages
                    (map (mark_read A B) rows
                     ++ [Message.mk id A B (submitted form "body") now 0]))).
  { unfold d2. rewrite E1.
    rewrite (thread_rows B A
               (mkDb (users d) (profiles d)
                  (InitDbMessages
                     (rows ++ [Message.mk id A B (submitted form "body")
                                 now 0])))
               pb _ Hne Hpb eq_refl). simpl.
    rewrite map_app. simpl. do 3 f_equal.
    unfold mark_read. simpl.
    destruct (Z.eqb_spec B A) as [E|_]; [congruence | reflexivity]. }
  assert (E3 : d3 = mkDb (users d) (profiles d)
                 (InitDbMessages
                    (map (mark_read B A) (map (mark_read A B) rows)
                     ++ [Message.mk id A B (submitted form "body") now 1]))).
  { unfold d3. rewrite E2.
    rewrite (thread_rows A B
               (mkDb (users d) (profiles d)
                  (InitDbMessages
                     (map (mark_read A B) rows
                      ++ [Message.mk id A B (submitted form "body")
                            now 0])))
               pa _ (not_eq_sym Hne) Hpa eq_refl). simpl.
    rewrite map_app. simpl. do 3 f_equal.
    unfold mark_read. simpl. now rewrite !Z.eqb_refl. }
  split; [now rewrite Hsend|].
  rewrite E1, E2, E3. unfold ends_with, message_rows. simpl.
  repeat split; eexists; reflexivity.
Qed.

(** Ann answers Bo in the small database. *)
Lemma sent_message_read_by_receiver_witness :
  ends_with
    (message_rows
       (snd (send_message 2 [("body", " See  you at 3 ")]
               "2024-05-04T10:00:00" 1 example_db)))
    (Message.mk 5 1 2 "See you at 3" "2024-05-04T10:00:00" 0)
  /\ ends_with
       (message_rows
          (snd (thread 1 2
                  (snd (thread 2 1
                          (snd (send_message 2 [("body", " See  you at 3 ")]
                                  "2024-05-04T10:00:00" 1 example_db)))))))
       (Message.mk 5 1 2 "See you at 3" "2024-05-04T10:00:00" 1).
Proof.
  destruct (sent_message_read_by_receiver 1 2 [("body", " See  you at 3 ")]
              "2024-05-04T10:00:00" example_db (message_rows example_db)
              ann bo)
    as (_ & H1 & _ & H3);
    try reflexivity; try discriminate.
  - split; [discriminate | eexists; reflexivity].
  - split; [exact H1 | exact H3].
Defined.

(* ================================================================== *)
(** * Threads in the order of sending                                  *)
(* ================================================================== *)

Lemma strongly_sorted_seq (s n : nat) :
  StronglySorted Z.le (map Z.of_nat (seq s n)).
Proof.
  revert s. induction n as [|n IH]; intros s; simpl; constructor.
  - apply IH.
  - apply Forall_forall. intros x Hx.
    apply in_map_iff in Hx as (k & <- & Hk). apply in_seq in Hk. lia.
Qed.

Lemma strongly_sorted_map {A B : Type} (R : B -> B -> Prop) (f : A -> B)
    (l : list A) :
  StronglySorted R (map f l) -> StronglySorted (fun a b => R (f a) (f b)) l.
Proof.
  induction l as [|x l IH]; simpl; intros H; constructor;
    apply StronglySorted_inv in H as [Hs Hall].
  - now apply IH.
  - rewrite Forall_forall in *. intros y Hy. apply Hall. now apply in_map.
Qed.

Lemma strongly_sorted_filter {A : Type} (R : A -> A -> Prop)
    (f : A -> bool) (l : list A) :
  StronglySorted R l -> StronglySorted R (filter f l).
Proof.
  induction 1 as [|x l Hs IH Hall]; simpl; [constructor|].
  destruct (f x); [|exact IH]. constructor; [exact IH|].
  rewrite Forall_forall in *. intros y Hy. apply Hall.
  now apply filter_In in Hy.
Qed.

(** X16.  In every database the program builds, message ids grow with
    the order of sending, so the thread view lists the messages of the two
    users in the order they were sent: the first 500 of them. *)
Theorem reachable_thread_in_sending_order
    (secure_filename : string -> string)
    (generate_password_hash : string -> string -> string)
    (d : db) (uid user_id : Z) (rows : list Message.t) :
  reachable secure_filename generate_password_hash d ->
  authenticated d uid -> authenticated d user_id -> uid <> user_id ->
  messages d = InitDbMessages rows ->
  exists other_name,
    fst (thread user_id uid d)
    = RenderThread (firstn 500 (filter (between uid user_id) rows))
        user_id other_name uid.
Proof.
  intros Hreach _ (_ & u & Hu) Hne Hm.
  destruct (reachable_invariants _ _ d Hreach) as [Hprof _].
  destruct (Hprof user_id u Hu) as [other Hp].
  destruct (reachable_messages_well_formed _ _ d Hreach) as [Hids _].
  unfold message_rows in Hids. rewrite Hm in Hids.
  eexists. rewrite (thread_renders user_id uid d other rows Hne Hp Hm).
  unfold Sqlite.limit. do 2 f_equal.
  apply order_by_sorted_id.
  apply strongly_sorted_filter.
  assert (Hs : StronglySorted Z.le (map Message.id rows))
    by (rewrite Hids; apply strongly_sorted_seq).
  apply strongly_sorted_map in Hs. clear -Hs.
  induction Hs as [|x l Hs IH Hall]; constructor; [exact IH|].
  eapply Forall_impl; [|exact Hall]. intros y Hy. now apply Z.leb_le.
Qed.

Lemma reachable_thread_in_sending_order_witness :
  exists other_name,
    fst (thread 2 1 demo_db)
    = RenderThread
        [Message.mk 1 2 1 "Hello Ann" "2024-05-04T08:00:00" 0]
        2 other_name 1.
Proof.
  apply (reachable_thread_in_sending_order demo_sanitize demo_hash demo_db
           1 2 (message_rows demo_db) demo_db_reachable);
    try reflexivity; try discriminate;
    (split; [discriminate | eexists; reflexivity]).
Defined.

(* ================================================================== *)
(** * The inbox                                                        *)
(* ================================================================== *)

Lemma group_value_add (k i : Z) (g : list (Z * Z)) (k' : Z) :
  group_value k' (add_to_group k i g)
  = if k' =? k
    then Some (match group_value k g with Some j => Z.max i j | None => i end)
    else group_value k' g.
Proof.
  unfold group_value. induction g as [|[k0 j] g IH]; simpl.
  - rewrite (Z.eqb_sym k k'). destruct (k' =? k); reflexivity.
  - destruct (Z.eqb_spec k0 k) as [->|Hk0]; simpl.
    + destruct (Z.eqb_spec k k') as [->|Hk]; simpl.
      * now rewrite Z.eqb_refl.
      * destruct (Z.eqb_spec k' k); [congruence | reflexivity].
    + destruct (Z.eqb_spec k0 k') as [->|Hk]; simpl.
      * destruct (Z.eqb_spec k' k); [congruence | reflexivity].
      * exact IH.
Qed.

Lemma add_to_group_keys (k i : Z) (g : list (Z * Z)) (k' : Z) :
  In k' (map fst (add_to_group k i g)) <-> k' = k \/ In k' (map fst g).
Proof.
  induction g as [|[k0 j] g IH]; simpl; [intuition|].
  destruct (Z.eqb_spec k0 k) as [->|Hk0]; simpl; [intuition|].
  rewrite IH. intuition.
Qed.

Lemma add_to_group_nodup (k i : Z) (g : list (Z * Z)) :
  NoDup (map fst g) -> NoDup (map fst (add_to_group k i g)).
Proof.
  induction g as [|[k0 j] g IH]; simpl; intros H.
  - constructor; [intros [] | constructor].
  - apply NoDup_cons_iff in H as [Hnotin Hnd].
    destruct (Z.eqb_spec k0 k) as [->|Hk0]; simpl.
    + now constructor.
    + constructor; [|now apply IH].
      rewrite add_to_group_keys. intros [E | E]; [congruence | contradiction].
Qed.

Lemma group_by_max_nodup (l : list (Z * Z)) :
  NoDup (map fst (group_by_max l)).
Proof.
  induction l as [|[k i] l IH]; simpl; [constructor|].
  now apply add_to_group_nodup.
Qed.

Lemma group_by_max_value (k : Z) (l : list (Z * Z)) :
  group_value k (group_by_max l) = max_for k l.
Proof.
  induction l as [|[k0 i] l IH]; simpl; [reflexivity|].
  rewrite group_value_add, (Z.eqb_sym k k0).
  destruct (k0 =? k) eqn:E; [|exact IH].
  apply Z.eqb_eq in E. subst k0. now rewrite IH.
Qed.

Lemma nodup_group_value (g : list (Z * Z)) (k v : Z) :
  NoDup (map fst g) ->
  (In (k, v) g <-> group_value k g = Some v).
Proof.
  unfold group_value. induction g as [|[k0 j] g IH]; simpl; intros H.
  - split; [intros [] | discriminate].
  - apply NoDup_cons_iff in H as [Hnotin Hnd].
    destruct (Z.eqb_spec k0 k) as [->|Hk0]; simpl.
    + split.
      * intros [E | Hin]; [congruence|].
        exfalso. apply Hnotin. apply (in_map fst) in Hin. exact Hin.
      * intros E. left. congruence.
    + rewrite <- (IH Hnd). split; [intros [E | Hin]; [congruence | exact Hin]
                                  | now right].
Qed.

Lemma max_for_some (k v : Z) (l : list (Z * Z)) :
  max_for k l = Some v <->
  In (k, v) l /\ forall j, In (k, j) l -> j <= v.
Proof.
  revert v. induction l as [|[k0 i] l IH]; intros v; simpl.
  - split; [discriminate | intros [[] _]].
  - destruct (Z.eqb_spec k0 k) as [->|Hk0].
    + destruct (max_for k l) as [j|] eqn:Ej.
      * destruct (proj1 (IH j) eq_refl) as [Hin Hmax]. split.
        -- intros E. injection E as <-. split.
           ++ destruct (Z.max_spec i j) as [[_ ->] | [_ ->]]; auto.
           ++ intros j' [E | Hj']; [injection E as <-; lia|].
              specialize (Hmax j' Hj'). lia.
        -- intros [[E | Hv] Hall].
           ++ injection E as <-. f_equal.
              specialize (Hall j (or_intror Hin)). lia.
           ++ f_equal. specialize (Hmax v Hv).
              pose proof (Hall i (or_introl eq_refl)) as Hi.
              pose proof (Hall j (or_intror Hin)) as Hj. lia.
      * assert (Hnone : forall j, ~ In (k, j) l).
        { intros j Hj. clear IH. induction l as [|[k1 i1] l IHl];
            [destruct Hj|]. simpl in Ej.
          destruct (Z.eqb_spec k1 k) as [->|Hk1]; [discriminate|].
          destruct Hj as [E | Hj]; [congruence | now apply IHl]. }
        split.
        -- intros E. injection E as <-. split; [now left|].
           intros j [E | Hj]; [injection E as <-; lia|].
           destruct (Hnone j Hj).
        -- intros [[E | Hv] _]; [congruence | destruct (Hnone v Hv)].
    + rewrite IH. split.
      * intros [Hin Hall]. split; [now right|].
        intros j [E | Hj]; [congruence | now apply Hall].
      * intros [[E | Hin] Hall]; [congruence|]. split; [exact Hin|].
        intros j Hj. apply Hall. now right.
Qed.

Lemma involves_other_between (uid k : Z) (m : Message.t) :
  involves uid m = true /\ other_of uid m = k <-> between uid k m = true.
Proof.
  unfold involves, other_of, between.
  destruct (Z.eqb_spec (Message.sender_id m) uid) as [Es|Es];
    destruct (Z.eqb_spec (Message.receiver_id m) uid) as [Er|Er];
    destruct (Z.eqb_spec (Message.receiver_id m) k) as [Erk|Erk];
    destruct (Z.eqb_spec (Message.sender_id m) k) as [Esk|Esk];
    simpl; intuition (try congruence; try discriminate).
Qed.

(** The rows of the first query of [inbox()], read off the messages. *)
Lemma inbox_rows_spec (uid : Z) (rows : list Message.t) :
  NoDup (map fst (inbox_rows uid rows))
  /\ StronglySorted (fun a b => snd b <= snd a) (inbox_rows uid rows)
  /\ forall k i,
       In (k, i) (inbox_rows uid rows) <->
       (exists m, In m rows /\ between uid k m = true /\ Message.id m = i)
       /\ (forall m, In m rows -> between uid k m = true ->
                     Message.id m <= i).
Proof.
  unfold inbox_rows.
  set (keyed := map (fun m => (other_of uid m, Message.id m))
                    (filter (involves uid) rows)).
  assert (Hperm : Permutation
                    (Sqlite.order_by last_msg_id_desc (group_by_max keyed))
                    (group_by_max keyed)) by apply order_by_perm.
  assert (Hkeyed : forall k j,
             In (k, j) keyed <->
             exists m, In m rows /\ between uid k m = true
                       /\ Message.id m = j).
  { intros k j. unfold keyed. rewrite in_map_iff. split.
    - intros (m & E & Hin). injection E as E1 E2.
      apply filter_In in Hin as [Hin Hinv].
      exists m. split; [exact Hin|]. split; [|exact E2].
      apply involves_other_between. auto.
    - intros (m & Hin & Hb & E).
      apply involves_other_between in Hb as [Hinv Ho].
      exists m. split; [now rewrite Ho, E|].
      apply filter_In. auto. }
  split; [|split].
  - eapply Permutation_NoDup;
      [apply Permutation_sym, Permutation_map, Hperm|].
    apply group_by_max_nodup.
  - assert (Hs : StronglySorted (fun a b => last_msg_id_desc a b = true)
                   (Sqlite.order_by last_msg_id_desc (group_by_max keyed))).
    { apply order_by_sorted.
      - intros a b. unfold last_msg_id_desc.
        destruct (Z.leb_spec (snd b) (snd a));
          [now left | right; apply Z.leb_le; lia].
      - intros a b c. unfold last_msg_id_desc. rewrite !Z.leb_le. lia. }
    clear -Hs. induction Hs as [|x l Hs IH Hall]; constructor; [exact IH|].
    eapply Forall_impl; [|exact Hall]. intros y Hy. now apply Z.leb_le.
  - intros k i.
    rewrite (Permutation_in' (eq_refl (k, i)) Hperm) at 1.
    rewrite (nodup_group_value _ k i (group_by_max_nodup keyed)).
    rewrite group_by_max_value, max_for_some, Hkeyed.
    split; intros [H1 H2]; (split; [exact H1|]).
    + intros m Hin Hb. apply H2. apply Hkeyed. eauto.
    + intros j Hj. apply Hkeyed in Hj as (m & Hin & Hb & <-). now apply H2.
Qed.

Lemma group_by_max_keys (l : list (Z * Z)) (k : Z) :
  In k (map fst (group_by_max l)) <-> In k (map fst l).
Proof.
  induction l as [|[k0 i] l IH]; simpl; [tauto|].
  rewrite add_to_group_keys, IH. intuition.
Qed.

Lemma inbox_rows_keys (uid : Z) (rows : list Message.t) (k : Z) :
  In k (map fst (inbox_rows uid rows)) <->
  exists m, In m rows /\ between uid k m = true.
Proof.
  unfold inbox_rows.
  rewrite (Permutation_in' (eq_refl k)
             (Permutation_map fst (order_by_perm last_msg_id_desc _))).
  rewrite group_by_max_keys, map_map. simpl. rewrite in_map_iff. split.
  - intros (m & <- & Hin). apply filter_In in Hin as [Hin Hinv].
    exists m. split; [exact Hin|]. apply involves_other_between. auto.
  - intros (m & Hin & Hb). apply involves_other_between in Hb as [Hinv Ho].
    exists m. split; [exact Ho|]. apply filter_In. auto.
Qed.

Lemma inbox_page (uid : Z) (d : db) (rows : list Message.t) :
  messages d = InitDbMessages rows ->
  inbox uid d = InboxPage (map (inbox_entry d rows) (inbox_rows uid rows)).
Proof. unfold inbox. now intros ->. Qed.

Lemma inbox_other_ids (d : db) (rows : list Message.t)
    (pairs : list (Z * Z)) :
  map other_id (map (inbox_entry d rows) pairs) = map fst pairs.
Proof. rewrite map_map. now apply map_ext. Qed.

(** X17.  The inbox lists each counterpart once, and lists exactly the
    users with whom the thread view has a message to show: those the user
    has written to or received from.  Where no message goes from a user to
    that same user, as in every database the program builds, the user is
    not listed in the own inbox. *)
Theorem inbox_lists_counterparts (uid : Z) (d : db) (rows : list Message.t) :
  messages d = InitDbMessages rows ->
  exists threads,
    inbox uid d = InboxPage threads
    /\ NoDup (map other_id threads)
    /\ (forall k, In k (map other_id threads) <->
                  exists m, In m rows /\ between uid k m = true)
    /\ (no_self_message d -> ~ In uid (map other_id threads)).
Proof.
  intros Hm. eexists. split; [exact (inbox_page uid d rows Hm)|].
  rewrite inbox_other_ids. split; [|split].
  - apply inbox_rows_spec.
  - apply inbox_rows_keys.
  - intros Hself Hin. apply inbox_rows_keys in Hin as (m & Hin & Hb).
    apply (Hself m); [unfold message_rows; now rewrite Hm|].
    unfold between in Hb. rewrite orb_diag in Hb.
    apply andb_true_iff in Hb as [H1 H2].
    apply Z.eqb_eq in H1, H2. congruence.
Qed.

(** Ann's inbox in the small database: Cy, then Bo. *)
Lemma inbox_lists_counterparts_witness :
  exists threads,
    inbox 1 example_db = InboxPage threads
    /\ map other_id threads = [3; 2]
    /\ NoDup (map other_id threads).
Proof.
  destruct (inbox_lists_counterparts 1 example_db (message_rows example_db)
              eq_refl) as (threads & H1 & H2 & _).
  exists threads. split; [exact H1|]. split; [|exact H2].
  assert (E : InboxPage threads
              = InboxPage (map (inbox_entry example_db
                                  (message_rows example_db))
                             (inbox_rows 1 (message_rows example_db))))
    by (rewrite <- H1; reflexivity).
  injection E as ->. reflexivity.
Defined.

Lemma find_by_unique_id (rows : list Message.t) (m : Message.t) :
  NoDup (map Message.id rows) -> In m rows ->
  find (fun x => Message.id x =? Message.id m) rows = Some m.
Proof.
  induction rows as [|x rows IH]; simpl; intros Hnd Hin; [destruct Hin|].
  apply NoDup_cons_iff in Hnd as [Hnotin Hnd].
  destruct Hin as [-> | Hin]; [now rewrite Z.eqb_refl|].
  destruct (Z.eqb_spec (Message.id x) (Message.id m)) as [E|_];
    [|now apply IH].
  exfalso. apply Hnotin. rewrite E. now apply in_map.
Qed.

(** X18.  With message ids unique, as a primary key makes them, each
    entry of the inbox shows the latest message exchanged with that
    counterpart, the one with the greatest id between the two, with its
    time and body, under the counterpart's display name; and the entries
    come by descending id of that latest message. *)
Theorem inbox_shows_latest (uid : Z) (d : db) (rows : list Message.t) :
  messages d = InitDbMessages rows ->
  NoDup (map Message.id rows) ->
  exists pairs,
    inbox uid d = InboxPage (map (inbox_entry d rows) pairs)
    /\ StronglySorted (fun a b => snd b <= snd a) pairs
    /\ forall k i, In (k, i) pairs ->
         exists m,
           In m rows /\ between uid k m = true /\ Message.id m = i
           /\ (forall m', In m' rows -> between uid k m' = true ->
                          Message.id m' <= Message.id m)
           /\ inbox_entry d rows (k, i)
              = mkThread k (display_name (fetch_profile d k) k)
                  (Message.created_at m) (Message.body m).
Proof.
  intros Hm Hnd. exists (inbox_rows uid rows).
  split; [exact (inbox_page uid d rows Hm)|].
  destruct (inbox_rows_spec uid rows) as (_ & Hs & Hspec).
  split; [exact Hs|].
  intros k i Hin. apply Hspec in Hin as [(m & Hin & Hb & <-) Hmax].
  exists m. repeat (split; [assumption|]).
  unfold inbox_entry. simpl. now rewrite (find_by_unique_id rows m Hnd Hin).
Qed.

Lemma inbox_shows_latest_witness :
  inbox 1 example_db
  = InboxPage
      [ mkThread 3 "Cy Diaz" "2024-05-04T09:00:00" "Hi from Cy";
        mkThread 2 "Bo Chen" "2024-05-04T08:06:00" "Are you free?" ]
  /\ exists pairs,
      inbox 1 example_db
      = InboxPage (map (inbox_entry example_db (message_rows example_db))
                     pairs)
      /\ StronglySorted (fun a b => snd b <= snd a) pairs.
Proof.
  split; [reflexivity|].
  assert (Hnd : NoDup (map Message.id (message_rows example_db))).
  { simpl. repeat constructor; simpl; intuition discriminate. }
  destruct (inbox_shows_latest 1 example_db (message_rows example_db)
              eq_refl Hnd) as (pairs & H1 & H2 & _).
  exists pairs. auto.
Defined.

(* ================================================================== *)
(** * Profiles, continued                                              *)
(* ================================================================== *)

(** X19.  The profile form creates the user's row when it is missing and
    only then: for a user of [users], a GET shows a row that is the
    user's, stored from then on; rows that existed are left as they were
    (the whole database is, when the user had a row), and a second GET
    shows the same row and changes nothing. *)
Theorem profile_edit_get_creates_once
    (secure_filename : string -> string)
    (photo photo' : option FileStorage) (form form' : fields)
    (now now' : string) (timestamp timestamp' : Z)
    (updated_at updated_at' : string) (uid : Z) (d : db) (u : User.t) :
  fetch_user d uid = Some u ->
  let d' := snd (profile_edit secure_filename GET photo form now timestamp
                   updated_at uid d) in
  exists p,
    fst (profile_edit secure_filename GET photo form now timestamp
           updated_at uid d) = RenderProfileEdit (Some p)
    /\ fetch_profile d' uid = Some p
    /\ Profile.user_id p = uid
    /\ users d' = users d
    /\ messages d' = messages d
    /\ (forall x q, fetch_profile d x = Some q -> fetch_profile d' x = Some q)
    /\ (forall q, fetch_profile d uid = Some q -> d' = d)
    /\ profile_edit secure_filename GET photo' form' now' timestamp'
         updated_at' uid d' = (RenderProfileEdit (Some p), d').
Proof.
  intros Hu. unfold profile_edit.
  destruct (fetch_profile d uid) as [q|] eqn:Hq; simpl.
  - exists q. rewrite Hq. simpl. rewrite Hq.
    repeat split; auto. apply (fetch_profile_user_id d uid q Hq).
  - unfold insert_profile. rewrite Hq, Hu. simpl.
    assert (E : fetch_profile
                  (mkDb (users d) (profiles d ++ [Profile.empty uid now])
                     (messages d)) uid = Some (Profile.empty uid now)).
    { rewrite fetch_profile_append, Hq. simpl. now rewrite Z.eqb_refl. }
    exists (Profile.empty uid now). rewrite E. simpl. rewrite E.
    repeat split; auto.
    + intros x q Hx. now rewrite fetch_profile_append, Hx.
    + discriminate.
Qed.

(** A user without a row: the form inserts it. *)
Lemma profile_edit_get_creates_once_witness :
  fetch_user lone_user_db 1
  = Some (User.mk 1 "ann@uni.edu" "h1" "2024-05-01T10:00:00")
  /\ exists p,
      fst (profile_edit demo_sanitize GET None [] "2024-06-01T00:00:00" 0
             "" 1 lone_user_db) = RenderProfileEdit (Some p)
      /\ fetch_profile
           (snd (profile_edit demo_sanitize GET None [] "2024-06-01T00:00:00"
                   0 "" 1 lone_user_db)) 1 = Some p
      /\ Profile.user_id p = 1.
Proof.
  split; [reflexivity|].
  destruct (profile_edit_get_creates_once demo_sanitize None None [] []
              "2024-06-01T00:00:00" "2024-06-02T00:00:00" 0 0 "" "" 1
              lone_user_db _ eq_refl) as (p & H1 & H2 & H3 & _).
  exists p. auto.
Defined.

(** X20.  A profile POST whose photo part raises no error but which
    leaves a required field blank is answered with the warning and a
    redirect to the form, and the database of a user who has a row is
    left as it was. *)
Theorem profile_edit_blank_required_field
    (secure_filename : string -> string)
    (photo : option FileStorage) (form : fields)
    (now : string) (timestamp : Z) (updated_at : string) (uid : Z) (d : db)
    (old : Profile.t) :
  fetch_profile d uid = Some old ->
  (forall raw, uploads_file secure_filename photo raw ->
               has_allowed_extension (secure_filename raw)) ->
  ~ passes_validation form ->
  profile_edit secure_filename POST photo form now timestamp updated_at uid d
  = (Redirect ep_profile_edit
       "Please fill all required fields (device access is optional)."
       "warning", d).
Proof.
  intros Hold Hphoto Hval. unfold profile_edit. rewrite Hold.
  assert (Hv : Py.truthy (submitted form "full_name")
               && Py.truthy (submitted form "highest_qualification")
               && Py.truthy (submitted form "country")
               && Py.truthy (submitted form "university")
               && Py.truthy (submitted form "position")
               && Py.truthy (submitted form "bio")
               && Py.truthy (submitted form "skills") = false).
  { destruct (_ && Py.truthy (submitted form "skills")) eqn:E;
      [|reflexivity].
    exfalso. apply Hval. now apply validation_passes_iff. }
  unfold submitted in Hv.
  destruct (posted_photo_cases secure_filename photo uid timestamp)
    as [[_ ->] | [(raw & _ & _ & ->) | (raw & Hup & Hbad & _)]];
    [| |exfalso; exact (Hbad (Hphoto raw Hup))];
    cbv beta iota zeta; rewrite Hv; reflexivity.
Qed.

(** Bo sends the form with an empty biography. *)
Lemma profile_edit_blank_required_field_witness :
  fetch_profile example_db 2 = Some bo
  /\ ~ passes_validation (("bio", "   ") :: demo_form)
  /\ profile_edit demo_sanitize POST None (("bio", "   ") :: demo_form)
       "2024-06-01T00:00:00" 1717200000 "2024-06-01T00:00:05" 2 example_db
     = (Redirect ep_profile_edit
          "Please fill all required fields (device access is optional)."
          "warning", example_db).
Proof.
  assert (H1 : fetch_profile example_db 2 = Some bo) by reflexivity.
  assert (H2 : ~ passes_validation (("bio", "   ") :: demo_form)).
  { intros (_ & _ & _ & _ & _ & H & _). now apply H. }
  split; [exact H1|]. split; [exact H2|].
  apply (profile_edit_blank_required_field demo_sanitize None _ _ _ _ 2
           example_db bo H1); [|exact H2].
  intros raw (H & _). discriminate.
Defined.

Lemma complete_after_validation (p : Profile.t) (form : fields) :
  passes_validation form ->
  Profile.full_name p = Some (submitted form "full_name") ->
  Profile.highest_qualification p
  = Some (submitted form "highest_qualification") ->
  Profile.country p = Some (submitted form "country") ->
  Profile.university p = Some (submitted form "university") ->
  Profile.position p = Some (submitted form "position") ->
  Profile.bio p = Some (submitted form "bio") ->
  Profile.skills p = Some (submitted form "skills") ->
  profile_is_complete (Some p) = true.
Proof.
  intros (V1 & V2 & V3 & V4 & V5 & V6 & V7) E1 E2 E3 E4 E5 E6 E7.
  rewrite profile_is_complete_unfold, E1, E2, E3, E4, E5, E6, E7.
  unfold submitted in *. rewrite !normalize_text_idempotent.
  apply truthy_true_iff in V1, V2, V3, V4, V5, V6, V7.
  now rewrite V1, V2, V3, V4, V5, V6, V7.
Qed.

(** X21.  The two checks of completeness agree: after a profile POST
    that was saved, which is one that passed the validation of the form,
    the profile card of that user reports the stored profile as
    complete. *)
Theorem saved_profile_is_complete
    (secure_filename : string -> string)
    (photo : option FileStorage) (form : fields)
    (now : string) (timestamp : Z) (updated_at : string) (uid : Z) (d : db) :
  fst (profile_edit secure_filename POST photo form now timestamp updated_at
         uid d) = saved ->
  exists stored,
    profile_card uid
      (snd (profile_edit secure_filename POST photo form now timestamp
              updated_at uid d))
    = ProfileCardPage stored true.
Proof.
  intros Hsaved.
  destruct (profile_edit_saved secure_filename photo form now timestamp
              updated_at uid d Hsaved) as (_ & _ & _ & _ & _ & Hval & _).
  destruct (profile_edit_stored secure_filename photo form now timestamp
              updated_at uid d Hsaved) as (pf & _ & Hstored).
  eexists. unfold profile_card. rewrite Hstored. f_equal.
  now apply (complete_after_validation _ form Hval).
Qed.

Lemma saved_profile_is_complete_witness :
  exists stored,
    profile_card 2
      (snd (profile_edit demo_sanitize POST None demo_form
              "2024-06-01T00:00:00" 1717200000 "2024-06-01T00:00:05" 2
              example_db))
    = ProfileCardPage stored true.
Proof.
  apply (saved_profile_is_complete demo_sanitize None demo_form
           "2024-06-01T00:00:00" 1717200000 "2024-06-01T00:00:05" 2
           example_db).
  reflexivity.
Defined.

(** X22.  A new account starts incomplete: in a database the program
    built, right after a registration that went through the profile card
    of the new user shows the empty row and reports it as not complete. *)
Theorem new_account_is_incomplete
    (secure_filename : string -> string)
    (generate_password_hash : string -> string -> string)
    (form : fields) (salt now : string) (d : db)
    (message category : string) :
  reachable secure_filename generate_password_hash d ->
  fst (register generate_password_hash POST form salt now d)
  = Redirect ep_profile_edit message category ->
  profile_card (Sqlite.next_rowid (map User.id (users d)))
    (snd (register generate_password_hash POST form salt now d))
  = ProfileCardPage
      (Profile.empty (Sqlite.next_rowid (map User.id (users d))) now) false.
Proof.
  intros Hreach Hok.
  destruct (register_effect_row generate_password_hash POST form salt now d)
    as [E | (_ & _ & _ & E)].
  - exfalso. revert Hok E. unfold register. cbv zeta.
    destruct (negb _ || negb _); [discriminate|].
    destruct (select_user_by_email d _); [discriminate|].
    unfold insert_user.
    destruct (insert_profile _ _ now) as [d2|e] eqn:Ei; [|discriminate].
    apply insert_profile_inl in Ei as (_ & _ & ->). simpl.
    intros _ E. apply (f_equal users) in E. simpl in E.
    apply (f_equal (@List.length _)) in E. rewrite length_app in E.
    simpl in E. lia.
  - rewrite E. unfold profile_card.
    assert (Hnone : fetch_profile d (Sqlite.next_rowid (map User.id (users d)))
                    = None).
    { destruct (fetch_profile d _) as [p|] eqn:Ep; [|reflexivity].
      apply (reachable_every_profile_has_user secure_filename
               generate_password_hash d Hreach) in Ep as [u Hu].
      rewrite fetch_user_next_rowid in Hu. discriminate. }
    unfold fetch_profile in *. simpl. rewrite find_app_split, Hnone. simpl.
    now rewrite Z.eqb_refl.
Qed.

Lemma new_account_is_incomplete_witness :
  profile_card 3
    (snd (register demo_hash POST
            [("email", "cy@uni.edu"); ("password", "pw3")]
            "s3" "2024-05-05T00:00:00" demo_db))
  = ProfileCardPage (Profile.empty 3 "2024-05-05T00:00:00") false.
Proof.
  apply (new_account_is_incomplete demo_sanitize demo_hash
           [("email", "cy@uni.edu"); ("password", "pw3")]
           "s3" "2024-05-05T00:00:00" demo_db
           "Account created. Please complete your profile." "success"
           demo_db_reachable).
  reflexivity.
Defined.

(** X23.  In a database the program built, whenever the page of a
    profile offers its message form ([can_message]), a message with a
    body that is not blank, sent to that profile, is accepted; the form
    is withheld exactly on the user's own page, the one case
    [send_message] turns away as writing to oneself. *)
Theorem offered_message_form_is_accepted
    (secure_filename : string -> string)
    (generate_password_hash : string -> string -> string)
    (d : db) (uid user_id : Z) (p : Profile.t) (can_message : bool)
    (rows : list Message.t) (form : fields) (now : string) :
  reachable secure_filename generate_password_hash d ->
  authenticated d uid ->
  view_profile user_id uid d = ViewProfilePage p can_message ->
  messages d = InitDbMessages rows ->
  submitted form "body" <> "" ->
  (can_message = true ->
   fst (send_message user_id form now uid d)
   = Redirect (ep_thread user_id) "Message sent." "success")
  /\ (can_message = false ->
      uid = user_id
      /\ send_message user_id form now uid d
         = (Redirect (ep_view_profile user_id)
              "You cannot message yourself." "warning", d)).
Proof.
  intros Hreach Hauth Hview Hm Hbody.
  unfold view_profile in Hview.
  destruct (fetch_profile d user_id) as [q|] eqn:Hq; [|discriminate].
  injection Hview as -> <-.
  destruct (send_message_init_db user_id form now uid d rows Hm Hauth)
    as (Hself & _ & _ & Hsend).
  split.
  - intros Hc. apply negb_true_iff, Z.eqb_neq in Hc.
    rewrite Hsend; [reflexivity | exact Hc
                    | exact (submitted_not_blank form "body" Hbody) |].
    destruct (reachable_every_profile_has_user secure_filename
                generate_password_hash d Hreach user_id p Hq) as [v ->].
    discriminate.
  - intros Hc. apply negb_false_iff, Z.eqb_eq in Hc. auto.
Qed.

Lemma offered_message_form_is_accepted_witness :
  view_profile 2 1 demo_db
  = ViewProfilePage (Profile.empty 2 "2024-05-01T10:01:00") true
  /\ fst (send_message 2 [("body", "Hello Bo")] "2024-05-04T09:00:00" 1
            demo_db)
     = Redirect (ep_thread 2) "Message sent." "success".
Proof.
  assert (Hv : view_profile 2 1 demo_db
               = ViewProfilePage (Profile.empty 2 "2024-05-01T10:01:00") true)
    by reflexivity.
  split; [exact Hv|].
  assert (Ha : authenticated demo_db 1).
  { split; [discriminate | eexists; reflexivity]. }
  assert (Hb : submitted [("body", "Hello Bo")] "body" <> "").
  { vm_compute. discriminate. }
  exact (proj1 (offered_message_form_is_accepted demo_sanitize demo_hash
                  demo_db 1 2 _ true (message_rows demo_db)
                  [("body", "Hello Bo")] "2024-05-04T09:00:00"
                  demo_db_reachable Ha Hv eq_refl Hb) eq_refl).
Defined.

(* ================================================================== *)
(** * Search, continued                                                *)
(* ================================================================== *)

Lemma search_rows_asked_for (uid : Z) (university position q : string)
    (d : db) (p : Profile.t) :
  In p (search_rows uid university position q d)
  <-> In p (profiles d) /\ asked_for uid university position q p.
Proof.
  unfold search_rows, asked_for. rewrite filter_In, search_where_keeps.
  reflexivity.
Qed.

Lemma search_select_complete (uid : Z) (university position q : string)
    (d : db) :
  (forall p, In p (search_select uid university position q d) ->
             In p (profiles d) /\ asked_for uid university position q p)
  /\ (forall p, In p (profiles d) ->
                asked_for uid university position q p ->
                In p (search_select uid university position q d)
                \/ (List.length (search_select uid university position q d)
                    = 200%nat
                    /\ forall a,
                         In a (search_select uid university position q d) ->
                         not_older a p)).
Proof.
  split.
  - intros p Hin. apply search_select_in in Hin.
    now apply search_rows_asked_for.
  - intros p Hin Hask. unfold search_select.
    destruct (limit_order_by updated_at_desc updated_at_desc_total
                updated_at_desc_trans 200
                (search_rows uid university position q d))
      as (rest & Hperm & Hlow & Hfull & _).
    assert (Hp : In p (search_rows uid university position q d))
      by now apply search_rows_asked_for.
    apply (Permutation_in _ (Permutation_sym Hperm)) in Hp.
    apply in_app_or in Hp as [Hp | Hp]; [now left | right].
    split.
    + apply Hfull. intros E. rewrite E in Hp. destruct Hp.
    + intros a Ha. exact (Hlow a p Ha Hp).
Qed.

(** X24.  A submitted search misses a row it was asked for only when it
    is full: every listed row is a row of [profiles] that was asked for
    (not the searcher's own; university and position exactly as typed,
    once normalised; the keyword in one of the keyword columns), and a
    row asked for that is not listed means that 200 rows are listed and
    that none of them is older than the missing one. *)
Theorem search_lists_what_was_asked_for (args : fields) (uid : Z) (d : db) :
  get args "do" = Some "1" ->
  exists results,
    search args uid d = (RenderSearch true results, d)
    /\ (forall p, In p results ->
                  In p (profiles d)
                  /\ asked_for uid (submitted args "university")
                       (submitted args "position") (submitted args "q") p)
    /\ (forall p, In p (profiles d) ->
                  asked_for uid (submitted args "university")
                    (submitted args "position") (submitted args "q") p ->
                  In p results
                  \/ (List.length results = 200%nat
                      /\ forall a, In a results -> not_older a p)).
Proof.
  intros Hdo. rewrite (search_with_do args uid d Hdo).
  eexists. split; [reflexivity|]. apply search_select_complete.
Qed.

(** User 1 searches the small database for "python". *)
Lemma search_lists_what_was_asked_for_witness :
  get [("q", "python"); ("do", "1")] "do" = Some "1"
  /\ exists results,
      search [("q", "python"); ("do", "1")] 1 example_db
      = (RenderSearch true results, example_db)
      /\ In bo results.
Proof.
  split; [reflexivity|].
  destruct (search_lists_what_was_asked_for
              [("q", "python"); ("do", "1")] 1 example_db eq_refl)
    as (results & Hs & _ & Hall).
  exists results. split; [exact Hs|].
  injection Hs as <-. left. reflexivity.
Defined.

(** X25.  A saved profile can be found: after a profile POST that was
    saved, a search by another user for the university of the form
    alone, typed with any spacing that normalises to the same text,
    lists the stored row, unless 200 rows updated no earlier are
    listed. *)
Theorem saved_profile_found_by_university
    (secure_filename : string -> string)
    (photo : option FileStorage) (form args : fields)
    (now : string) (timestamp : Z) (updated_at : string)
    (uid other : Z) (d : db) :
  fst (profile_edit secure_filename POST photo form now timestamp updated_at
         uid d) = saved ->
  other <> uid ->
  get args "do" = Some "1" ->
  submitted args "university" = submitted form "university" ->
  submitted args "position" = "" ->
  submitted args "q" = "" ->
  exists stored results,
    fetch_profile
      (snd (profile_edit secure_filename POST photo form now timestamp
              updated_at uid d)) uid = Some stored
    /\ fst (search args other
              (snd (profile_edit secure_filename POST photo form now
                      timestamp updated_at uid d)))
       = RenderSearch true results
    /\ (In stored results
        \/ (List.length results = 200%nat
            /\ forall a, In a results -> not_older a stored)).
Proof.
  intros Hsaved Hne Hdo Hu Hp Hq.
  destruct (profile_edit_stored secure_filename photo form now timestamp
              updated_at uid d Hsaved) as (pf & _ & Hstored).
  rewrite (search_with_do args other _ Hdo).
  eexists _, _. split; [exact Hstored|]. split; [reflexivity|].
  fold (submitted args "university") (submitted args "position")
       (submitted args "q").
  apply search_select_complete.
  - unfold fetch_profile in Hstored. now apply find_some in Hstored.
  - unfold asked_for. simpl. rewrite Hu, Hp, Hq. auto.
Qed.

(** Bo saves the form; Ann searches for his university, typed with blanks
    around and between the words. *)
Lemma saved_profile_found_by_university_witness :
  exists stored results,
    fetch_profile
      (snd (profile_edit demo_sanitize POST None demo_form
              "2024-06-01T00:00:00" 1717200000 "2024-06-01T00:00:05" 2
              example_db)) 2 = Some stored
    /\ fst (search [("university", " Monash   University "); ("do", "1")] 1
              (snd (profile_edit demo_sanitize POST None demo_form
                      "2024-06-01T00:00:00" 1717200000 "2024-06-01T00:00:05"
                      2 example_db)))
       = RenderSearch true results
    /\ (In stored results
        \/ (List.length results = 200%nat
            /\ forall a, In a results -> not_older a stored)).
Proof.
  apply (saved_profile_found_by_university demo_sanitize None demo_form
           [("university", " Monash   University "); ("do", "1")]
           "2024-06-01T00:00:00" 1717200000 "2024-06-01T00:00:05" 2 1
           example_db); try reflexivity.
  discriminate.
Defined.

(* ================================================================== *)
(** * Sessions                                                         *)
(* ================================================================== *)

Lemma find_user_by_unique_id (us : list User.t) (u : User.t) :
  NoDup (map User.id us) -> In u us ->
  find (fun x => User.id x =? User.id u) us = Some u.
Proof.
  induction us as [|x us IH]; simpl; intros Hnd Hin; [destruct Hin|].
  apply NoDup_cons_iff in Hnd as [Hnotin Hnd].
  destruct Hin as [-> | Hin]; [now rewrite Z.eqb_refl|].
  destruct (Z.eqb_spec (User.id x) (User.id u)) as [E|_];
    [|now apply IH].
  exfalso. apply Hnotin. rewrite E. now apply in_map.
Qed.

Lemma unique_by_email (us : list User.t) (u v : User.t) :
  NoDup (map User.email us) -> In u us -> In v us ->
  User.email u = User.email v -> u = v.
Proof.
  induction us as [|x us IH]; simpl; intros Hnd Hu Hv E; [destruct Hu|].
  apply NoDup_cons_iff in Hnd as [Hnotin Hnd].
  destruct Hu as [-> | Hu], Hv as [-> | Hv]; auto.
  - exfalso. apply Hnotin. rewrite E. now apply in_map.
  - exfalso. apply Hnotin. rewrite <- E. now apply in_map.
Qed.

Lemma reachable_user_authenticated
    (secure_filename : string -> string)
    (generate_password_hash : string -> string -> string)
    (d : db) (u : User.t) :
  reachable secure_filename generate_password_hash d ->
  In u (users d) ->
  fetch_user d (User.id u) = Some u /\ authenticated d (User.id u).
Proof.
  intros Hreach Hin.
  destruct (reachable_users_profiles_aligned secure_filename
              generate_password_hash d Hreach) as [Hids _].
  assert (Hf : fetch_user d (User.id u) = Some u).
  { apply find_user_by_unique_id; [|exact Hin].
    rewrite Hids. apply ids_upto_nodup. }
  split; [exact Hf|]. split; [|eauto].
  assert (Hi : In (User.id u) (ids_upto (List.length (users d)))).
  { rewrite <- Hids. now apply in_map. }
  apply ids_upto_in in Hi. lia.
Qed.

(** X26.  Logging in, on a database the program built: a POST either
    leaves the session as it was and answers "Invalid email or
    password.", or opens a session for the one account that has the
    address of the form as its key and whose stored hash the verifier
    accepts for the password of the form; that session passes
    [login_required] on every protected view.  No session is opened
    when the verifier turns the password down for every account. *)
Theorem login_opens_session_of_the_account
    (secure_filename : string -> string)
    (generate_password_hash : string -> string -> string)
    (check_password_hash : string -> string -> bool)
    (form args : fields) (s : session) (d : db) :
  reachable secure_filename generate_password_hash d ->
  login check_password_hash POST form args s d
  = (AuthRedirect ep_login "Invalid email or password." "error", s)
    /\ (forall u, In u (users d) -> User.email u = email_of form ->
                  check_password_hash (User.password_hash u)
                    (password_of form) = false)
  \/ exists u,
       In u (users d)
       /\ User.email u = email_of form
       /\ (forall v, In v (users d) -> User.email v = email_of form -> v = u)
       /\ check_password_hash (User.password_hash u) (password_of form) = true
       /\ login check_password_hash POST form args s d
          = (AuthRedirectUrl (next_url_of args) "Logged in." "success",
             Some (User.id u))
       /\ fetch_user d (User.id u) = Some u
       /\ forall view,
            login_required view (Some (User.id u)) d = view (User.id u) d.
Proof.
  intros Hreach.
  destruct (reachable_emails_are_keys secure_filename generate_password_hash
              d Hreach) as [Hnd _].
  unfold login. fold (email_of form) (password_of form) (next_url_of args).
  destruct (select_user_by_email d (email_of form)) as [u|] eqn:Hsel.
  - unfold select_user_by_email in Hsel. apply find_some in Hsel as [Hin He].
    apply String.eqb_eq in He.
    assert (Huniq : forall v, In v (users d) ->
                              User.email v = email_of form -> v = u).
    { intros v Hv Ev. apply (unique_by_email (users d)); auto. congruence. }
    destruct (check_password_hash (User.password_hash u) (password_of form))
      eqn:Hc.
    + right. exists u.
      destruct (reachable_user_authenticated secure_filename
                  generate_password_hash d u Hreach Hin) as [Hf Hauth].
      repeat split; auto.
      intros view. now apply login_required_runs_view.
    + left. split; [reflexivity|].
      intros v Hv Ev. now rewrite (Huniq v Hv Ev).
  - left. split; [reflexivity|].
    intros v Hv Ev. exfalso. unfold select_user_by_email in Hsel.
    apply (find_none _ _ Hsel) in Hv. apply String.eqb_neq in Hv. auto.
Qed.

(** Ann logs in with her address in capitals; a wrong password is turned
    down. *)
Lemma login_opens_session_of_the_account_witness :
  login demo_check POST [("email", "ANN@UNI.EDU "); ("password", "pw1")]
    [("next", "/inbox")] None demo_db
  = (AuthRedirectUrl "/inbox" "Logged in." "success", Some 1)
  /\ login demo_check POST [("email", "ann@uni.edu"); ("password", "pw2")]
       [] None demo_db
     = (AuthRedirect ep_login "Invalid email or password." "error", None).
Proof.
  split.
  - destruct (login_opens_session_of_the_account demo_sanitize demo_hash
                demo_check [("email", "ANN@UNI.EDU "); ("password", "pw1")]
                [("next", "/inbox")] None demo_db demo_db_reachable)
      as [[_ H] | (u & _ & _ & _ & _ & H & _)]; reflexivity.
  - reflexivity.
Defined.
